(** * Meter-data ETL: hourly expansion, hourly features, daily and monthly rollups

    A shallow embedding of the feature pipeline of the repository
    ([src/data_io/reader.py] and [src/features/feature_generator.py]) together
    with the properties its specification states about it.

    Conventions of the embedding.
    - A numeric cell is an IEEE-754 binary64 value ([spec_float] at precision 53,
      [emax] 1024), as numpy's float64 and Python's float are.  A null numeric
      cell is NaN, as in pandas.
    - The cells of a frame have the types the data model gives them: the
      identifiers are strings, a [date] cell is a Timestamp, a string or a
      date object and denotes a calendar date, the items of a consumption
      array are float64.  An [energy_consumption] cell may be any object.
    - A calendar date is its proleptic Gregorian ordinal, the number
      [datetime.date.toordinal()] returns; a naive datetime is an ordinal and a
      second of the day.  The model puts no bound on the ordinal, so Python's
      OverflowError at the two ends of its supported range (years 1 and 9999)
      is outside it.
    - A pytz zone is its table of UTC transition instants; [localize],
      [fromutc] and [normalize] follow [pytz.tzinfo.DstTzInfo].
    - [pd.to_datetime] reads ISO-8601 timestamps ([parse_datetime] says which);
      any other string is one it cannot read.
    - pandas aggregations are their documented meaning over binary64:
      [sum] adds the non-null values from left to right starting at 0,
      [mean] divides that sum by the number of non-null values, [count]
      counts the non-null values, [max]/[idxmax] skip nulls and keep the first
      maximum.  The grouped sum and mean of the monthly aggregator are
      accumulated as pandas' [group_sum] and [group_mean] accumulate them,
      with Kahan compensation ([F64.group_sum], [F64.group_mean]).  The
      hourly and daily aggregates are modelled by the plain sum; the
      properties stated of them concern their sign and their nulls.
    - Logging is an explicit list of events returned next to the result. *)

From Stdlib Require Import ZArith Lia SpecFloat Ascii String.
From stdpp Require Import base tactics option list strings sorting.

#[local] Open Scope string_scope.
#[local] Open Scope list_scope.
#[local] Open Scope Z_scope.

(* ===================================================================== *)
(** ** Binary64 arithmetic *)
(* ===================================================================== *)

Module F64.

Definition prec : Z := 53.
Definition emax : Z := 1024.

Abbreviation float := spec_float.

Definition add : float -> float -> float := SFadd prec emax.
Definition sub : float -> float -> float := SFsub prec emax.
Definition mul : float -> float -> float := SFmul prec emax.
Definition div : float -> float -> float := SFdiv prec emax.
Definition sqrt : float -> float := SFsqrt prec emax.

(** The float nearest to an integer ([float(n)], or an integer literal
    written with a decimal point). *)
Definition of_Z (z : Z) : float := binary_normalize prec emax z 0 false.

Definition nan : float := S754_nan.
Definition zero : float := S754_zero false.
Definition inf : float := S754_infinity false.

Definition isna (x : float) : bool :=
  match x with S754_nan => true | _ => false end.

Definition eqb : float -> float -> bool := SFeqb.
Definition ltb : float -> float -> bool := SFltb.
Definition leb : float -> float -> bool := SFleb.

(** [np.isfinite]. *)
Definition isfinite (x : float) : bool :=
  match x with
  | S754_zero _ | S754_finite _ _ _ => true
  | S754_infinity _ | S754_nan => false
  end.

(** [np.rint]: the nearest integer, ties to even, as a float. *)
Definition rint (x : float) : float :=
  match x with
  | S754_finite s m e =>
      if 0 <=? e then x
      else
        let d := 2 ^ (- e) in
        let q := Z.pos m / d in
        let r := Z.pos m mod d in
        let q' := match 2 * r ?= d with
                  | Lt => q
                  | Gt => q + 1
                  | Eq => if Z.even q then q else q + 1
                  end in
        binary_normalize prec emax (if s then - q' else q') 0 s
  | _ => x
  end.

(** [Series.round(decimals)] for [decimals >= 0], as numpy computes it:
    scale by [10 ** decimals], [rint], scale back. *)
Definition round (decimals : Z) (x : float) : float :=
  let factor := of_Z (10 ^ decimals) in
  div (rint (mul x factor)) factor.

(** [Series.fillna(0)] and [Series.replace(np.inf, 0)] on one cell. *)
Definition fillna0 (x : float) : float := if isna x then zero else x.
Definition replace_inf0 (x : float) : float :=
  match x with S754_infinity false => zero | _ => x end.

(** pandas reductions over the cells of a group. *)
Definition dropna (l : list float) : list float :=
  filter (fun x => isna x = false) l.

Definition count (l : list float) : Z := Z.of_nat (length (dropna l)).

Definition sum (l : list float) : float := fold_left add (dropna l) zero.

Definition mean (l : list float) : float :=
  div (sum l) (of_Z (count l)).

(** The grouped [sum] and [mean] as pandas accumulates them
    ([group_sum], [group_mean] of [pandas/_libs/groupby.pyx]): Kahan
    summation over the non-null cells of the group in frame order.  The
    state is the running sum and the compensation, both 0 at the start;
    a group without a non-null cell sums to 0 and has a null mean. *)
Definition kahan_step (st : float * float) (val : float) : float * float :=
  let '(sumx, compensation) := st in
  let y := sub val compensation in
  let t := add sumx y in
  (t, sub (sub t sumx) y).

Definition group_sum (l : list float) : float :=
  (fold_left kahan_step (dropna l) (zero, zero)).1.

Definition group_mean (l : list float) : float :=
  if count l =? 0 then nan else div (group_sum l) (of_Z (count l)).

(** The first maximum among the non-null cells: its position and value.
    [None] for a group with no non-null cell. *)
Fixpoint idxmax_from (i : nat) (l : list float) (best : option (nat * float))
  : option (nat * float) :=
  match l with
  | [] => best
  | x :: l' =>
      let best' :=
        if isna x then best
        else match best with
             | None => Some (i, x)
             | Some (_, b) => if ltb b x then Some (i, x) else best
             end in
      idxmax_from (S i) l' best'
  end.

Definition idxmax (l : list float) : option (nat * float) :=
  idxmax_from 0 l None.

Definition max (l : list float) : float :=
  match idxmax l with Some (_, v) => v | None => nan end.

(** Sample standard deviation ([ddof = 1]) of the non-null cells; null when
    fewer than two remain. *)
Definition std (l : list float) : float :=
  let obs := dropna l in
  let n := Z.of_nat (length obs) in
  if n <=? 1 then nan
  else
    let mu := div (fold_left add obs zero) (of_Z n) in
    let ss := fold_left (fun acc x => add acc (mul (sub x mu) (sub x mu))) obs zero in
    sqrt (div ss (of_Z (n - 1))).

(** [has_sign s x]: the sign bit of [x] is [s], or [x] is a NaN. *)
Definition has_sign (s : bool) (x : float) : Prop :=
  match x with
  | S754_zero s' | S754_infinity s' | S754_finite s' _ _ => s' = s
  | S754_nan => True
  end.

End F64.

Abbreviation float := spec_float.

(** The place of a non-null float in the order [SFcompare] decides: its
    class (negative infinity, negative, zero, positive, positive infinity),
    then the exponent, then the mantissa, the last two reversed for a
    negative value. *)
Module F64Order.

Definition rank (x : float) : Z * Z * Z :=
  match x with
  | S754_infinity true => (-2, 0, 0)
  | S754_infinity false => (2, 0, 0)
  | S754_zero _ | S754_nan => (0, 0, 0)
  | S754_finite false m e => (1, e, Z.pos m)
  | S754_finite true m e => (-1, - e, - Z.pos m)
  end.

Definition lex_lt (a b : Z * Z * Z) : Prop :=
  a.1.1 < b.1.1
  \/ (a.1.1 = b.1.1 /\ (a.1.2 < b.1.2 \/ (a.1.2 = b.1.2 /\ a.2 < b.2))).

End F64Order.

(* ===================================================================== *)
(** ** Calendar dates and datetimes (Python's [datetime] module) *)
(* ===================================================================== *)

Module Calendar.

(** [datetime._is_leap], [_days_before_year], [_days_in_month],
    [_days_before_month], [_ymd2ord]. *)
Definition is_leap (y : Z) : bool :=
  (y mod 4 =? 0) && (negb (y mod 100 =? 0) || (y mod 400 =? 0)).

Definition days_before_year (year : Z) : Z :=
  let y := year - 1 in y * 365 + y / 4 - y / 100 + y / 400.

Definition DAYS_IN_MONTH : list Z :=
  [0; 31; 28; 31; 30; 31; 30; 31; 31; 30; 31; 30; 31].
Definition DAYS_BEFORE_MONTH : list Z :=
  [0; 0; 31; 59; 90; 120; 151; 181; 212; 243; 273; 304; 334].

Definition days_in_month (year month : Z) : Z :=
  if (month =? 2) && is_leap year then 29
  else nth (Z.to_nat month) DAYS_IN_MONTH 0.

Definition days_before_month (year month : Z) : Z :=
  nth (Z.to_nat month) DAYS_BEFORE_MONTH 0
  + (if (2 <? month) && is_leap year then 1 else 0).

Definition ymd2ord (year month day : Z) : Z :=
  days_before_year year + days_before_month year month + day.

Definition DI400Y : Z := 146097.
Definition DI100Y : Z := 36524.
Definition DI4Y : Z := 1461.

(** [datetime._ord2ymd]: ordinal to (year, month, day). *)
Definition ord2ymd (ordinal : Z) : Z * Z * Z :=
  let n := ordinal - 1 in
  let n400 := n / DI400Y in
  let n := n mod DI400Y in
  let year := n400 * 400 + 1 in
  let n100 := n / DI100Y in
  let n := n mod DI100Y in
  let n4 := n / DI4Y in
  let n := n mod DI4Y in
  let n1 := n / 365 in
  let n := n mod 365 in
  let year := year + n100 * 100 + n4 * 4 + n1 in
  if (n1 =? 4) || (n100 =? 4) then (year - 1, 12, 31)
  else
    let leapyear := (n1 =? 3) && (negb (n4 =? 24) || (n100 =? 3)) in
    let month := Z.shiftr (n + 50) 5 in
    let preceding :=
      nth (Z.to_nat month) DAYS_BEFORE_MONTH 0
      + (if (2 <? month) && leapyear then 1 else 0) in
    if n <? preceding then
      let month := month - 1 in
      let preceding :=
        preceding - (nth (Z.to_nat month) DAYS_IN_MONTH 0
                     + (if (month =? 2) && leapyear then 1 else 0)) in
      (year, month, n - preceding + 1)
    else (year, month, n - preceding + 1).

(** A calendar date is its ordinal ([date.toordinal()]). *)
Definition date := Z.

Definition mkdate (year month day : Z) : date := ymd2ord year month day.
Definition date_year (d : date) : Z := fst (fst (ord2ymd d)).
Definition date_month (d : date) : Z := snd (fst (ord2ymd d)).
Definition date_day (d : date) : Z := snd (ord2ymd d).

(** [date.weekday()]: Monday is 0. *)
Definition weekday (d : date) : Z := (d + 6) mod 7.

(** A naive [datetime]: a date and the second of its day (the model keeps
    whole seconds; every datetime the pipeline builds has none below). *)
Record datetime := mkdatetime { dt_date : date; dt_second : Z }.

(** [datetime.combine(d, time(hh, mm))]. *)
Definition combine (d : date) (hh mm : Z) : datetime :=
  mkdatetime d (hh * 3600 + mm * 60).

(** Seconds since the start of ordinal day 0: the total order on naive
    datetimes. *)
Definition dt_seconds (dt : datetime) : Z := dt_date dt * 86400 + dt_second dt.

(** [dt + timedelta(seconds = s)]: Python adds to (days, seconds) and
    renormalises with [divmod]. *)
Definition dt_add (dt : datetime) (s : Z) : datetime :=
  let total := dt_second dt + s in
  mkdatetime (dt_date dt + total / 86400) (total mod 86400).

Definition dt_hour (dt : datetime) : Z := dt_second dt / 3600.
Definition dt_minute (dt : datetime) : Z := dt_second dt mod 3600 / 60.
Definition dt_sec (dt : datetime) : Z := dt_second dt mod 60.

Definition dt_eqb (a b : datetime) : bool :=
  (dt_date a =? dt_date b) && (dt_second a =? dt_second b).


(** *** Decimal rendering *)

Definition digit (n : Z) : ascii := ascii_of_nat (48 + Z.to_nat (n mod 10)).

Definition pad2 (n : Z) : string :=
  String (digit (n / 10)) (String (digit n) "").

Definition pad4 (n : Z) : string :=
  String (digit (n / 1000)) (String (digit (n / 100)) (pad2 n)).

(** [date.isoformat()]: YYYY-MM-DD. *)
Definition date_isoformat (d : date) : string :=
  let '(y, m, dd) := ord2ymd d in
  pad4 y +:+ "-" +:+ pad2 m +:+ "-" +:+ pad2 dd.

(** [datetime.isoformat()] of a naive value: YYYY-MM-DDTHH:MM:SS. *)
Definition dt_isoformat (dt : datetime) : string :=
  date_isoformat (dt_date dt) +:+ "T" +:+ pad2 (dt_hour dt) +:+ ":"
    +:+ pad2 (dt_minute dt) +:+ ":" +:+ pad2 (dt_sec dt).

(** The UTC offset as [isoformat] prints it: sign, HH:MM, and :SS when the
    offset has seconds. *)
Definition offset_isoformat (off : Z) : string :=
  let a := Z.abs off in
  (if off <? 0 then "-" else "+") +:+ pad2 (a / 3600) +:+ ":"
    +:+ pad2 (a mod 3600 / 60)
    +:+ (if a mod 60 =? 0 then "" else ":" +:+ pad2 (a mod 60)).

(** A datetime whose second of the day is in range, as every datetime
    Python builds is. *)
Definition normalized (dt : datetime) : Prop := 0 <= dt_second dt < 86400.

End Calendar.

(* ===================================================================== *)
(** ** Time zones (pytz) *)
(* ===================================================================== *)

Module Tz.
Import Calendar.

(** What a pytz tzinfo instance of a zone fixes: the UTC offset and the
    daylight-saving part of it, in seconds. *)
Record tzinfo := mktzinfo { utcoffset : Z; dst : Z }.

Definition tzinfo_eqb (a b : tzinfo) : bool :=
  (utcoffset a =? utcoffset b) && (dst a =? dst b).

Definition UTC : tzinfo := mktzinfo 0 0.

(** An aware datetime: wall-clock fields and the tzinfo attached to them.
    The tzinfo of a localized pytz datetime is one fixed-offset instance;
    it does not change when the wall clock is moved. *)
Record aware := mkaware { wall : datetime; tz_of : tzinfo }.

Definition aware_eqb (a b : aware) : bool :=
  dt_eqb (wall a) (wall b) && tzinfo_eqb (tz_of a) (tz_of b).

(** The instant an aware datetime denotes, as a naive UTC datetime. *)
Definition utc_of (a : aware) : datetime :=
  dt_add (wall a) (- utcoffset (tz_of a)).

(** [aware + timedelta(seconds = s)]: datetime arithmetic moves the wall
    clock and keeps the tzinfo object. *)
Definition aware_add (a : aware) (s : Z) : aware :=
  mkaware (dt_add (wall a) s) (tz_of a).

(** [a.astimezone(pytz.UTC)]. *)
Definition astimezone_utc (a : aware) : aware := mkaware (utc_of a) UTC.

(** [a.isoformat()]. *)
Definition isoformat (a : aware) : string :=
  dt_isoformat (wall a) +:+ offset_isoformat (utcoffset (tz_of a)).

(** A [pytz.tzinfo.DstTzInfo]: the tzinfo in force before the first
    transition, and the transitions in ascending order of their UTC
    instant, each with the tzinfo in force from it on. *)
Record DstTzInfo := mkzone {
  zone : string;
  first_info : tzinfo;
  transitions : list (datetime * tzinfo)
}.

(** [_transition_info[max(0, bisect_right(_utc_transition_times, t) - 1)]]. *)
Fixpoint info_from (cur : tzinfo) (trs : list (datetime * tzinfo)) (t : Z)
  : tzinfo :=
  match trs with
  | [] => cur
  | (at_, inf) :: rest =>
      if dt_seconds at_ <=? t then info_from inf rest t else cur
  end.

Definition info_at (tz : DstTzInfo) (t : datetime) : tzinfo :=
  info_from (first_info tz) (transitions tz) (dt_seconds t).

(** [tz.fromutc(dt)]. *)
Definition fromutc (tz : DstTzInfo) (utc : datetime) : aware :=
  let inf := info_at tz utc in
  mkaware (dt_add utc (utcoffset inf)) inf.

(** [tz.normalize(a)]: the same instant with the tzinfo the zone has at
    that instant. *)
Definition normalize (tz : DstTzInfo) (a : aware) : aware :=
  fromutc tz (utc_of a).

(** The candidates [localize] collects: a day before and a day after the
    wall time are looked up as if they were UTC, and a tzinfo found so is
    kept when the wall time read with it normalizes to itself. *)
Definition localize_candidates (tz : DstTzInfo) (dt : datetime) : list aware :=
  let try_ (delta : Z) :=
    let inf := info_at tz (dt_add dt delta) in
    let loc := normalize tz (mkaware dt inf) in
    if dt_eqb (wall loc) dt then [loc] else [] in
  let c1 := try_ (-86400) in
  let c2 := try_ 86400 in
  c1 ++ filter (fun c => forallb (fun c' => negb (aware_eqb c c')) c1 = true) c2.

(** [tz.localize(dt, is_dst=False)].  One candidate: that one.  None (the
    wall time is skipped by a transition): localize six hours earlier and
    move the wall clock forward again.  Two (the wall time occurs twice):
    the one without daylight saving if exactly one is so, else the later
    instant.  The recursion of the skipped case is bounded by [fuel]; when
    it runs out the tzinfo of the day before is attached as it is. *)
Fixpoint localize_fuel (fuel : nat) (tz : DstTzInfo) (dt : datetime) : aware :=
  match localize_candidates tz dt with
  | [c] => c
  | [] =>
      match fuel with
      | O => mkaware dt (info_at tz (dt_add dt (-86400)))
      | S fuel' => aware_add (localize_fuel fuel' tz (dt_add dt (-21600))) 21600
      end
  | c1 :: c2 :: _ =>
      match filter (fun c => dst (tz_of c) = 0) [c1; c2] with
      | [c] => c
      | _ =>
          if dt_seconds (utc_of c1) <? dt_seconds (utc_of c2) then c2 else c1
      end
  end.

Definition localize (tz : DstTzInfo) (dt : datetime) : aware :=
  localize_fuel 8 tz dt.

(** *** Europe/Vilnius

    The zone the settings name ([LOCAL_TZNAME]).  The table is the part of
    the IANA rules for 2022-2026: EET (UTC+2) in winter, EEST (UTC+3) from
    01:00 UTC on the last Sunday of March to 01:00 UTC on the last Sunday
    of October. *)
Definition EET : tzinfo := mktzinfo 7200 0.
Definition EEST : tzinfo := mktzinfo 10800 3600.

Definition at_utc (y m d hh : Z) : datetime := combine (mkdate y m d) hh 0.

Definition Europe_Vilnius : DstTzInfo :=
  mkzone "Europe/Vilnius" EET
    [ (at_utc 2022 3 27 1, EEST); (at_utc 2022 10 30 1, EET);
      (at_utc 2023 3 26 1, EEST); (at_utc 2023 10 29 1, EET);
      (at_utc 2024 3 31 1, EEST); (at_utc 2024 10 27 1, EET);
      (at_utc 2025 3 30 1, EEST); (at_utc 2025 10 26 1, EET);
      (at_utc 2026 3 29 1, EEST); (at_utc 2026 10 25 1, EET) ].

End Tz.

(* ===================================================================== *)
(** ** Results, exceptions and the log *)
(* ===================================================================== *)

(** The exceptions the stages raise themselves. *)
Inductive exn :=
| ValueError (msg : string)
| KeyError (msg : string)
| TypeError (msg : string)
| NonExistentTimeError
| AmbiguousTimeError.

(** A call either returns a value or raises. *)
Inductive result (A : Type) :=
| Returned (a : A)
| Raised (e : exn).
Arguments Returned {A} a.
Arguments Raised {A} e.

#[export] Instance result_ret : MRet result := fun _ a => Returned a.
#[export] Instance result_bind : MBind result := fun _ _ f m =>
  match m with Returned a => f a | Raised e => Raised e end.

(** Stable insertion sort: [sort_values] on a key with a total preorder. *)
Section Sorting.
Context {A : Type} (le : A -> A -> bool).

Fixpoint insert_sorted (x : A) (l : list A) : list A :=
  match l with
  | [] => [x]
  | y :: l' => if le x y then x :: l else y :: insert_sorted x l'
  end.

Definition sort_values (l : list A) : list A :=
  foldr insert_sorted [] l.
End Sorting.

(** Lexicographic order on two string keys. *)
Definition str_leb (a b : string) : bool := String.leb a b.
Definition str_ltb (a b : string) : bool := String.ltb a b.

(* ===================================================================== *)
(** ** Hourly expansion ([src/data_io/reader.py]) *)
(* ===================================================================== *)

Module Reader.
Import Calendar Tz.

(** The [date] cell of a meter-day row, by the three shapes the expander
    tells apart.  A string cell stands for the timestamp [pd.to_datetime]
    reads from it. *)
Inductive date_cell :=
| Date_Timestamp (ts : datetime)
| Date_str (parsed : datetime)
| Date_date (d : date).

(** The [energy_consumption] cell.  The three array-like classes carry
    float64 items; [Not_array] is any other object (None, a scalar, a
    string). *)
Inductive array_cell :=
| Py_list (items : list float)
| Py_tuple (items : list float)
| Np_ndarray (items : list float)
| Not_array.

(** One input row (a MeterDayRecord).  [resolution] is [None] when the
    value is missing. *)
Record MeterDayRecord := mkMeterDay {
  client_id : string;
  ext_dev_ref : string;
  date_ : date_cell;
  resolution : option string;
  energy_consumption : array_cell
}.

(** The input frame: its column labels and its rows in index order (the
    index is the default 0..n-1). *)
Record DataFrame := mkDataFrame {
  columns : list string;
  rows : list MeterDayRecord
}.

(** One emitted row (an HourlyRecord). *)
Record HourlyRecord := mkHourly {
  h_client_id : string;
  h_ext_dev_ref : string;
  h_resolution : option string;
  date_local : string;
  hour : Z;
  timestamp_local : string;
  timestamp_utc : string;
  consumption_kwh : float
}.

(** [isinstance(arr, (list, tuple, np.ndarray))] and the items then. *)
Definition array_items (arr : array_cell) : option (list float) :=
  match arr with
  | Py_list l | Py_tuple l | Np_ndarray l => Some l
  | Not_array => None
  end.

(** [not isinstance(arr, (list, tuple, np.ndarray)) or len(arr) != 24]. *)
Definition invalid_array (arr : array_cell) : bool :=
  match array_items arr with
  | None => true
  | Some l => negb (Nat.eqb (length l) 24)
  end.

(** The three-way resolution of the date cell to a calendar date. *)
Definition resolve_date (raw_date : date_cell) : date :=
  match raw_date with
  | Date_Timestamp ts => dt_date ts
  | Date_str parsed => dt_date parsed
  | Date_date d => d
  end.

(** The records the expander hands to the logger, with the arguments of
    the message. *)
Inductive log_event :=
| Warning_skip_row (idx : nat) (dev : string) (raw_date : date_cell)
| Warning_empty_hourly
| Info_expanded (n : nat).

(** [float(v)] of a float64 item. *)
Definition py_float (v : float) : float := v.

(** [row.get("resolution")]: the cell, or None when the frame has no such
    column. *)
Definition get_resolution (cols : list string) (row : MeterDayRecord)
  : option string :=
  if bool_decide ("resolution" ∈ cols) then resolution row else None.

(** The dict appended for hour [h] with item [v]. *)
Definition hourly_row (cols : list string) (row : MeterDayRecord)
    (day_date : date) (local_midnight : aware) (h : nat) (v : float)
  : HourlyRecord :=
  let ts_local := aware_add local_midnight (Z.of_nat h * 3600) in
  let ts_utc := astimezone_utc ts_local in
  {| h_client_id := client_id row;
     h_ext_dev_ref := ext_dev_ref row;
     h_resolution := get_resolution cols row;
     date_local := date_isoformat day_date;
     hour := Z.of_nat h;
     timestamp_local := isoformat ts_local;
     timestamp_utc := isoformat ts_utc;
     consumption_kwh := py_float v |}.

(** The body of the loop over [df.iterrows()] for one row: the rows it
    appends and the records it logs. *)
Definition expand_row (timezone : DstTzInfo) (cols : list string)
    (idx : nat) (row : MeterDayRecord) : list HourlyRecord * list log_event :=
  let arr := energy_consumption row in
  if invalid_array arr then
    ([], [Warning_skip_row idx (ext_dev_ref row) (date_ row)])
  else
    let day_date := resolve_date (date_ row) in
    let local_midnight := localize timezone (combine day_date 0 0) in
    (imap (hourly_row cols row day_date local_midnight)
          (default [] (array_items arr)), []).

(** The loop: [rows] and the log grow row by row. *)
Fixpoint expand_loop (timezone : DstTzInfo) (cols : list string) (idx : nat)
    (input : list MeterDayRecord) (acc : list HourlyRecord) (log : list log_event)
  : list HourlyRecord * list log_event :=
  match input with
  | [] => (acc, log)
  | row :: rest =>
      let '(new, events) := expand_row timezone cols idx row in
      expand_loop timezone cols (S idx) rest (acc ++ new) (log ++ events)
  end.

Definition required : list string :=
  ["client_id"; "ext_dev_ref"; "date"; "energy_consumption"].

(** [sort_values(["ext_dev_ref", "timestamp_local"])]: both keys are
    strings. *)
Definition hourly_le (a b : HourlyRecord) : bool :=
  str_ltb (h_ext_dev_ref a) (h_ext_dev_ref b)
  || (String.eqb (h_ext_dev_ref a) (h_ext_dev_ref b)
      && str_leb (timestamp_local a) (timestamp_local b)).

(** [expand_daily_array_to_hourly(df, timezone=...)] with the default
    column names: the hourly frame and the log, or the exception. *)
Definition expand_daily_array_to_hourly (df : DataFrame) (timezone : DstTzInfo)
  : result (list HourlyRecord * list log_event) :=
  if negb (bool_decide (required ⊆ columns df)) then
    Raised (ValueError "Input dataframe must contain columns")
  else
    let '(rows_, log) := expand_loop timezone (columns df) 0 (rows df) [] [] in
    match rows_ with
    | [] => Returned ([], log ++ [Warning_empty_hourly])
    | _ =>
        let df_hourly := sort_values hourly_le rows_ in
        Returned (df_hourly, log ++ [Info_expanded (length df_hourly)])
    end.

(** The zone of the settings, the default of [timezone]. *)
Definition LOCAL_TZ : DstTzInfo := Europe_Vilnius.

(** What a call hands back apart from the log: the frame, or the
    exception. *)
Definition returned_frame (r : result (list HourlyRecord * list log_event))
  : result (list HourlyRecord) :=
  match r with
  | Returned (out, _) => Returned out
  | Raised e => Raised e
  end.

End Reader.

(* ===================================================================== *)
(** ** Timestamp strings ([pd.to_datetime], [_TZ_DETECT_RE]) *)
(* ===================================================================== *)

Module Timestamps.
Import Calendar Tz.

Definition is_digit (c : ascii) : bool :=
  let n := nat_of_ascii c in (48 <=? n)%nat && (n <=? 57)%nat.

Definition digit_value (c : ascii) : Z := Z.of_nat (nat_of_ascii c) - 48.

(** Exactly [n] decimal digits. *)
Fixpoint read_digits (n : nat) (s : list ascii) (acc : Z)
  : option (Z * list ascii) :=
  match n with
  | O => Some (acc, s)
  | S n' =>
      match s with
      | c :: s' =>
          if is_digit c then read_digits n' s' (acc * 10 + digit_value c)
          else None
      | [] => None
      end
  end.

Definition expect (c : ascii) (s : list ascii) : option (list ascii) :=
  match s with
  | c' :: s' => if Ascii.eqb c c' then Some s' else None
  | [] => None
  end.

Definition is_sign (c : ascii) : bool := Ascii.eqb c "+" || Ascii.eqb c "-".

(** [_TZ_DETECT_RE = ([+-]\d{2}:\d{2}|[+-]\d{4}|Z)$], searched in a string:
    the string ends with one of the three tokens.  Python's [$] also
    matches before one final newline. *)
Definition ends_with_tz_token (rev_s : list ascii) : bool :=
  match rev_s with
  | "Z"%char :: _ => true
  | m2 :: m1 :: ":"%char :: h2 :: h1 :: sg :: _ =>
      is_digit m2 && is_digit m1 && is_digit h2 && is_digit h1 && is_sign sg
  | d4 :: d3 :: d2 :: d1 :: sg :: _ =>
      is_digit d4 && is_digit d3 && is_digit d2 && is_digit d1 && is_sign sg
  | _ => false
  end.

Definition _TZ_DETECT_RE_search (s : string) : bool :=
  let r := rev (list_ascii_of_string s) in
  ends_with_tz_token r
  || match r with
     | c :: r' => Ascii.eqb c (ascii_of_nat 10) && ends_with_tz_token r'
     | [] => false
     end.

(** The trailing offset of an ISO timestamp: nothing, [Z], [+HH:MM] or
    [+HHMM]. *)
Definition parse_offset (s : list ascii) : option (option Z) :=
  match s with
  | [] => Some None
  | ["Z"%char] => Some (Some 0)
  | sg :: rest =>
      if is_sign sg then
        '(hh, rest) ← read_digits 2 rest 0;
        '(mm, rest) ← read_digits 2 (default rest (expect ":" rest)) 0;
        match rest with
        | [] =>
            if (hh <? 24) && (mm <? 60) then
              let off := hh * 3600 + mm * 60 in
              Some (Some (if Ascii.eqb sg "-" then - off else off))
            else None
        | _ => None
        end
      else None
  end.

(** What [pd.to_datetime] reads from one string: the wall-clock datetime and
    the offset the string carries, if any.  The model reads ISO-8601 dates
    and timestamps ([YYYY-MM-DD], then optionally [T] or a space and
    [HH:MM] or [HH:MM:SS], then optionally an offset); [None] is a string
    the parser does not read (NaT under [errors="coerce"]). *)
Definition parse_datetime (str : string) : option (datetime * option Z) :=
  let s := list_ascii_of_string str in
  '(y, s) ← read_digits 4 s 0;
  s ← expect "-" s;
  '(m, s) ← read_digits 2 s 0;
  s ← expect "-" s;
  '(d, s) ← read_digits 2 s 0;
  if negb ((1 <=? m) && (m <=? 12) && (1 <=? d) && (d <=? days_in_month y m))
  then None
  else
    let day := mkdate y m d in
    match s with
    | [] => Some (mkdatetime day 0, None)
    | sep :: s =>
        if Ascii.eqb sep "T" || Ascii.eqb sep " " then
          '(hh, s) ← read_digits 2 s 0;
          s ← expect ":" s;
          '(mi, s) ← read_digits 2 s 0;
          '(ss, s) ← match expect ":" s with
                     | Some s' => read_digits 2 s' 0
                     | None => Some (0, s)
                     end;
          off ← parse_offset s;
          if (hh <? 24) && (mi <? 60) && (ss <? 60) then
            Some (mkdatetime day (hh * 3600 + mi * 60 + ss), off)
          else None
        else None
    end.

(** A cell of a timestamp column of object dtype: null, a string, or a
    [pd.Timestamp] (aware when it has a tzinfo). *)
Inductive ts_cell :=
| Ts_null
| Ts_str (s : string)
| Ts_Timestamp (t : datetime) (tz : option tzinfo).

(** A timestamp column: of a tz-aware datetime dtype (every value an
    instant shown in the column's zone, [None] for NaT), or of object
    dtype. *)
Inductive Series :=
| Series_datetime64tz (vals : list (option aware))
| Series_object (vals : list ts_cell).

(** [str(x)]. *)
Definition cell_str (x : ts_cell) : string :=
  match x with
  | Ts_null => "nan"
  | Ts_str s => s
  | Ts_Timestamp t tz =>
      date_isoformat (dt_date t) +:+ " " +:+ pad2 (dt_hour t) +:+ ":"
        +:+ pad2 (dt_minute t) +:+ ":" +:+ pad2 (dt_sec t)
        +:+ match tz with
            | Some i => offset_isoformat (utcoffset i)
            | None => ""
            end
  end.

Definition isna (x : ts_cell) : bool :=
  match x with Ts_null => true | _ => false end.

(** [pd.to_datetime(x, utc=True, errors="coerce")] on one cell: the UTC
    instant.  An offset in the value is applied; a value without one is
    taken to be UTC already. *)
Definition to_datetime_utc (x : ts_cell) : option datetime :=
  match x with
  | Ts_null => None
  | Ts_str s =>
      '(w, off) ← parse_datetime s;
      Some (dt_add w (- default 0 off))
  | Ts_Timestamp t tz => Some (dt_add t (- from_option utcoffset 0 tz))
  end.

(** [pd.to_datetime(x, errors="coerce")] on one cell: the wall clock and
    the offset it came with. *)
Definition to_datetime (x : ts_cell) : option (datetime * option Z) :=
  match x with
  | Ts_null => None
  | Ts_str s => parse_datetime s
  | Ts_Timestamp t tz => Some (t, utcoffset <$> tz)
  end.

(** [.tz_convert(local_tz)] of an instant. *)
Definition tz_convert (local_tz : DstTzInfo) (utc : option datetime)
  : option aware :=
  fromutc local_tz <$> utc.

(** [.tz_localize(local_tz)] of a naive wall time, as pandas does it: a wall
    time the zone skips or repeats raises. *)
Definition tz_localize (local_tz : DstTzInfo) (w : option datetime)
  : result (option aware) :=
  match w with
  | None => Returned None
  | Some dt =>
      match localize_candidates local_tz dt with
      | [c] => Returned (Some c)
      | [] => Raised NonExistentTimeError
      | _ => Raised AmbiguousTimeError
      end
  end.

(** [series.map(f)] / elementwise application, stopping at the first
    exception. *)
Fixpoint map_result {A B : Type} (f : A -> result B) (l : list A)
  : result (list B) :=
  match l with
  | [] => Returned []
  | x :: l' =>
      match f x with
      | Raised e => Raised e
      | Returned y =>
          match map_result f l' with
          | Raised e => Raised e
          | Returned ys => Returned (y :: ys)
          end
      end
  end.

(** [_series_has_tz_offset]: some non-null value, as a string, ends with an
    offset token. *)
Definition _series_has_tz_offset (s : list ts_cell) : bool :=
  let non_null := map cell_str (filter (fun x => isna x = false) s) in
  match non_null with
  | [] => false
  | _ => existsb _TZ_DETECT_RE_search non_null
  end.

(** The inner function of [_parse_timestamp_local_to_tz]. *)
Definition _ensure_tz (local_tz : DstTzInfo) (x : ts_cell) : result (option aware) :=
  match x with
  | Ts_null => Returned None
  | Ts_Timestamp t (Some i) => Returned (Some (fromutc local_tz (utc_of (mkaware t i))))
  | _ =>
      if _TZ_DETECT_RE_search (cell_str x) then
        Returned (tz_convert local_tz (to_datetime_utc x))
      else
        match to_datetime x with
        | Some (_, Some _) =>
            Raised (TypeError "Cannot localize tz-aware Timestamp")
        | Some (w, None) => tz_localize local_tz (Some w)
        | None => Returned None
        end
  end.

Definition has_tzinfo (x : ts_cell) : bool :=
  match x with Ts_Timestamp _ (Some _) => true | _ => false end.

(** The zone of the settings, the default of [local_tz]. *)
Definition _LOCAL_TZ : DstTzInfo := Europe_Vilnius.

(** [_parse_timestamp_local_to_tz(series, local_tz)]. *)
Definition _parse_timestamp_local_to_tz (series : Series) (local_tz : DstTzInfo)
  : result (list (option aware)) :=
  match series with
  | Series_datetime64tz vals => Returned vals
  | Series_object vals =>
      if existsb has_tzinfo vals then map_result (_ensure_tz local_tz) vals
      else
        let has_tz := _series_has_tz_offset vals in
        if has_tz then
          let parsed := map to_datetime_utc vals in
          Returned (map (tz_convert local_tz) parsed)
        else
          let parsed := map to_datetime vals in
          if existsb (fun p => match p with Some (_, Some _) => true | _ => false end) parsed
          then
            Returned (map (fun p =>
                        match p with
                        | Some (w, off) =>
                            tz_convert local_tz (Some (dt_add w (- default 0 off)))
                        | None => None
                        end) parsed)
          else map_result (fun p => tz_localize local_tz (fst <$> p)) parsed
  end.

End Timestamps.

(* ===================================================================== *)
(** ** Grouping ([DataFrame.groupby]) *)
(* ===================================================================== *)

(** Lexicographic comparison of key tuples. *)
Definition lex (c1 c2 : comparison) : comparison :=
  match c1 with Eq => c2 | _ => c1 end.

Definition not_gt (c : comparison) : bool :=
  match c with Gt => false | _ => true end.

Section Groupby.
Context {R K : Type} `{EqDecision K} (key : R -> K) (key_cmp : K -> K -> comparison).

(** The group keys: the distinct keys, in ascending order ([sort=True]). *)
Definition group_keys (rows : list R) : list K :=
  sort_values (fun a b => not_gt (key_cmp a b)) (remove_dups (map key rows)).

(** The rows of one group, in frame order. *)
Definition group_of (rows : list R) (k : K) : list R :=
  filter (fun r => key r = k) rows.

(** [df.groupby(keys)]: every key with its rows. *)
Definition groupby (rows : list R) : list (K * list R) :=
  map (fun k => (k, group_of rows k)) (group_keys rows).

(** [df.groupby(keys)[col].transform(f)]: [f] maps the column of a group to
    a column of the same length, and every row receives the entry at its
    position within its group. *)
Definition transform (val : R -> float) (f : list float -> list float)
    (rows : list R) : list float :=
  imap (fun i r =>
          let pos := length (group_of (take i rows) (key r)) in
          nth pos (f (map val (group_of rows (key r)))) F64.nan)
       rows.
End Groupby.

(* ===================================================================== *)
(** ** Feature generation ([src/features/feature_generator.py]) *)
(* ===================================================================== *)

Module Features.
Import Calendar Tz Timestamps.

(** *** Hourly rows with time features *)

(** A row of the hourly frame once [add_time_features_hourly] has added the
    parsed [timestamp] and the calendar columns. *)
Record HourlyFeatures := mkHourlyFeatures {
  client_id : string;
  ext_dev_ref : string;
  timestamp : aware;
  hour : Z;
  date_local : string;
  consumption_kwh : float
}.

(** The order [sort_values(["ext_dev_ref", ts_col])] sorts by: the device,
    then the instant. *)
Definition by_device_time (a b : HourlyFeatures) : bool :=
  not_gt (lex (String.compare (ext_dev_ref a) (ext_dev_ref b))
              (dt_seconds (utc_of (timestamp a))
                 ?= dt_seconds (utc_of (timestamp b)))).

(** [s.shift(n)] for [n >= 0]: [n] nulls in front, the tail cut. *)
Definition shift (n : nat) (s : list float) : list float :=
  take (length s) (replicate n F64.nan ++ s).

(** [s.rolling(window, min_periods).agg()]: at each position the window is
    the last [window] entries up to and including it; the result is null
    when fewer than [min_periods] of them are non-null. *)
Definition rolling (window min_periods : nat) (agg : list float -> float)
    (s : list float) : list float :=
  imap (fun i _ =>
          let w := drop (S i - window) (take (S i) s) in
          if (length (F64.dropna w) <? min_periods)%nat then F64.nan
          else agg w)
       s.

(** A row with the lag columns. *)
Record WithLags := mkWithLags {
  lag_row : HourlyFeatures;
  lags : list float
}.

(** [add_lag_features(df, lags)]: one column per lag, in the order given. *)
Definition add_lag_features (df : list HourlyFeatures) (lags_ : list nat)
  : list WithLags :=
  let df := sort_values by_device_time df in
  let cols := map (fun lag => transform ext_dev_ref consumption_kwh (shift lag) df)
                  lags_ in
  imap (fun i r => mkWithLags r (map (fun col => nth i col F64.nan) cols)) df.

(** A row with the two rolling columns. *)
Record WithRolling := mkWithRolling {
  rolling_row : HourlyFeatures;
  rolling_mean : float;
  rolling_std : float
}.

(** [add_rolling_features_hourly(df, window_hours)]. *)
Definition add_rolling_features_hourly (df : list HourlyFeatures)
    (window_hours : nat) : list WithRolling :=
  let df := sort_values by_device_time df in
  let mean_col :=
    transform ext_dev_ref consumption_kwh
      (fun s => rolling window_hours 1 F64.mean (shift 1 s)) df in
  let std_col :=
    transform ext_dev_ref consumption_kwh
      (fun s => map F64.fillna0 (rolling window_hours 1 F64.std (shift 1 s))) df in
  imap (fun i r =>
          mkWithRolling r (nth i mean_col F64.nan) (nth i std_col F64.nan))
       df.

(** *** Daily aggregation *)

Record DailyRecord := mkDaily {
  d_client_id : string;
  d_ext_dev_ref : string;
  d_date_local : string;
  total_kwh : float;
  mean_kwh : float;
  max_kwh : float;
  std_kwh : float;
  hourly_count : Z;
  peak_hour : Z;
  peak_kwh : float;
  peak_to_mean_ratio : float;
  night_kwh : float;
  day_kwh : float;
  cumulative_total_kwh : float;
  weekend_vs_weekday : float
}.

Definition daily_key (r : HourlyFeatures) : string * string * string :=
  (client_id r, ext_dev_ref r, date_local r).

Definition cmp3 (a b : string * string * string) : comparison :=
  lex (String.compare a.1.1 b.1.1)
      (lex (String.compare a.1.2 b.1.2) (String.compare a.2 b.2)).

(** [(res["peak_kwh"] / res["mean_kwh"]).replace(np.inf, 0).fillna(0)]. *)
Definition ratio_of (peak_kwh_ mean_kwh_ : float) : float :=
  F64.fillna0 (F64.replace_inf0 (F64.div peak_kwh_ mean_kwh_)).

(** The columns of one group before the frame-wide ones: the aggregates,
    the peak row found by [idxmax], the ratio, and the night and day sums.
    A group without a non-null consumption has no [idxmax] label, and
    looking that label up fails. *)
Definition aggregate_group (k : string * string * string)
    (grp : list HourlyFeatures) : result DailyRecord :=
  let vals := map consumption_kwh grp in
  match F64.idxmax vals with
  | None => Raised (KeyError "idxmax of a group without values")
  | Some (i, peak) =>
      let mean_ := F64.mean vals in
      let in_hours (lo hi : Z) (r : HourlyFeatures) :=
        (lo <=? hour r) && (hour r <? hi) in
      Returned
        {| d_client_id := k.1.1;
           d_ext_dev_ref := k.1.2;
           d_date_local := k.2;
           total_kwh := F64.sum vals;
           mean_kwh := mean_;
           max_kwh := F64.max vals;
           std_kwh := F64.std vals;
           hourly_count := F64.count vals;
           peak_hour := from_option hour 0 (grp !! i);
           peak_kwh := peak;
           peak_to_mean_ratio := ratio_of peak mean_;
           night_kwh :=
             F64.sum (map consumption_kwh (filter (fun r => in_hours 0 7 r = true) grp));
           day_kwh :=
             F64.sum (map consumption_kwh (filter (fun r => in_hours 18 24 r = true) grp));
           cumulative_total_kwh := F64.nan;
           weekend_vs_weekday := F64.nan |}
  end.

(** [groupby(...)["total_kwh"].cumsum()] on one group: nulls stay null and
    are skipped by the running sum. *)
Fixpoint cumsum_from (acc : float) (s : list float) : list float :=
  match s with
  | [] => []
  | x :: s' =>
      if F64.isna x then F64.nan :: cumsum_from acc s'
      else let acc' := F64.add acc x in acc' :: cumsum_from acc' s'
  end.

Definition device_key (d : DailyRecord) : string * string :=
  (d_client_id d, d_ext_dev_ref d).

Definition cmp2 (a b : string * string) : comparison :=
  lex (String.compare a.1 b.1) (String.compare a.2 b.2).

(** 1e-6 as a float: the double nearest to one millionth. *)
Definition EPS : float := F64.div (F64.of_Z 1) (F64.of_Z 1000000).

Definition set_frame_wide (d : DailyRecord) (cum ratio : float) : DailyRecord :=
  {| d_client_id := d_client_id d;
     d_ext_dev_ref := d_ext_dev_ref d;
     d_date_local := d_date_local d;
     total_kwh := total_kwh d;
     mean_kwh := mean_kwh d;
     max_kwh := max_kwh d;
     std_kwh := std_kwh d;
     hourly_count := hourly_count d;
     peak_hour := peak_hour d;
     peak_kwh := peak_kwh d;
     peak_to_mean_ratio := peak_to_mean_ratio d;
     night_kwh := night_kwh d;
     day_kwh := day_kwh d;
     cumulative_total_kwh := cum;
     weekend_vs_weekday := ratio |}.

Definition daily_le (a b : DailyRecord) : bool :=
  not_gt (cmp3 (d_client_id a, d_ext_dev_ref a, d_date_local a)
               (d_client_id b, d_ext_dev_ref b, d_date_local b)).

(** [aggregate_daily_from_hourly(df)]. *)
Definition aggregate_daily_from_hourly (df : list HourlyFeatures)
  : result (list DailyRecord) :=
  res ← Timestamps.map_result (fun g => aggregate_group g.1 g.2)
          (groupby daily_key cmp3 df);
  let res := sort_values daily_le res in
  let cum := transform device_key total_kwh (cumsum_from F64.zero) res in
  let dev_mean :=
    transform device_key total_kwh
      (fun s => replicate (length s) (F64.mean s)) res in
  Returned
    (imap (fun i d =>
             set_frame_wide d (nth i cum F64.nan)
               (F64.div (total_kwh d) (F64.add (nth i dev_mean F64.nan) EPS)))
          res).

(** *** Consumption category *)

(** [pd.cut(x, bins, labels)] on one cell, with the defaults [right=True],
    [include_lowest=False]: the number of edges below [x] picks the bin; a
    value at or below the first edge, above the last one, or null gets no
    category. *)
Definition cut (x : float) (bins : list float) (labels : list string)
  : option string :=
  let ids := length (filter (fun b => F64.ltb b x = true) bins) in
  if F64.isna x || Nat.eqb ids 0 || Nat.eqb ids (length bins) then None
  else labels !! (ids - 1)%nat.

Definition DEFAULT_BINS : list float :=
  [F64.of_Z (-1); F64.of_Z 5; F64.of_Z 15; F64.of_Z 50; F64.of_Z 999999].
Definition DEFAULT_LABELS : list string :=
  ["very_low"; "low"; "medium"; "high"].

Record Categorized := mkCategorized {
  cat_row : DailyRecord;
  consumption_category : option string
}.

(** [categorize_daily_consumption(df_daily, bins, labels)]. *)
Definition categorize_daily_consumption (df_daily : list DailyRecord)
    (bins : option (list float)) (labels : option (list string))
  : list Categorized :=
  let bins := default DEFAULT_BINS bins in
  let labels := default DEFAULT_LABELS labels in
  map (fun d => mkCategorized d (cut (total_kwh d) bins labels)) df_daily.

(** *** Monthly aggregation *)

Record MonthlyRecord := mkMonthly {
  m_client_id : string;
  m_ext_dev_ref : string;
  year : Z;
  month : Z;
  monthly_total_kwh : float;
  monthly_mean_kwh : float;
  monthly_max_kwh : float;
  days_with_data : Z
}.

Definition month_key_t : Type := string * string * Z * Z.

Definition cmp4 (a b : month_key_t) : comparison :=
  lex (String.compare a.1.1.1 b.1.1.1)
      (lex (String.compare a.1.1.2 b.1.1.2)
           (lex (a.1.2 ?= b.1.2) (a.2 ?= b.2))).

(** [pd.to_datetime(df["date_local"])] on one cell: the wall-clock value
    read from the string; an unreadable string raises. *)
Definition to_datetime_strict (s : string) : result datetime :=
  match parse_datetime s with
  | Some (w, _) => Returned w
  | None => Raised (ValueError "Unknown datetime string format")
  end.

(** A daily row with the [year] and [month] columns. *)
Definition with_year_month (d : DailyRecord) : result (DailyRecord * Z * Z) :=
  dts ← to_datetime_strict (d_date_local d);
  Returned (d, date_year (dt_date dts), date_month (dt_date dts)).

Definition month_key (r : DailyRecord * Z * Z) : month_key_t :=
  (d_client_id r.1.1, d_ext_dev_ref r.1.1, r.1.2, r.2).

Definition aggregate_month (k : month_key_t) (grp : list (DailyRecord * Z * Z))
  : MonthlyRecord :=
  let totals := map (fun r => total_kwh r.1.1) grp in
  {| m_client_id := k.1.1.1;
     m_ext_dev_ref := k.1.1.2;
     year := k.1.2;
     month := k.2;
     monthly_total_kwh := F64.round 6 (F64.group_sum totals);
     monthly_mean_kwh := F64.round 6 (F64.group_mean totals);
     monthly_max_kwh := F64.round 6 (F64.max totals);
     days_with_data := F64.count totals |}.

(** [derive_monthly_from_daily(df_daily)]. *)
Definition derive_monthly_from_daily (df_daily : list DailyRecord)
  : result (list MonthlyRecord) :=
  df ← Timestamps.map_result with_year_month df_daily;
  Returned (map (fun g => aggregate_month g.1 g.2) (groupby month_key cmp4 df)).

(** *** Vocabulary of the properties *)

(** A ratio is in order when it is at least 0 and finite. *)
Definition ratio_in_order (x : float) : Prop :=
  F64.leb F64.zero x = true /\ F64.isfinite x = true.

(** The year and month [pd.to_datetime] reads from the [date_local] of a
    daily row. *)
Definition year_month_of (d : DailyRecord) : option (Z * Z) :=
  match parse_datetime (d_date_local d) with
  | Some (w, _) => Some (date_year (dt_date w), date_month (dt_date w))
  | None => None
  end.

(** The daily rows of one client's device that fall in one month. *)
Definition days_of_month (df_daily : list DailyRecord)
    (client dev : string) (y mo : Z) : list DailyRecord :=
  filter (fun d => d_client_id d = client /\ d_ext_dev_ref d = dev
                   /\ year_month_of d = Some (y, mo)) df_daily.

Definition monthly_key (m : MonthlyRecord) : month_key_t :=
  (m_client_id m, m_ext_dev_ref m, year m, month m).

(** The frame with the [year] and [month] columns, once every
    [date_local] has been read. *)
Definition dated (d : DailyRecord) : DailyRecord * Z * Z :=
  (d, (default (0, 0) (year_month_of d)).1, (default (0, 0) (year_month_of d)).2).

End Features.

(* ===================================================================== *)
(** ** DataFrame objects in memory: which stage writes to which object *)
(* ===================================================================== *)

(** The typed stage models above return fresh values by construction.  This
    module keeps the DataFrame objects in a store, so that an assignment
    [df[col] = ...] is a write to the object [df] names at that point and
    [df.copy()] is an allocation.  What a pandas expression evaluates to is
    left open ([column_expr], [frame_expr], [test], indexed by the source
    text of the expression and applied to the frames it reads): the stages
    differ from one another here only in the objects they allocate, read and
    write. *)
Module Effects.

Section Stages.
Context {cell : Type}.

Definition column : Type := list cell.
(** A frame: its labelled columns, in order. *)
Definition frame : Type := list (string * column).
(** The store: every DataFrame object allocated so far; a reference is the
    position of its object. *)
Definition store : Type := list frame.
Definition ref : Type := nat.

Context (column_expr : string -> list frame -> column)
        (frame_expr : string -> list frame -> frame)
        (test : string -> list frame -> bool).

(** A computation on the store that returns or raises. *)
Definition M (A : Type) : Type := store -> result A * store.

Definition ret {A} (a : A) : M A := fun s => (Returned a, s).
Definition raise {A} (e : exn) : M A := fun s => (Raised e, s).
Definition bind {A B} (m : M A) (k : A -> M B) : M B :=
  fun s => match m s with
           | (Returned a, s') => k a s'
           | (Raised e, s') => (Raised e, s')
           end.

#[local] Instance M_ret : MRet M := @ret.
#[local] Instance M_bind : MBind M := fun A B k m => bind m k.

(** [pd.DataFrame(...)], and every pandas call that returns a new frame. *)
Definition alloc (f : frame) : M ref :=
  fun s => (Returned (length s), s ++ [f]).

(** The current content of the object a name refers to. *)
Definition read (r : ref) : M frame :=
  fun s => match s !! r with
           | Some f => (Returned f, s)
           | None => (Raised (KeyError "no such object"), s)
           end.

(** Overwriting an object in place. *)
Definition write (r : ref) (f : frame) : M unit :=
  fun s => (Returned tt, <[r := f]> s).

Definition has_column (name : string) (f : frame) : bool :=
  bool_decide (name ∈ map fst f).

(** [f[name] = col] on a frame value: the column is replaced where it
    stands, or appended. *)
Fixpoint set_column (name : string) (col : column) (f : frame) : frame :=
  match f with
  | [] => [(name, col)]
  | (n, c) :: f' =>
      if String.eqb n name then (n, col) :: f'
      else (n, c) :: set_column name col f'
  end.

(** The current contents of several objects. *)
Definition read_all (reads : list ref) : M (list frame) :=
  fun s => (Returned (omap (fun r => s !! r) reads), s).

(** [df.copy()]. *)
Definition copy (df : ref) : M ref := f ← read df; alloc f.

(** [df[name] = <expr>], the expression reading the frames [reads]. *)
Definition setitem (df : ref) (name : string) (expr : string) (reads : list ref)
  : M unit :=
  f ← read df;
  fs ← read_all reads;
  write df (set_column name (column_expr expr fs) f).

(** [df = <expr>] for an expression that builds a new frame from [reads]. *)
Definition derive (expr : string) (reads : list ref) : M ref :=
  fs ← read_all reads;
  alloc (frame_expr expr fs).

Definition cond (expr : string) (reads : list ref) : M bool :=
  fs ← read_all reads;
  ret (test expr fs).

Definition require_column (df : ref) (name : string) (e : exn) : M unit :=
  f ← read df;
  if has_column name f then ret tt else raise e.

Fixpoint for_each {A} (l : list A) (body : A -> M unit) : M unit :=
  match l with
  | [] => ret tt
  | x :: l' => body x;; for_each l' body
  end.

(** [expand_daily_array_to_hourly]: the loop only reads [df] and appends to
    a Python list; the frame is built from that list. *)
Definition expand_daily_array_to_hourly (df : ref) : M ref :=
  f ← read df;
  if negb (forallb (fun c => has_column c f)
             ["client_id"; "ext_dev_ref"; "date"; "energy_consumption"])
  then raise (ValueError "Input dataframe must contain columns")
  else
    df_hourly ← derive "pd.DataFrame(rows)" [df];
    empty ← cond "df_hourly.empty" [df_hourly];
    if (empty : bool) then ret df_hourly
    else derive "df_hourly.sort_values([ext_dev_ref, timestamp_local]).reset_index(drop=True)" [df_hourly].

(** [add_time_features_hourly]. *)
Definition add_time_features_hourly (df : ref) : M ref :=
  require_column df "timestamp_local" (KeyError "timestamp_local is required in dataframe");;
  df ← copy df;
  n_bad ← cond "int(parsed.isna().sum())" [df];
  df ← (if (n_bad : bool) then derive "df.loc[~parsed.isna()].copy()" [df] else ret df);
  setitem df "timestamp" "parsed.values" [df];;
  setitem df "hour" "df[timestamp].dt.hour" [df];;
  setitem df "day_of_week" "df[timestamp].dt.dayofweek" [df];;
  setitem df "is_weekend" "df[day_of_week].isin([5, 6]).astype(int)" [df];;
  setitem df "date_local" "df[timestamp].dt.date.astype(str)" [df];;
  setitem df "month" "df[timestamp].dt.month" [df];;
  setitem df "year" "df[timestamp].dt.year" [df];;
  ret df.

(** [add_lag_features]. *)
Definition add_lag_features (df : ref) (lags : list string) : M ref :=
  df ← copy df;
  require_column df "timestamp" (KeyError "timestamp required for add_lag_features");;
  df ← derive "df.sort_values([ext_dev_ref, ts_col]).reset_index(drop=True)" [df];
  for_each lags (fun lag =>
    setitem df ("lag_" +:+ lag +:+ "h")
      ("df.groupby(ext_dev_ref)[consumption_kwh].shift(" +:+ lag +:+ ")") [df]);;
  ret df.

(** [add_rolling_features_hourly]. *)
Definition add_rolling_features_hourly (df : ref) (window_hours : string) : M ref :=
  df ← copy df;
  require_column df "timestamp" (KeyError "timestamp required for rolling features");;
  df ← derive "df.sort_values([ext_dev_ref, ts_col]).reset_index(drop=True)" [df];
  setitem df ("rolling_mean_" +:+ window_hours +:+ "h")
    "transform(lambda s: s.shift(1).rolling(window_hours, min_periods=1).mean())" [df];;
  setitem df ("rolling_std_" +:+ window_hours +:+ "h")
    "transform(lambda s: s.shift(1).rolling(window_hours, min_periods=1).std().fillna(0))" [df];;
  ret df.

(** [aggregate_daily_from_hourly]. *)
Definition aggregate_daily_from_hourly (df : ref) : M ref :=
  df ← copy df;
  f ← read df;
  (if has_column "date_local" f then ret tt
   else if has_column "timestamp" f then
          setitem df "date_local" "df[timestamp].dt.date.astype(str)" [df]
        else raise (KeyError "Either date_local or timestamp must be present in hourly df"));;
  agg ← derive "df.groupby(keys, as_index=False).agg(...)" [df];
  peak ← derive "df.loc[idx, ...].rename(columns=...)" [df];
  res ← derive "agg.merge(peak, on=keys, how=left)" [agg; peak];
  setitem res "peak_to_mean_ratio"
    "(res[peak_kwh] / res[mean_kwh]).replace(np.inf, 0).fillna(0)" [res];;
  res ← derive "res.merge(night_df.reset_index(), on=keys, how=left)" [res; df];
  res ← derive "res.merge(day_df.reset_index(), on=keys, how=left)" [res; df];
  setitem res "night_kwh" "res[night_kwh].fillna(0)" [res];;
  setitem res "day_kwh" "res[day_kwh].fillna(0)" [res];;
  res ← derive "res.sort_values([client_id, ext_dev_ref, date_local])" [res];
  setitem res "cumulative_total_kwh"
    "res.groupby([client_id, ext_dev_ref])[total_kwh].cumsum()" [res];;
  setitem res "weekend_vs_weekday"
    "res[total_kwh] / (res.groupby(...)[total_kwh].transform(mean) + 1e-6)" [res];;
  ret res.

(** [add_rolling_aggregates_daily]. *)
Definition add_rolling_aggregates_daily (df_daily : ref) (windows : list string)
  : M ref :=
  df ← copy df_daily;
  require_column df "date_local" (KeyError "date_local required for add_rolling_aggregates_daily");;
  setitem df "date_local_dt" "pd.to_datetime(df[date_local])" [df];;
  df ← derive "df.sort_values([client_id, ext_dev_ref, date_local_dt]).reset_index(drop=True)" [df];
  for_each windows (fun w =>
    setitem df ("rolling_" +:+ w +:+ "d_total_kwh")
      ("transform(lambda s: s.rolling(window=" +:+ w +:+ ", min_periods=1).mean()).round(6)") [df]);;
  derive "df.drop(columns=[date_local_dt])" [df].

(** [categorize_daily_consumption]. *)
Definition categorize_daily_consumption (df_daily : ref) : M ref :=
  df ← copy df_daily;
  setitem df "consumption_category" "pd.cut(df[total_kwh], bins=bins, labels=labels)" [df];;
  ret df.

(** [add_season_and_holiday_flags]. *)
Definition add_season_and_holiday_flags (df_daily : ref) : M ref :=
  df ← copy df_daily;
  f ← read df;
  if negb (has_column "date_local" f || has_column "timestamp" f) then
    raise (KeyError "date_local or timestamp required for add_season_and_holiday_flags")
  else
    setitem df "date_local_dt"
      (if has_column "date_local" f then "pd.to_datetime(df[date_local])"
       else "df[timestamp].dt.normalize()") [df];;
    setitem df "month" "df[date_local_dt].dt.month" [df];;
    setitem df "season" "df[month].map({...})" [df];;
    setitem df "is_holiday" "df[date_local_dt].dt.date.apply(lambda d: 1 if d in _LT_HOLIDAYS else 0)" [df];;
    setitem df "is_summer_vacation" "df[month].isin([7, 8]).astype(int)" [df];;
    derive "df.drop(columns=[date_local_dt])" [df].

(** [derive_monthly_from_daily]. *)
Definition derive_monthly_from_daily (df_daily : ref) : M ref :=
  df ← copy df_daily;
  f ← read df;
  if negb (has_column "date_local" f || has_column "timestamp" f) then
    raise (KeyError "date_local or timestamp required for derive_monthly_from_daily")
  else
    let dts := if has_column "date_local" f then "pd.to_datetime(df[date_local])"
               else "df[timestamp]" in
    setitem df "year" (dts +:+ ".dt.year") [df];;
    setitem df "month" (dts +:+ ".dt.month") [df];;
    m ← derive "df.groupby(keys, as_index=False).agg(...)" [df];
    setitem m "monthly_total_kwh" "m[monthly_total_kwh].astype(float).round(6)" [m];;
    setitem m "monthly_mean_kwh" "m[monthly_mean_kwh].astype(float).round(6)" [m];;
    setitem m "monthly_max_kwh" "m[monthly_max_kwh].astype(float).round(6)" [m];;
    ret m.

(** [add_daily_load_shape_similarity]: two frames come in. *)
Definition add_daily_load_shape_similarity (df_hourly df_daily : ref) : M ref :=
  df_hourly ← copy df_hourly;
  df_hourly ← derive "df_hourly.sort_values([ext_dev_ref, date_local, hour])" [df_hourly];
  daily_vectors ← derive "df_hourly.pivot_table(...)" [df_hourly];
  setitem daily_vectors "daily_load_similarity" "sims" [daily_vectors];;
  sim_df ← derive "daily_vectors.reset_index()[[...]]" [daily_vectors];
  derive "df_daily.merge(sim_df, on=[ext_dev_ref, date_local], how=left)" [df_daily; sim_df].

(** The stages of the pipeline that take one frame. *)
Inductive stage :=
| Expansion
| Time_features
| Lag_features (lags : list string)
| Rolling_features (window_hours : string)
| Daily_aggregation
| Season_and_holiday_flags
| Rolling_aggregates_daily (windows : list string)
| Consumption_category
| Monthly_aggregation.

Definition run_stage (st : stage) (df : ref) : M ref :=
  match st with
  | Expansion => expand_daily_array_to_hourly df
  | Time_features => add_time_features_hourly df
  | Lag_features lags => add_lag_features df lags
  | Rolling_features w => add_rolling_features_hourly df w
  | Daily_aggregation => aggregate_daily_from_hourly df
  | Season_and_holiday_flags => add_season_and_holiday_flags df
  | Rolling_aggregates_daily ws => add_rolling_aggregates_daily df ws
  | Consumption_category => categorize_daily_consumption df
  | Monthly_aggregation => derive_monthly_from_daily df
  end.

(** [owned s0 rs s]: the store [s] still starts with the objects of [s0],
    each as it was, and every reference of [rs] is an object allocated
    after them. *)
Definition owned (s0 : store) (rs : list ref) (s : store) : Prop :=
  s0 `prefix_of` s /\ Forall (fun r => (length s0 <= r < length s)%nat) rs.

(** Run from such a store, [m] leaves such a store behind, and what it
    returns names the references [Q] lists; when it raises, the objects of
    [s0] are as they were all the same. *)
Definition triple {A} (s0 : store) (rs : list ref) (m : M A)
    (Q : A -> list ref) : Prop :=
  forall s, owned s0 rs s ->
    match m s with
    | (Returned a, s') => owned s0 (Q a) s'
    | (Raised _, s') => owned s0 [] s'
    end.

(** The outcome of a stage run from the store [s]: every object of [s] is
    in the store it leaves, unchanged, and the frame it returns is an
    object that was not in [s]. *)
Definition unchanged_and_fresh (s : store) (outcome : result ref * store) : Prop :=
  (forall r f, s !! r = Some f -> outcome.2 !! r = Some f)
  /\ forall out, outcome.1 = Returned out ->
       (length s <= out < length outcome.2)%nat.

End Stages.
End Effects.

(** A decidable statement about concrete data, settled by evaluating its
    decision procedure. *)
Ltac decide_by_computation :=
  refine (bool_decide_unpack _ _); vm_compute; exact I.

(* ===================================================================== *)
(** ** Orderings given by a comparison function *)
(* ===================================================================== *)

(** What the sort keys of the stages have in common: the comparison is
    antisymmetric, [Lt] is transitive, and rows that compare [Eq] compare
    alike with every other row. *)
Record ordering {A : Type} (cmp : A -> A -> comparison) : Prop := mk_ordering {
  ord_antisym : forall a b, cmp a b = CompOpp (cmp b a);
  ord_trans : forall a b c, cmp a b = Lt -> cmp b c = Lt -> cmp a c = Lt;
  ord_eq : forall a b c, cmp a b = Eq -> cmp a c = cmp b c
}.

(** The comparison behind [Reader.hourly_le]: the device, then the
    timestamp string. *)
Definition hourly_cmp (a b : Reader.HourlyRecord) : comparison :=
  lex (String.compare (Reader.h_ext_dev_ref a) (Reader.h_ext_dev_ref b))
      (String.compare (Reader.timestamp_local a) (Reader.timestamp_local b)).

(** The sum of an integer column. *)
Definition sum_Z (l : list Z) : Z := foldr Z.add 0 l.

(* ===================================================================== *)
(** ** Time features of the hourly frame ([add_time_features_hourly]) *)
(* ===================================================================== *)

Module TimeFeatures.
Import Calendar Tz Timestamps.

(** A row of the frame [add_time_features_hourly] returns: the columns of
    the input row, of which [hour] and [date_local] are overwritten, and
    the new ones. *)
Record TimeRow := mkTimeRow {
  source : Reader.HourlyRecord;
  timestamp : aware;
  hour : Z;
  day_of_week : Z;
  is_weekend : Z;
  date_local : string;
  month : Z;
  year : Z
}.

(** The record handed to the logger. *)
Inductive log_event :=
| Warning_unparsed (n_bad : nat).

(** The columns derived from the parsed [timestamp] through the [.dt]
    accessor. *)
Definition time_columns (r : Reader.HourlyRecord) (ts : aware) : TimeRow :=
  let day := dt_date (wall ts) in
  let dow := weekday day in
  {| source := r;
     timestamp := ts;
     hour := dt_hour (wall ts);
     day_of_week := dow;
     is_weekend := if bool_decide (dow ∈ [5; 6]) then 1 else 0;
     date_local := date_isoformat day;
     month := date_month day;
     year := date_year day |}.

(** [add_time_features_hourly(df)] on a frame whose [timestamp_local]
    cells are strings, as those of the expander's frame are: the rows whose
    timestamp could be read, in frame order, and the log. *)
Definition add_time_features_hourly (cols : list string)
    (df : list Reader.HourlyRecord) : result (list TimeRow * list log_event) :=
  if negb (bool_decide ("timestamp_local" ∈ cols)) then
    Raised (KeyError "timestamp_local is required in dataframe")
  else
    parsed ← _parse_timestamp_local_to_tz
                (Series_object (map (fun r => Ts_str (Reader.timestamp_local r)) df))
                _LOCAL_TZ;
    let n_bad := length (filter (fun p : option aware => p = None) parsed) in
    let kept := omap (fun rp : Reader.HourlyRecord * option aware =>
                        (fun ts => time_columns rp.1 ts) <$> rp.2)
                     (zip df parsed) in
    Returned (kept, if (n_bad =? 0)%nat then [] else [Warning_unparsed n_bad]).

End TimeFeatures.

(* ===================================================================== *)
(** ** Reading the input files ([read_all_parquets]) *)
(* ===================================================================== *)

Module ReaderIO.

(** The records handed to the logger. *)
Inductive log_event :=
| Warning_no_files (glob_pattern : string)
| Info_reading (p : string)
| Info_total_rows (n : nat).

Section ReadAll.
(** What the function takes from outside: the frames as pandas builds them
    ([pd.DataFrame()], [pd.concat(parts, ignore_index=True)], [len]), the
    file a path holds, which [pd.read_parquet] returns or fails on, and the
    paths [glob.glob] lists for a pattern, in the order of the file
    system. *)
Context {Frame : Type}.
Context (pd_DataFrame : Frame) (pd_concat : list Frame -> Frame)
        (len : Frame -> nat) (pd_read_parquet : string -> result Frame).

(** [sorted(files)]: ascending, strings compared character by character. *)
Definition sorted (files : list string) : list string :=
  sort_values str_leb files.

(** The loop over the sorted paths: [parts] and the log grow file by file,
    and the first file that cannot be read ends the call. *)
Fixpoint read_parts (files : list string) (parts : list Frame)
    (log : list log_event) : result (list Frame) * list log_event :=
  match files with
  | [] => (Returned parts, log)
  | p :: rest =>
      match pd_read_parquet p with
      | Raised e => (Raised e, log ++ [Info_reading p])
      | Returned f => read_parts rest (parts ++ [f]) (log ++ [Info_reading p])
      end
  end.

(** [read_all_parquets(glob_pattern)]: the frame or the exception, and the
    log. *)
Definition read_all_parquets (glob_glob : string -> list string)
    (glob_pattern : string) : result Frame * list log_event :=
  let files := glob_glob glob_pattern in
  match files with
  | [] => (Returned pd_DataFrame, [Warning_no_files glob_pattern])
  | _ =>
      match read_parts (sorted files) [] [] with
      | (Raised e, log) => (Raised e, log)
      | (Returned parts, log) =>
          let df := pd_concat parts in
          (Returned df, log ++ [Info_total_rows (len df)])
      end
  end.
End ReadAll.

End ReaderIO.

(* ===================================================================== *)
(** ** Season and holiday flags ([add_season_and_holiday_flags]) *)
(* ===================================================================== *)

Module DailyFlags.
Import Calendar Timestamps Features.

(** The dict the [month] column is mapped through, in source order. *)
Definition SEASONS : list (Z * string) :=
  [(12, "winter"); (1, "winter"); (2, "winter");
   (3, "spring"); (4, "spring"); (5, "spring");
   (6, "summer"); (7, "summer"); (8, "summer");
   (9, "fall"); (10, "fall"); (11, "fall")].

(** [Series.map(dict)] on one cell: the value of the key, null for a key
    the dict does not have. *)
Definition dict_get (d : list (Z * string)) (k : Z) : option string :=
  snd <$> List.find (fun kv => kv.1 =? k) d.

(** A daily row with the columns the stage adds. *)
Record Flagged := mkFlagged {
  flag_row : DailyRecord;
  f_month : Z;
  season : option string;
  is_holiday : Z;
  is_summer_vacation : Z
}.

Section Holidays.
(** The holiday calendar of the [holidays] package for Lithuania:
    [d in _LT_HOLIDAYS]. *)
Context (_LT_HOLIDAYS : date -> bool).

Definition flags_of (d : DailyRecord) : result Flagged :=
  dts ← to_datetime_strict (d_date_local d);
  let month := date_month (dt_date dts) in
  Returned
    {| flag_row := d;
       f_month := month;
       season := dict_get SEASONS month;
       is_holiday := if _LT_HOLIDAYS (dt_date dts) then 1 else 0;
       is_summer_vacation := if bool_decide (month ∈ [7; 8]) then 1 else 0 |}.

(** [add_season_and_holiday_flags(df_daily)] on a frame with a
    [date_local] column. *)
Definition add_season_and_holiday_flags (df_daily : list DailyRecord)
  : result (list Flagged) :=
  map_result flags_of df_daily.
End Holidays.

End DailyFlags.

(* ===================================================================== *)
(** ** The first two stages in a row ([run_etl], lines 29 and 33) *)
(* ===================================================================== *)

Module Pipeline.
Import Calendar Tz Reader Timestamps TimeFeatures.

(** The columns of [pd.DataFrame(rows)]: the keys of the dicts the
    expander appends, and none at all when it appended no dict. *)
Definition HOURLY_COLUMNS : list string :=
  ["client_id"; "ext_dev_ref"; "resolution"; "date_local"; "hour";
   "timestamp_local"; "timestamp_utc"; "consumption_kwh"].

Definition hourly_columns (rows_ : list HourlyRecord) : list string :=
  match rows_ with
  | [] => []
  | _ => HOURLY_COLUMNS
  end.

(** [hourly = expand_daily_array_to_hourly(raw)] followed by
    [hourly = add_time_features_hourly(hourly)], both with the zone of the
    settings. *)
Definition expand_then_time_features (raw : DataFrame) : result (list TimeRow) :=
  '(hourly, _) ← expand_daily_array_to_hourly raw LOCAL_TZ;
  '(hourly, _) ← add_time_features_hourly (hourly_columns hourly) hourly;
  Returned hourly.

(** A check of every ordinal of a run of [n] days from [start]. *)
Fixpoint all_from (f : Z -> bool) (n : nat) (start : Z) : bool :=
  match n with
  | O => true
  | S n' => f start && all_from f n' (start + 1)
  end.

(** What is checked of a day of the years 2022 to 2026, the years the
    table of [Europe_Vilnius] covers: [_ord2ymd] gives a valid date of
    those years and [_ymd2ord] leads back. *)
Definition calendar_check (n : Z) : bool :=
  let '(y, m, d) := ord2ymd n in
  (ymd2ord y m d =? n) && (2022 <=? y) && (y <=? 2026)
  && (1 <=? m) && (m <=? 12) && (1 <=? d) && (d <=? days_in_month y m)
  && (d <=? 31).

(** What the time-feature stage needs of a row of the hourly frame: its
    [timestamp_local] carries an offset token and is read as the instant
    [u], the one [timestamp_utc] prints. *)
Definition reads_back (r : HourlyRecord) (u : datetime) : Prop :=
  _TZ_DETECT_RE_search (Reader.timestamp_local r) = true
  /\ to_datetime_utc (Ts_str (Reader.timestamp_local r)) = Some u
  /\ normalized u
  /\ Reader.timestamp_utc r = isoformat (mkaware u UTC).

End Pipeline.

(* ===================================================================== *)
(** ** Sample inputs *)
(* ===================================================================== *)

Module Samples.
Import Calendar Tz.

(** The array [0, 1, ..., 23]. *)
Definition ramp : list float := map (fun n => F64.of_Z (Z.of_nat n)) (seq 0 24).

Definition INPUT_COLUMNS : list string :=
  ["client_id"; "ext_dev_ref"; "date"; "resolution"; "energy_consumption"].

(** A regular meter-day: 2024-06-15. *)
Definition summer_day : Reader.MeterDayRecord :=
  Reader.mkMeterDay "client-1" "meter-1" (Reader.Date_date (mkdate 2024 6 15))
    (Some "hourly") (Reader.Np_ndarray ramp).

(** The day the clocks go forward in Europe/Vilnius: 2024-03-31. *)
Definition dst_day : Reader.MeterDayRecord :=
  Reader.mkMeterDay "client-1" "meter-1" (Reader.Date_str (combine (mkdate 2024 3 31) 0 0))
    (Some "hourly") (Reader.Py_list ramp).

(** A meter-day with 23 readings. *)
Definition short_day : Reader.MeterDayRecord :=
  Reader.mkMeterDay "client-1" "meter-1" (Reader.Date_date (mkdate 2024 6 16))
    (Some "hourly") (Reader.Np_ndarray (take 23 ramp)).

Definition meter_days : Reader.DataFrame :=
  Reader.mkDataFrame INPUT_COLUMNS [summer_day; short_day; dst_day].

(** [pd.DataFrame()]: no columns, no rows. *)
Definition no_columns_frame : Reader.DataFrame := Reader.mkDataFrame [] [].

End Samples.

Module FeatureSamples.
Import Calendar Tz Timestamps Features.

(** A string column in which one value carries an offset and one does
    not. *)
Definition mixed_strings : list ts_cell :=
  [Ts_str "2024-01-15T08:00:00+02:00"; Ts_str "2024-01-15T12:00:00"].

(** The same two strings next to a tz-aware [pd.Timestamp] object. *)
Definition mixed_objects : list ts_cell :=
  Ts_Timestamp (combine (mkdate 2024 1 15) 6 0) (Some UTC) :: mixed_strings.

(** A column of a tz-aware dtype whose zone is UTC. *)
Definition utc_column : list (option aware) :=
  [Some (mkaware (combine (mkdate 2024 1 15) 6 0) UTC)].

Definition vilnius_winter (hh : Z) : aware :=
  mkaware (combine (mkdate 2024 1 15) hh 0) EET.

(** An hourly row of meter-1 on 2024-06-15 at hour [h] with reading [v]. *)
Definition hourly (dev : string) (h : Z) (v : float) : HourlyFeatures :=
  mkHourlyFeatures "client-1" dev
    (aware_add (localize _LOCAL_TZ (combine (mkdate 2024 6 15) 0 0)) (h * 3600))
    h "2024-06-15" v.

(** A daily row of which only the keys and [total_kwh] matter. *)
Definition daily (client dev date : string) (total : float) : DailyRecord :=
  mkDaily client dev date total total total F64.nan 24 0 total (F64.of_Z 1)
    F64.zero F64.zero total (F64.of_Z 1).

(** The smallest positive binary64 value, 2^-1074, negated. *)
Definition minus_tiny : float := S754_finite true 1 (-1074).

End FeatureSamples.

(* ===================================================================== *)
(** * Properties *)
(* ===================================================================== *)

(** ** Sorting keeps the rows *)

Section SortingFacts.
Context {A : Type} (le : A -> A -> bool).

Lemma insert_sorted_perm x l : insert_sorted le x l ≡ₚ x :: l.
Proof.
  induction l as [|y l IH]; simpl; [done|].
  destruct (le x y); [done|].
  rewrite IH. apply Permutation_swap.
Qed.

Lemma sort_values_perm l : sort_values le l ≡ₚ l.
Proof.
  induction l as [|x l IH]; simpl; [done|].
  rewrite insert_sorted_perm. by f_equiv.
Qed.

Lemma elem_of_sort_values x l : x ∈ sort_values le l <-> x ∈ l.
Proof. by rewrite sort_values_perm. Qed.

Lemma length_sort_values l : length (sort_values le l) = length l.
Proof. by rewrite sort_values_perm. Qed.

Lemma NoDup_sort_values l : NoDup l -> NoDup (sort_values le l).
Proof. by rewrite sort_values_perm. Qed.
End SortingFacts.

(** ** Datetime arithmetic *)

Module CalendarFacts.
Import Calendar Tz.

(** [_ord2ymd] inverts [_ymd2ord]: checked on every day from 2000-01-01
    to 2039-12-31. *)
Lemma ord2ymd_ymd2ord_2000_2039 :
  forallb (fun n => let '(y, m, d) := ord2ymd n in
                    (ymd2ord y m d =? n) && (1 <=? m) && (m <=? 12)
                    && (1 <=? d) && (d <=? days_in_month y m))
          (map (fun k => mkdate 2000 1 1 + Z.of_nat k) (seq 0 (Z.to_nat 14610)))
  = true
  /\ mkdate 1970 1 1 = 719163
  /\ mkdate 2040 1 1 = mkdate 2000 1 1 + 14610.
Proof. split; [vm_compute; reflexivity|]. split; reflexivity. Qed.

(** The transitions of the Europe/Vilnius table fall on Sundays, in
    ascending order. *)
Lemma Europe_Vilnius_transitions :
  forallb (fun tr => weekday (dt_date tr.1) =? 6) (transitions Europe_Vilnius) = true
  /\ map (fun tr => date_isoformat (dt_date tr.1)) (transitions Europe_Vilnius)
     = ["2022-03-27"; "2022-10-30"; "2023-03-26"; "2023-10-29"; "2024-03-31";
        "2024-10-27"; "2025-03-30"; "2025-10-26"; "2026-03-29"; "2026-10-25"].
Proof. split; vm_compute; reflexivity. Qed.

Lemma dt_eqb_eq a b : dt_eqb a b = true <-> a = b.
Proof.
  destruct a as [d1 s1], b as [d2 s2]; unfold dt_eqb; simpl.
  rewrite andb_true_iff, !Z.eqb_eq. split.
  - intros [-> ->]; reflexivity.
  - intros [= -> ->]; auto.
Qed.

Lemma dt_seconds_add dt s : dt_seconds (dt_add dt s) = dt_seconds dt + s.
Proof.
  unfold dt_seconds, dt_add; simpl.
  pose proof (Z.div_mod (dt_second dt + s) 86400). lia.
Qed.

Lemma dt_add_normalized dt s : normalized (dt_add dt s).
Proof. unfold normalized, dt_add; simpl. apply Z.mod_pos_bound. lia. Qed.

Lemma dt_add_back dt s : normalized dt -> dt_add (dt_add dt (- s)) s = dt.
Proof.
  destruct dt as [d t]; unfold normalized, dt_add; simpl; intros Ht.
  f_equal.
  - pose proof (Z.div_mod (t + - s) 86400).
    assert (((t + - s) mod 86400 + s) / 86400 = - ((t + - s) / 86400)) as ->; [|lia].
    symmetry. apply Z.div_unique with (r := t); lia.
  - pose proof (Z.div_mod (t + - s) 86400).
    symmetry. apply Z.mod_unique with (q := - ((t + - s) / 86400)); lia.
Qed.

Lemma dt_add_same_day d h :
  0 <= h < 24 -> dt_add (combine d 0 0) (h * 3600) = mkdatetime d (h * 3600).
Proof.
  intros Hh. unfold dt_add, combine; simpl. f_equal.
  - rewrite Z.div_small; lia.
  - rewrite Z.mod_small; lia.
Qed.

(** A full hour of a day prints as that date, [T], the hour and [:00:00]. *)
Lemma dt_isoformat_full_hour d h :
  0 <= h < 24 ->
  dt_isoformat (mkdatetime d (h * 3600))
  = date_isoformat d +:+ "T" +:+ pad2 h +:+ ":00:00".
Proof.
  intros Hh. unfold dt_isoformat, dt_hour, dt_minute, dt_sec; simpl.
  rewrite Z.div_mul by lia. rewrite Z.mod_mul by lia.
  replace (h * 3600 mod 60) with 0; [reflexivity|].
  symmetry. apply Z.mod_divide; [lia|]. exists (h * 60). lia.
Qed.

(** Every candidate of [localize] shows the wall time it was asked for. *)
Lemma localize_candidates_wall tz dt c :
  c ∈ localize_candidates tz dt -> wall c = dt.
Proof.
  unfold localize_candidates. rewrite elem_of_app, list_elem_of_filter.
  assert (forall delta c,
    c ∈ (if dt_eqb (wall (normalize tz (mkaware dt (info_at tz (dt_add dt delta))))) dt
         then [normalize tz (mkaware dt (info_at tz (dt_add dt delta)))] else []) ->
    wall c = dt) as Htry.
  { intros delta c'. destruct (dt_eqb _ dt) eqn:E.
    - intros ->%list_elem_of_singleton. by apply dt_eqb_eq.
    - by intros ?%elem_of_nil. }
  intros [H | [_ H]]; eapply Htry; eauto.
Qed.

(** [localize] attaches a tzinfo and leaves the wall clock as it is. *)
Lemma localize_fuel_wall fuel tz dt :
  normalized dt -> wall (localize_fuel fuel tz dt) = dt.
Proof.
  revert dt. induction fuel as [|fuel IH]; intros dt Hn; simpl.
  - destruct (localize_candidates tz dt) as [|c1 [|c2 rest]] eqn:E; [done| |].
    + apply (localize_candidates_wall tz). rewrite E. left.
    + assert (wall c1 = dt) by (apply (localize_candidates_wall tz); rewrite E; left).
      assert (wall c2 = dt)
        by (apply (localize_candidates_wall tz); rewrite E; right; left).
      destruct (filter _ [c1; c2]) as [|c [|]] eqn:F;
        try (case_match; done).
      assert (c ∈ filter (fun c => dst (tz_of c) = 0) [c1; c2]) as Hc
        by (rewrite F; left).
      apply list_elem_of_filter in Hc as [_ Hc].
      apply elem_of_cons in Hc as [-> | Hc]; [done|].
      by apply list_elem_of_singleton in Hc as ->.
  - destruct (localize_candidates tz dt) as [|c1 [|c2 rest]] eqn:E.
    + unfold aware_add; simpl. rewrite IH by apply dt_add_normalized.
      exact (dt_add_back dt 21600 Hn).
    + apply (localize_candidates_wall tz). rewrite E. left.
    + assert (wall c1 = dt) by (apply (localize_candidates_wall tz); rewrite E; left).
      assert (wall c2 = dt)
        by (apply (localize_candidates_wall tz); rewrite E; right; left).
      destruct (filter _ [c1; c2]) as [|c [|]] eqn:F;
        try (case_match; done).
      assert (c ∈ filter (fun c => dst (tz_of c) = 0) [c1; c2]) as Hc
        by (rewrite F; left).
      apply list_elem_of_filter in Hc as [_ Hc].
      apply elem_of_cons in Hc as [-> | Hc]; [done|].
      by apply list_elem_of_singleton in Hc as ->.
Qed.

Lemma localize_midnight_wall tz d :
  wall (localize tz (combine d 0 0)) = combine d 0 0.
Proof. apply localize_fuel_wall. unfold normalized, combine; simpl. lia. Qed.

End CalendarFacts.

(** ** The hourly expander *)

Module ReaderFacts.
Import Calendar Tz Reader CalendarFacts.

(** The rows a meter-day row contributes do not depend on its index. *)
Lemma expand_row_rows_idx tz cols idx row :
  (expand_row tz cols idx row).1 = (expand_row tz cols 0 row).1.
Proof. unfold expand_row. by destruct (invalid_array _). Qed.

(** The loop appends what each row contributes, in input order. *)
Lemma expand_loop_rows tz cols input : forall idx acc log,
  (expand_loop tz cols idx input acc log).1
  = acc ++ flat_map (fun r => (expand_row tz cols 0 r).1) input.
Proof.
  induction input as [|row rest IH]; intros idx acc log; simpl.
  - by rewrite app_nil_r.
  - destruct (expand_row tz cols idx row) as [new events] eqn:E.
    rewrite IH, <- (expand_row_rows_idx tz cols idx row), E; simpl.
    by rewrite app_assoc.
Qed.

(** The log only grows, and every row's records reach it. *)
Lemma expand_loop_log_keeps tz cols input : forall idx acc log e,
  e ∈ log -> e ∈ (expand_loop tz cols idx input acc log).2.
Proof.
  induction input as [|row rest IH]; intros idx acc log e He; simpl; [done|].
  destruct (expand_row tz cols idx row) as [new events].
  apply IH. apply elem_of_app; by left.
Qed.

Lemma expand_loop_log_row tz cols input : forall idx acc log i row e,
  input !! i = Some row ->
  e ∈ (expand_row tz cols (idx + i) row).2 ->
  e ∈ (expand_loop tz cols idx input acc log).2.
Proof.
  induction input as [|row0 rest IH]; intros idx acc log i row e Hi He; [done|].
  simpl. destruct (expand_row tz cols idx row0) as [new events] eqn:E.
  destruct i as [|i]; simpl in Hi.
  - injection Hi as ->. rewrite Nat.add_0_r, E in He; simpl in He.
    apply expand_loop_log_keeps. apply elem_of_app; by right.
  - apply (IH (S idx) _ _ i row e Hi).
    by replace (S idx + i)%nat with (idx + S i)%nat by lia.
Qed.

Lemma elem_of_flat_map_row {A B} (f : A -> list B) (l : list A) i x y :
  l !! i = Some x -> y ∈ f x -> y ∈ flat_map f l.
Proof.
  intros Hi Hy. apply list_elem_of_In, in_flat_map.
  exists x. split; apply list_elem_of_In; [|done].
  apply list_elem_of_lookup; eauto.
Qed.

(** What the function returns once the column guard is passed: the rows
    the loop collected, sorted. *)
Lemma expand_returns tz df :
  required ⊆ columns df ->
  exists log,
    expand_daily_array_to_hourly df tz
    = Returned (sort_values hourly_le
                  (flat_map (fun r => (expand_row tz (columns df) 0 r).1) (rows df)),
                log)
    /\ forall e, e ∈ (expand_loop tz (columns df) 0 (rows df) [] []).2 -> e ∈ log.
Proof.
  intros Hreq. unfold expand_daily_array_to_hourly.
  rewrite (bool_decide_eq_true_2 _ Hreq); simpl.
  pose proof (expand_loop_rows tz (columns df) (rows df) 0 [] []) as Hrows.
  destruct (expand_loop tz (columns df) 0 (rows df) [] []) as [rows_ log] eqn:E.
  simpl in Hrows. rewrite <- Hrows. destruct rows_ as [|r0 rows_].
  - eexists. split; [done|]. intros e He. apply elem_of_app; by left.
  - eexists. split; [done|]. intros e He. apply elem_of_app; by left.
Qed.

(** The dict built for hour [h] of a valid row. *)
Lemma expand_row_valid tz cols idx row arr :
  array_items (energy_consumption row) = Some arr ->
  length arr = 24%nat ->
  (expand_row tz cols idx row).1
  = imap (hourly_row cols row (resolve_date (date_ row))
            (localize tz (combine (resolve_date (date_ row)) 0 0))) arr.
Proof.
  intros Harr Hlen. unfold expand_row, invalid_array.
  by rewrite Harr, Hlen.
Qed.



(** C3. On the day the clocks go forward in Europe/Vilnius (2024-03-31) the
    expander gives the record of hour 4 the local timestamp
    2024-03-31T04:00:00+02:00: the offset is the one in force at midnight.
    The zone's rules put that instant (02:00 UTC) at UTC+3, where it reads
    05:00:00+03:00; the same holds for every hour from 3 to 23 of that
    day. *)
Theorem expand_dst_day_keeps_midnight_offset :
  let local_midnight := localize LOCAL_TZ (combine (mkdate 2024 3 31) 0 0) in
  let ts_local (h : nat) := aware_add local_midnight (Z.of_nat h * 3600) in
  (exists r,
      (expand_row LOCAL_TZ Samples.INPUT_COLUMNS 2 Samples.dst_day).1 !! 4%nat = Some r
      /\ hour r = 4
      /\ timestamp_local r = "2024-03-31T04:00:00+02:00"
      /\ timestamp_utc r = "2024-03-31T02:00:00+00:00")
  /\ utcoffset (tz_of (ts_local 4%nat)) = 7200
  /\ utcoffset (info_at LOCAL_TZ (utc_of (ts_local 4%nat))) = 10800
  /\ isoformat (normalize LOCAL_TZ (ts_local 4%nat)) = "2024-03-31T05:00:00+03:00"
  /\ filter (fun h => utcoffset (tz_of (ts_local h))
                      <> utcoffset (info_at LOCAL_TZ (utc_of (ts_local h))))
        (seq 0 24)
     = seq 3 21.
Proof.
  intros local_midnight ts_local. split.
  - eexists. split; [reflexivity|]. repeat split; vm_compute; reflexivity.
  - repeat split; vm_compute; reflexivity.
Qed.

(** A row without a 24-item array contributes nothing and logs one
    warning. *)
Lemma expand_row_invalid tz cols idx row :
  (forall items, array_items (energy_consumption row) = Some items ->
                 length items <> 24%nat) ->
  expand_row tz cols idx row
  = ([], [Warning_skip_row idx (ext_dev_ref row) (date_ row)]).
Proof.
  intros Hbad. unfold expand_row, invalid_array.
  destruct (array_items (energy_consumption row)) as [items|] eqn:E; [|done].
  specialize (Hbad items eq_refl).
  by destruct (Nat.eqb_spec (length items) 24).
Qed.

(** A frame that lacks a required column is refused before any row is
    looked at. *)
Lemma expand_raises tz df :
  ~ required ⊆ columns df ->
  expand_daily_array_to_hourly df tz
  = Raised (ValueError "Input dataframe must contain columns").
Proof.
  intros Hreq. unfold expand_daily_array_to_hourly.
  by rewrite (bool_decide_eq_false_2 _ Hreq).
Qed.

(** C6. A row whose [energy_consumption] is not a list, tuple or ndarray of
    exactly 24 items is skipped: the loop body appends no hourly row for it
    and logs one warning naming its index, device and date.  The call hands
    back exactly what it hands back for the same input without that row
    (the same frame, the rows before and after it expanded as if it were
    not there), the warning is in the log, and the call returns whenever
    the frame has the required columns: the row is never the cause of an
    exception. *)
Theorem expand_drops_invalid_row
    (timezone : DstTzInfo) (cols : list string)
    (before after : list MeterDayRecord) (row : MeterDayRecord) :
  (forall items, array_items (energy_consumption row) = Some items ->
                 length items <> 24%nat) ->
  let skipped := Warning_skip_row (length before) (ext_dev_ref row) (date_ row) in
  let with_row :=
    expand_daily_array_to_hourly (mkDataFrame cols (before ++ row :: after)) timezone in
  let without_row :=
    expand_daily_array_to_hourly (mkDataFrame cols (before ++ after)) timezone in
  expand_row timezone cols (length before) row = ([], [skipped])
  /\ returned_frame with_row = returned_frame without_row
  /\ (forall out log, with_row = Returned (out, log) -> skipped ∈ log)
  /\ (required ⊆ cols -> exists out log, with_row = Returned (out, log)).
Proof.
  intros Hbad skipped with_row without_row.
  pose proof (expand_row_invalid timezone cols (length before) row Hbad) as Hrow.
  split; [done|].
  destruct (decide (required ⊆ cols)) as [Hreq|Hreq].
  - destruct (expand_returns timezone (mkDataFrame cols (before ++ row :: after)) Hreq)
      as (log & Hret & Hlog).
    destruct (expand_returns timezone (mkDataFrame cols (before ++ after)) Hreq)
      as (log' & Hret' & _).
    simpl in *. unfold with_row, without_row. rewrite Hret, Hret'; simpl.
    split; [|split].
    + f_equal. f_equal. rewrite !flat_map_app; simpl.
      by rewrite (expand_row_invalid timezone cols 0 row Hbad).
    + intros out log0 [= _ <-]. apply Hlog.
      apply (expand_loop_log_row timezone cols _ 0 [] [] (length before) row).
      * by rewrite list_lookup_middle.
      * simpl. rewrite Hrow. left.
    + intros _. by eexists _, _.
  - unfold with_row, without_row.
    rewrite !expand_raises by done. by repeat split.
Qed.

Lemma expand_drops_invalid_row_witness :
  (forall items,
      array_items (energy_consumption Samples.short_day) = Some items ->
      length items <> 24%nat)
  /\ expand_row LOCAL_TZ Samples.INPUT_COLUMNS 1 Samples.short_day
     = ([], [Warning_skip_row 1 "meter-1" (Date_date (mkdate 2024 6 16))])
  /\ returned_frame
       (expand_daily_array_to_hourly
          (mkDataFrame Samples.INPUT_COLUMNS
             ([Samples.summer_day] ++ Samples.short_day :: [Samples.dst_day]))
          LOCAL_TZ)
     = returned_frame
         (expand_daily_array_to_hourly
            (mkDataFrame Samples.INPUT_COLUMNS
               ([Samples.summer_day] ++ [Samples.dst_day]))
            LOCAL_TZ).
Proof.
  assert (forall items,
      array_items (energy_consumption Samples.short_day) = Some items ->
      length items <> 24%nat) as Hbad.
  { intros items [= <-]. vm_compute. lia. }
  split; [exact Hbad|].
  pose proof (expand_drops_invalid_row LOCAL_TZ Samples.INPUT_COLUMNS
                [Samples.summer_day] [Samples.dst_day] Samples.short_day Hbad) as H.
  exact (conj (proj1 H) (proj1 (proj2 H))).
Defined.

(** C8, as amended. For an input frame with zero rows that has the four
    required columns, the expander returns an empty frame, logs the warning
    that the result is empty, and does not raise. *)
Theorem expand_empty_input (timezone : DstTzInfo) (cols : list string) :
  required ⊆ cols ->
  expand_daily_array_to_hourly (mkDataFrame cols []) timezone
  = Returned ([], [Warning_empty_hourly]).
Proof.
  intros Hreq. unfold expand_daily_array_to_hourly; simpl.
  by rewrite (bool_decide_eq_true_2 _ Hreq).
Qed.

Lemma expand_empty_input_witness :
  required ⊆ Samples.INPUT_COLUMNS
  /\ expand_daily_array_to_hourly (mkDataFrame Samples.INPUT_COLUMNS []) LOCAL_TZ
     = Returned ([], [Warning_empty_hourly]).
Proof.
  assert (required ⊆ Samples.INPUT_COLUMNS) as Hreq
    by decide_by_computation.
  split; [exact Hreq|].
  exact (expand_empty_input LOCAL_TZ Samples.INPUT_COLUMNS Hreq).
Defined.

(** C8, as stated, fails on the frame [pd.DataFrame()]: it has zero rows,
    and the column guard raises ValueError before any row is looked at. *)
Lemma expand_empty_without_columns_raises :
  rows Samples.no_columns_frame = []
  /\ expand_daily_array_to_hourly Samples.no_columns_frame LOCAL_TZ
     = Raised (ValueError "Input dataframe must contain columns")
  /\ ~ (exists res,
          expand_daily_array_to_hourly Samples.no_columns_frame LOCAL_TZ
          = Returned res).
Proof.
  split; [reflexivity|]. split; [reflexivity|].
  intros [res Hres]. discriminate Hres.
Qed.

End ReaderFacts.

(** ** Timestamp normalization *)

Module TimestampFacts.
Import Calendar Tz Timestamps FeatureSamples.

(** C2. A string column that mixes a value with an offset and a value
    without one is parsed as a whole with [utc=True], because some value
    ends with an offset token: the naive value 12:00:00 is taken as UTC and
    comes out as 14:00:00+02:00, its clock value shifted.  On its own, or
    next to a tz-aware Timestamp object (the element-wise branch), the same
    string is localized to 12:00:00+02:00.  A column of a tz-aware dtype is
    returned as it is, in its own zone. *)
Theorem parse_mixed_column_shifts_naive_value :
  _series_has_tz_offset mixed_strings = true
  /\ _parse_timestamp_local_to_tz (Series_object mixed_strings) _LOCAL_TZ
     = Returned [Some (vilnius_winter 8); Some (vilnius_winter 14)]
  /\ _parse_timestamp_local_to_tz
       (Series_object [Ts_str "2024-01-15T12:00:00"]) _LOCAL_TZ
     = Returned [Some (vilnius_winter 12)]
  /\ _parse_timestamp_local_to_tz (Series_object mixed_objects) _LOCAL_TZ
     = Returned [Some (vilnius_winter 8); Some (vilnius_winter 8);
                 Some (vilnius_winter 12)]
  /\ _parse_timestamp_local_to_tz (Series_datetime64tz utc_column) _LOCAL_TZ
     = Returned utc_column.
Proof.
  split; [reflexivity|]. repeat split; vm_compute; reflexivity.
Qed.

End TimestampFacts.

(** ** Rolling features *)

Module RollingFacts.
Import Calendar Tz Features FeatureSamples.

Lemma nth_imap {A B} (f : nat -> A -> B) (l : list A) (i : nat) (d : B) (x : A) :
  l !! i = Some x -> nth i (imap f l) d = f i x.
Proof.
  intros Hi. rewrite nth_lookup, list_lookup_imap, Hi. reflexivity.
Qed.

(** The entry [transform] gives a row that no earlier row shares its key
    with is the first entry of its group's column. *)
Lemma transform_first_of_group {R} (key : R -> string) (val : R -> float)
    (f : list float -> list float) (rows : list R) (i : nat) (x : R) :
  rows !! i = Some x ->
  (forall j y, (j < i)%nat -> rows !! j = Some y -> key y <> key x) ->
  nth i (transform key val f rows) F64.nan
  = nth 0 (f (map val (group_of key rows (key x)))) F64.nan.
Proof.
  intros Hi Hfirst. unfold transform. rewrite (nth_imap _ _ _ _ x Hi).
  assert (group_of key (take i rows) (key x) = []) as ->; [|done].
  apply elem_of_nil_inv. intros y [Hy Hin]%list_elem_of_filter.
  apply list_elem_of_lookup in Hin as [j Hj].
  apply lookup_take_Some in Hj as [Hj Hlt].
  by apply (Hfirst j y).
Qed.

(** A shifted column starts with a null, so its first window holds no
    observation. *)
Lemma rolling_shift_first (window : nat) (agg : list float -> float)
    (s : list float) :
  s <> [] ->
  nth 0 (rolling window 1 agg (shift 1 s)) F64.nan = F64.nan.
Proof.
  intros Hs. destruct s as [|v s]; [done|].
  unfold shift, rolling; simpl.
  destruct window as [|w]; done.
Qed.

(** C10. In the frame [add_rolling_features_hourly] returns, a row that is
    the first of its device (no earlier row has its [ext_dev_ref]) has a
    null rolling mean and a rolling standard deviation of exactly 0, which
    is not null: the two columns disagree on definedness there, and the 0
    stands for a window without any preceding sample. *)
Theorem first_row_rolling_std_zero_mean_null
    (df : list HourlyFeatures) (window_hours i : nat) (r : WithRolling) :
  (0 < window_hours)%nat ->
  add_rolling_features_hourly df window_hours !! i = Some r ->
  (forall j r', (j < i)%nat ->
      add_rolling_features_hourly df window_hours !! j = Some r' ->
      ext_dev_ref (rolling_row r') <> ext_dev_ref (rolling_row r)) ->
  F64.isna (rolling_mean r) = true
  /\ rolling_std r = F64.zero
  /\ F64.isna (rolling_std r) = false.
Proof.
  intros _ Hr Hfirst. unfold add_rolling_features_hourly in *.
  set (sorted := sort_values by_device_time df) in *.
  rewrite list_lookup_imap in Hr.
  destruct (sorted !! i) as [x|] eqn:Hx; [|done].
  injection Hr as <-; simpl in *.
  assert (forall j y, (j < i)%nat -> sorted !! j = Some y ->
                      ext_dev_ref y <> ext_dev_ref x) as Hfirst'.
  { intros j y Hj Hy.
    refine (Hfirst j (mkWithRolling y _ _) Hj _).
    by rewrite list_lookup_imap, Hy. }
  assert (map consumption_kwh (group_of ext_dev_ref sorted (ext_dev_ref x)) <> [])
    as Hne.
  { assert (x ∈ group_of ext_dev_ref sorted (ext_dev_ref x)) as Hin.
    { apply list_elem_of_filter. split; [done|].
      apply list_elem_of_lookup; eauto. }
    destruct (group_of ext_dev_ref sorted (ext_dev_ref x)); [|done].
    by apply elem_of_nil in Hin. }
  rewrite !(transform_first_of_group _ _ _ _ _ x Hx Hfirst').
  rewrite (rolling_shift_first _ F64.mean _ Hne).
  destruct (map consumption_kwh _) as [|v s] eqn:E; [done|].
  unfold shift, rolling; simpl.
  destruct window_hours; done.
Qed.

Lemma first_row_rolling_std_zero_mean_null_witness :
  (0 < 24)%nat
  /\ (exists r,
        add_rolling_features_hourly
          [hourly "meter-1" 0 (F64.of_Z 2); hourly "meter-1" 1 (F64.of_Z 4)] 24
        !! 0%nat = Some r
        /\ F64.isna (rolling_mean r) = true /\ rolling_std r = F64.zero).
Proof.
  split; [lia|]. eexists. split; [reflexivity|].
  refine (let H := first_row_rolling_std_zero_mean_null
                     [hourly "meter-1" 0 (F64.of_Z 2); hourly "meter-1" 1 (F64.of_Z 4)]
                     24 0 _ _ eq_refl _ in conj (proj1 H) (proj1 (proj2 H))).
  - lia.
  - intros j r' Hj. lia.
Defined.

End RollingFacts.

(** ** Binary64 comparisons and signs *)

Module FloatFacts.

Lemma filter_all {A} (P : A -> Prop) `{forall x, Decision (P x)} (l : list A) :
  (forall x, x ∈ l -> P x) -> filter P l = l.
Proof.
  induction l as [|x l IH]; intros Hall; [done|].
  rewrite filter_cons_True by (apply Hall; left).
  f_equal. apply IH. intros y Hy. apply Hall. by right.
Qed.

(** Two positive finite floats compare by their exponents first. *)
Lemma ltb_finite_pos_exp m1 e1 m2 e2 :
  e1 < e2 -> F64.ltb (S754_finite false m1 e1) (S754_finite false m2 e2) = true.
Proof.
  intros H. unfold F64.ltb, SFltb, SFcompare.
  by rewrite (proj2 (Z.compare_lt_iff e1 e2) H).
Qed.

Lemma ltb_finite_pos_inv m1 e1 m2 e2 :
  F64.ltb (S754_finite false m1 e1) (S754_finite false m2 e2) = true -> e1 <= e2.
Proof.
  unfold F64.ltb, SFltb, SFcompare.
  destruct (Z.compare_spec e1 e2); intros; try lia; discriminate.
Qed.

(** Rounding keeps the sign it is given. *)
Lemma binary_round_aux_sign s m e l :
  F64.has_sign s (binary_round_aux F64.prec F64.emax s m e l).
Proof.
  unfold binary_round_aux.
  destruct (shr_fexp _ _ m e l) as [mrs' e'].
  destruct (shr_fexp _ _ _ e' loc_Exact) as [mrs'' e''].
  destruct (shr_m mrs''); simpl; [done| |done].
  by destruct (Z.leb _ _).
Qed.

Lemma binary_round_sign s m e : F64.has_sign s (binary_round F64.prec F64.emax s m e).
Proof.
  unfold binary_round. destruct (shl_align _ _ _) as [mz ez].
  apply binary_round_aux_sign.
Qed.

Lemma of_Z_sign n : 0 <= n -> F64.has_sign false (F64.of_Z n).
Proof.
  intros Hn. unfold F64.of_Z, binary_normalize.
  destruct n as [|p|p]; [done| |lia]. apply binary_round_sign.
Qed.

(** [0 <= x] in binary64: a zero of either sign, or a positive value. *)
Lemma leb_zero_inv x :
  F64.leb F64.zero x = true ->
  (exists s, x = S754_zero s) \/ F64.has_sign false x /\ F64.isna x = false.
Proof.
  destruct x as [s|s| |s m e]; intros H; try discriminate H.
  - left. by exists s.
  - right. by destruct s.
  - right. by destruct s.
Qed.

Lemma leb_zero_notna x : F64.leb F64.zero x = true -> F64.isna x = false.
Proof. by destruct x. Qed.

(** Adding a value that is not negative to an accumulator whose sign bit
    is clear leaves the sign bit clear. *)
Lemma add_sign a x :
  F64.has_sign false a -> F64.leb F64.zero x = true -> F64.has_sign false (F64.add a x).
Proof.
  intros Ha Hx.
  destruct x as [sx|sx| |sx mx ex]; try discriminate Hx.
  - destruct a as [sa|sa| |sa ma ea]; simpl in *; subst; try done.
    by destruct sx.
  - destruct sx; [discriminate Hx|].
    destruct a as [sa|sa| |sa ma ea]; simpl in *; subst; done.
  - destruct sx; [discriminate Hx|].
    destruct a as [sa|sa| |sa ma ea]; simpl in *; subst; try done.
    unfold F64.add, SFadd, binary_normalize, cond_Zopp.
    destruct (Z.pos _ + Z.pos _) eqn:E; [done| apply binary_round_sign | lia].
Qed.

Lemma fold_add_sign (l : list float) : forall acc,
  F64.has_sign false acc ->
  (forall x, x ∈ l -> F64.leb F64.zero x = true) ->
  F64.has_sign false (fold_left F64.add l acc).
Proof.
  induction l as [|x l IH]; intros acc Hacc Hl; simpl; [done|].
  apply IH.
  - apply add_sign; [done|]. apply Hl. left.
  - intros y Hy. apply Hl. by right.
Qed.

(** A quotient by a divisor whose sign bit is clear has the sign of the
    dividend. *)
Lemma div_sign a b s : F64.has_sign s a -> F64.has_sign false b -> F64.has_sign s (F64.div a b).
Proof.
  intros Ha Hb.
  destruct a as [sa|sa| |sa ma ea], b as [sb|sb| |sb mb eb]; simpl in *; subst;
    try done; try (by destruct s).
  unfold F64.div, SFdiv.
  destruct (SFdiv_core_binary _ _ _ _ _ _) as [[mz ez] lz].
  rewrite xorb_false_r. apply binary_round_aux_sign.
Qed.

Lemma dropna_elem x l : x ∈ F64.dropna l -> x ∈ l /\ F64.isna x = false.
Proof. unfold F64.dropna. rewrite list_elem_of_filter. tauto. Qed.

Lemma sum_sign l :
  (forall x, x ∈ l -> F64.isna x = false -> F64.leb F64.zero x = true) ->
  F64.has_sign false (F64.sum l).
Proof.
  intros Hl. unfold F64.sum. apply fold_add_sign; [done|].
  intros x [Hx Hna]%dropna_elem. by apply Hl.
Qed.

Lemma mean_sign l :
  (forall x, x ∈ l -> F64.isna x = false -> F64.leb F64.zero x = true) ->
  F64.has_sign false (F64.mean l).
Proof.
  intros Hl. unfold F64.mean. apply div_sign; [by apply sum_sign|].
  apply of_Z_sign. unfold F64.count. lia.
Qed.

(** What [idxmax] returns is a non-null cell of the column, at the position
    it names. *)
Lemma idxmax_from_spec l : forall i0 best j v,
  F64.idxmax_from i0 l best = Some (j, v) ->
  best = Some (j, v)
  \/ exists k, l !! k = Some v /\ j = (i0 + k)%nat /\ F64.isna v = false.
Proof.
  induction l as [|x l IH]; intros i0 best j v H; simpl in H; [by left|].
  apply IH in H as [H | (k & Hk & -> & Hna)].
  - destruct (F64.isna x) eqn:Hx; [by left|].
    destruct best as [[b0 b]|].
    + destruct (F64.ltb b x); [|by left].
      injection H as <- <-. right. exists 0%nat. by rewrite Nat.add_0_r.
    + injection H as <- <-. right. exists 0%nat. by rewrite Nat.add_0_r.
  - right. exists (S k). split; [done|]. split; [lia|done].
Qed.

Lemma idxmax_spec l j v :
  F64.idxmax l = Some (j, v) -> l !! j = Some v /\ F64.isna v = false.
Proof.
  intros H. apply idxmax_from_spec in H as [H | (k & Hk & -> & Hna)]; done.
Qed.

Lemma idxmax_from_is_Some l : forall i0 best,
  is_Some best \/ (exists x, x ∈ l /\ F64.isna x = false) ->
  is_Some (F64.idxmax_from i0 l best).
Proof.
  induction l as [|x l IH]; intros i0 best H; simpl.
  - destruct H as [H | (x & Hx & _)]; [done|]. by apply elem_of_nil in Hx.
  - apply IH. destruct H as [H | (y & Hy & Hna)].
    + left. destruct (F64.isna x); [done|].
      destruct H as [[b0 b] ->]. by destruct (F64.ltb b x).
    + apply elem_of_cons in Hy as [-> | Hy]; [|right; eauto].
      left. rewrite Hna. destruct best as [[b0 b]|]; [|done].
      by destruct (F64.ltb b x).
Qed.

(** [x < 0] in binary64: minus infinity or a negative finite value. *)
Lemma ltb_zero_inv x :
  F64.ltb x F64.zero = true ->
  x = S754_infinity true \/ exists m e, x = S754_finite true m e.
Proof.
  destruct x as [s|s| |s m e]; intros H; try discriminate H;
    destruct s; try discriminate H; eauto.
Qed.

(** Adding a negative value to an accumulator that is the initial 0 or has
    its sign bit set leaves the sign bit set. *)
Lemma add_neg a x :
  a = F64.zero \/ F64.has_sign true a -> F64.ltb x F64.zero = true ->
  F64.has_sign true (F64.add a x).
Proof.
  intros Ha Hx. apply ltb_zero_inv in Hx as [->|(m & e & ->)].
  - destruct Ha as [->|Ha]; [done|].
    destruct a as [sa|sa| |sa ma ea]; simpl in *; subst; done.
  - destruct Ha as [->|Ha]; [done|].
    destruct a as [sa|sa| |sa ma ea]; simpl in *; subst; try done.
    unfold F64.add, SFadd, binary_normalize, cond_Zopp.
    match goal with
    | |- context [match ?z with Z0 => _ | Z.pos _ => _ | Z.neg _ => _ end] =>
        destruct z eqn:E
    end; [lia|lia|apply binary_round_sign].
Qed.

Lemma fold_add_neg (l : list float) : forall acc,
  F64.has_sign true acc ->
  (forall x, x ∈ l -> F64.ltb x F64.zero = true) ->
  F64.has_sign true (fold_left F64.add l acc).
Proof.
  induction l as [|x l IH]; intros acc Hacc Hl; simpl; [done|].
  apply IH.
  - apply add_neg; [by right|]. apply Hl. left.
  - intros y Hy. apply Hl. by right.
Qed.

(** The quotient of two values whose sign bits are set has its sign bit
    clear. *)
Lemma div_neg a b :
  F64.has_sign true a -> F64.has_sign true b -> F64.has_sign false (F64.div a b).
Proof.
  intros Ha Hb.
  destruct a as [sa|sa| |sa ma ea], b as [sb|sb| |sb mb eb]; simpl in *; subst;
    try done.
  unfold F64.div, SFdiv.
  destruct (SFdiv_core_binary _ _ _ _ _ _) as [[mz ez] lz].
  apply binary_round_aux_sign.
Qed.

Lemma sum_neg l :
  (exists x, x ∈ l /\ F64.isna x = false) ->
  (forall x, x ∈ l -> F64.isna x = false -> F64.ltb x F64.zero = true) ->
  F64.has_sign true (F64.sum l).
Proof.
  intros (x0 & Hx0 & Hna0) Hl. unfold F64.sum.
  assert (forall x, x ∈ F64.dropna l -> F64.ltb x F64.zero = true) as Hall
    by (intros x [Hx Hna]%dropna_elem; by apply Hl).
  assert (x0 ∈ F64.dropna l) as Hin
    by (unfold F64.dropna; by apply list_elem_of_filter).
  destruct (F64.dropna l) as [|x1 rest]; [by apply elem_of_nil in Hin|].
  cbn [fold_left]. apply fold_add_neg.
  - apply add_neg; [by left|]. apply Hall. left.
  - intros y Hy. apply Hall. by right.
Qed.

Lemma mean_neg l :
  (exists x, x ∈ l /\ F64.isna x = false) ->
  (forall x, x ∈ l -> F64.isna x = false -> F64.ltb x F64.zero = true) ->
  F64.has_sign true (F64.mean l).
Proof.
  intros Hne Hl. unfold F64.mean. apply div_sign; [by apply sum_neg|].
  apply of_Z_sign. unfold F64.count. lia.
Qed.

End FloatFacts.

(** ** Float comparison is a total order on the non-null floats *)

Module OrderFacts.
Import F64Order.

Lemma lex_lt_trans a b c : lex_lt a b -> lex_lt b c -> lex_lt a c.
Proof.
  destruct a as [[??]?], b as [[??]?], c as [[??]?]; unfold lex_lt; simpl; lia.
Qed.

Lemma lex_lt_irrefl a : ~ lex_lt a a.
Proof. destruct a as [[??]?]; unfold lex_lt; simpl; lia. Qed.

Lemma lex_le_lt_trans a b c : ~ lex_lt b a -> lex_lt b c -> lex_lt a c.
Proof.
  destruct a as [[??]?], b as [[??]?], c as [[??]?]; unfold lex_lt; simpl; lia.
Qed.

Lemma lex_lt_le_trans a b c : lex_lt a b -> ~ lex_lt c b -> lex_lt a c.
Proof.
  destruct a as [[??]?], b as [[??]?], c as [[??]?]; unfold lex_lt; simpl; lia.
Qed.

Ltac order_cases :=
  simpl;
  repeat match goal with
         | |- context [Z.compare ?a ?b] => destruct (Z.compare_spec a b)
         | |- context [Pos.compare_cont Eq ?a ?b] =>
             change (Pos.compare_cont Eq a b) with (Pos.compare a b);
             destruct (Pos.compare_spec a b)
         end;
  simpl; split; intros; try discriminate; try reflexivity; try lia;
  try (exfalso; lia).

Lemma ltb_rank x y :
  F64.isna x = false -> F64.isna y = false ->
  F64.ltb x y = true <-> lex_lt (rank x) (rank y).
Proof.
  intros Hx Hy. unfold F64.ltb, SFltb, SFcompare, lex_lt.
  destruct x as [[]|[]| |[] mx ex], y as [[]|[]| |[] my ey];
    try discriminate; order_cases.
Qed.

Lemma leb_rank x y :
  F64.isna x = false -> F64.isna y = false ->
  F64.leb x y = true <-> ~ lex_lt (rank y) (rank x).
Proof.
  intros Hx Hy. unfold F64.leb, SFleb, SFcompare, lex_lt.
  destruct x as [[]|[]| |[] mx ex], y as [[]|[]| |[] my ey];
    try discriminate; order_cases.
Qed.

Lemma ltb_notna x y :
  F64.ltb x y = true -> F64.isna x = false /\ F64.isna y = false.
Proof. by destruct x as [| | |[]], y as [| | |[]]. Qed.

Lemma leb_notna x y :
  F64.leb x y = true -> F64.isna x = false /\ F64.isna y = false.
Proof. by destruct x as [| | |[]], y as [| | |[]]. Qed.

Lemma ltb_irrefl x : F64.ltb x x = false.
Proof.
  destruct (F64.ltb x x) eqn:H; [|done].
  destruct (ltb_notna _ _ H). apply ltb_rank in H; [|done..].
  by apply lex_lt_irrefl in H.
Qed.

Lemma ltb_trans x y z :
  F64.ltb x y = true -> F64.ltb y z = true -> F64.ltb x z = true.
Proof.
  intros H1 H2. destruct (ltb_notna _ _ H1), (ltb_notna _ _ H2).
  apply ltb_rank in H1, H2; [|done..]. apply ltb_rank; [done..|].
  by eapply lex_lt_trans.
Qed.

Lemma leb_ltb_trans x y z :
  F64.leb x y = true -> F64.ltb y z = true -> F64.ltb x z = true.
Proof.
  intros H1 H2. destruct (leb_notna _ _ H1), (ltb_notna _ _ H2).
  apply leb_rank in H1; [|done..]. apply ltb_rank in H2; [|done..].
  apply ltb_rank; [done..|]. by eapply lex_le_lt_trans.
Qed.

Lemma ltb_leb_trans x y z :
  F64.ltb x y = true -> F64.leb y z = true -> F64.ltb x z = true.
Proof.
  intros H1 H2. destruct (ltb_notna _ _ H1), (leb_notna _ _ H2).
  apply ltb_rank in H1; [|done..]. apply leb_rank in H2; [|done..].
  apply ltb_rank; [done..|]. by eapply lex_lt_le_trans.
Qed.

Lemma ltb_asym x y : F64.ltb x y = true -> F64.ltb y x = false.
Proof.
  intros H. destruct (F64.ltb y x) eqn:H'; [|done].
  by rewrite <-(ltb_irrefl x), (ltb_trans _ _ _ H H').
Qed.

Lemma not_ltb_leb x y :
  F64.isna x = false -> F64.isna y = false ->
  F64.ltb x y = false -> F64.leb y x = true.
Proof.
  intros Hx Hy H. apply leb_rank; [done..|]. intros Hlt.
  apply ltb_rank in Hlt; [|done..]. congruence.
Qed.

Lemma leb_not_ltb x y : F64.leb x y = true -> F64.ltb y x = false.
Proof.
  intros H. destruct (F64.ltb y x) eqn:H'; [|done].
  by rewrite <-(ltb_irrefl y), (ltb_leb_trans _ _ _ H' H).
Qed.

(** What [idxmax] returns is a first maximum: no non-null cell exceeds it
    and every non-null cell before it is strictly smaller. *)
Lemma idxmax_from_first_max l : forall i0 best j v,
  F64.idxmax_from i0 l best = Some (j, v) ->
  (forall jb b, best = Some (jb, b) -> F64.isna b = false /\ (jb < i0)%nat) ->
  (forall k x, l !! k = Some x -> F64.isna x = false -> F64.ltb v x = false)
  /\ (forall k x, l !! k = Some x -> F64.isna x = false -> (i0 + k < j)%nat ->
        F64.ltb x v = true)
  /\ (forall jb b, best = Some (jb, b) ->
        F64.ltb v b = false
        /\ ((j, v) = (jb, b) \/ (F64.ltb b v = true /\ (i0 <= j)%nat)))
  /\ (best = None -> (i0 <= j)%nat)
  /\ F64.isna v = false.
Proof.
  induction l as [|x l IH]; intros i0 best j v.
  - simpl. intros -> Hok. destruct (Hok j v eq_refl) as [Hv _].
    split_and!; try done.
    intros jb b [= <- <-]. split; [apply ltb_irrefl|by left].
  - simpl. destruct (F64.isna x) eqn:Hx.
    + intros Hres Hok. apply IH in Hres as (A & C & B & D & Hv).
      2:{ intros jb b Hb. destruct (Hok jb b Hb). split; [done|lia]. }
      split_and!; [| | | |done].
      * intros [|k] y Hy Hny; simpl in Hy; [congruence|eauto].
      * intros [|k] y Hy Hny Hlt; simpl in Hy; [congruence|].
        apply (C k y); [done..|lia].
      * intros jb b Hb. destruct (B jb b Hb) as [? [?|[??]]]; split; auto.
        right. split; [done|lia].
      * intros Hn. specialize (D Hn). lia.
    + destruct best as [[jb b]|].
      * destruct (F64.ltb b x) eqn:Hbx; intros Hres Hok;
          destruct (Hok jb b eq_refl) as [Hb Hjb].
        -- apply IH in Hres as (A & C & B & D & Hv).
           2:{ intros ? ? [= <- <-]. split; [done|lia]. }
           destruct (B i0 x eq_refl) as [Hvx Hcase].
           split_and!; [| | | |done].
           ++ intros [|k] y Hy Hny; simpl in Hy; [by injection Hy as <-|eauto].
           ++ intros [|k] y Hy Hny Hlt; simpl in Hy.
              { injection Hy as <-. destruct Hcase as [[= ? ?]|[? ?]]; [lia|done]. }
              apply (C k y); [done..|lia].
           ++ intros ? ? [= <- <-].
              assert (F64.ltb b v = true) as Hbv.
              { destruct Hcase as [[= _ <-]|[??]]; [done|]. by eapply ltb_trans. }
              split; [by apply ltb_asym|]. right. split; [done|].
              destruct Hcase as [[= ? ?]|[??]]; lia.
           ++ done.
        -- apply IH in Hres as (A & C & B & D & Hv).
           2:{ intros ? ? [= <- <-]. split; [done|lia]. }
           destruct (B jb b eq_refl) as [Hvb Hcase].
           assert (F64.leb x b = true) as Hxb by (by apply not_ltb_leb).
           split_and!; [| | | |done].
           ++ intros [|k] y Hy Hny; simpl in Hy; [|eauto].
              injection Hy as <-. destruct (F64.ltb v x) eqn:Hvx; [|done].
              by rewrite (ltb_leb_trans _ _ _ Hvx Hxb) in Hvb.
           ++ intros [|k] y Hy Hny Hlt; simpl in Hy.
              { injection Hy as <-. destruct Hcase as [[= ? ?]|[Hbv ?]]; [lia|].
                by eapply leb_ltb_trans. }
              apply (C k y); [done..|lia].
           ++ intros ? ? [= <- <-]. split; [done|].
              destruct Hcase as [?|[??]]; [by left|]. right. split; [done|lia].
           ++ done.
      * intros Hres Hok. apply IH in Hres as (A & C & B & D & Hv).
        2:{ intros ? ? [= <- <-]. split; [done|lia]. }
        destruct (B i0 x eq_refl) as [Hvx Hcase].
        split_and!; [| | | |done].
        -- intros [|k] y Hy Hny; simpl in Hy; [by injection Hy as <-|eauto].
        -- intros [|k] y Hy Hny Hlt; simpl in Hy.
           { injection Hy as <-. destruct Hcase as [[= ? ?]|[? ?]]; [lia|done]. }
           apply (C k y); [done..|lia].
        -- intros ? ? [=].
        -- intros _. destruct Hcase as [[= ? ?]|[??]]; lia.
Qed.

Lemma idxmax_first_max l j v :
  F64.idxmax l = Some (j, v) ->
  l !! j = Some v /\ F64.isna v = false
  /\ (forall k x, l !! k = Some x -> F64.isna x = false -> F64.ltb v x = false)
  /\ (forall k x, l !! k = Some x -> F64.isna x = false -> (k < j)%nat ->
        F64.ltb x v = true).
Proof.
  intros H. destruct (FloatFacts.idxmax_spec _ _ _ H) as [Hj Hv].
  apply idxmax_from_first_max in H as (A & C & _); [|done].
  split_and!; try done.
Qed.

End OrderFacts.

(** ** Consumption category *)

Module CategoryFacts.
Import Features FeatureSamples FloatFacts.

(** The default edges -1, 5, 15, 50 and 999999 as binary64 values. *)
Lemma DEFAULT_BINS_eq :
  DEFAULT_BINS
  = [S754_finite true 4503599627370496 (-52);
     S754_finite false 5629499534213120 (-50);
     S754_finite false 8444249301319680 (-49);
     S754_finite false 7036874417766400 (-47);
     S754_finite false 8589926002065408 (-33)].
Proof. reflexivity. Qed.

(** Whatever is above the last edge is above every edge. *)
Lemma edge_below (b x : float) :
  b ∈ DEFAULT_BINS -> F64.ltb (F64.of_Z 999999) x = true -> F64.ltb b x = true.
Proof.
  rewrite DEFAULT_BINS_eq.
  change (F64.of_Z 999999) with (S754_finite false 8589926002065408 (-33)).
  intros Hb Hx.
  destruct x as [s|s| |s m e]; try discriminate Hx;
    (destruct s; [discriminate Hx|]).
  - repeat (apply elem_of_cons in Hb as [->|Hb]; [reflexivity|]).
    by apply elem_of_nil in Hb.
  - apply ltb_finite_pos_inv in Hx as He.
    apply elem_of_cons in Hb as [->|Hb]; [reflexivity|].
    do 3 (apply elem_of_cons in Hb as [->|Hb]; [apply ltb_finite_pos_exp; lia|]).
    apply list_elem_of_singleton in Hb as ->. exact Hx.
Qed.

Lemma cut_above_last_edge x :
  F64.ltb (F64.of_Z 999999) x = true -> cut x DEFAULT_BINS DEFAULT_LABELS = None.
Proof.
  intros Hx. unfold cut.
  rewrite (filter_all (fun b => F64.ltb b x = true)).
  - rewrite Nat.eqb_refl. by rewrite !orb_true_r.
  - intros b Hb. by apply edge_below.
Qed.

(** C7. With the default bins, a daily row whose [total_kwh] is above
    999999 receives no category (a null), not [high]: the last bin ends at
    999999, not at infinity. *)
Theorem category_above_999999_is_null
    (df_daily : list DailyRecord) (i : nat) (d : DailyRecord) :
  df_daily !! i = Some d ->
  F64.ltb (F64.of_Z 999999) (total_kwh d) = true ->
  categorize_daily_consumption df_daily None None !! i
  = Some (mkCategorized d None).
Proof.
  intros Hd Hx. unfold categorize_daily_consumption; simpl.
  change (map ?f df_daily) with (f <$> df_daily).
  rewrite list_lookup_fmap, Hd; simpl.
  by rewrite cut_above_last_edge.
Qed.

Lemma category_above_999999_is_null_witness :
  let d := daily "client-1" "meter-1" "2024-06-15" (F64.of_Z 1000000) in
  F64.ltb (F64.of_Z 50) (total_kwh d) = true
  /\ F64.ltb (F64.of_Z 999999) (total_kwh d) = true
  /\ categorize_daily_consumption [d] None None = [mkCategorized d None].
Proof.
  intros d. split; [reflexivity|]. split; [reflexivity|].
  pose proof (category_above_999999_is_null [d] 0 d eq_refl eq_refl) as H.
  destruct (categorize_daily_consumption [d] None None) as [|c [|]] eqn:E;
    try discriminate E.
  simpl in H. by injection H as ->.
Defined.

(** Inside the bins the labels are as the specification lists them, the
    right edge included. *)
Lemma category_of_sample_totals :
  map (fun x => cut (F64.of_Z x) DEFAULT_BINS DEFAULT_LABELS)
      [-1; 0; 5; 6; 15; 16; 50; 51; 999999]
  = [None; Some "very_low"; Some "very_low"; Some "low"; Some "low";
     Some "medium"; Some "medium"; Some "high"; Some "high"].
Proof. vm_compute. reflexivity. Qed.

End CategoryFacts.

(** ** Grouping and element-wise application *)

Module GroupFacts.
Import Timestamps.

Lemma map_fmap {A B} (f : A -> B) (l : list A) : map f l = f <$> l.
Proof. reflexivity. Qed.

Section Groups.
Context {R K : Type} `{EqDecision K} (key : R -> K) (key_cmp : K -> K -> comparison).

Lemma elem_of_group_keys rows k :
  k ∈ group_keys key key_cmp rows <-> exists r, r ∈ rows /\ key r = k.
Proof.
  unfold group_keys.
  rewrite elem_of_sort_values, elem_of_remove_dups, map_fmap, list_elem_of_fmap.
  split; intros (r & H1 & H2); eauto.
Qed.

Lemma NoDup_group_keys rows : NoDup (group_keys key key_cmp rows).
Proof. apply NoDup_sort_values, NoDup_remove_dups. Qed.

Lemma elem_of_group_of rows k r :
  r ∈ group_of key rows k <-> key r = k /\ r ∈ rows.
Proof. unfold group_of. by rewrite list_elem_of_filter. Qed.

Lemma elem_of_groupby rows k g :
  (k, g) ∈ groupby key key_cmp rows
  <-> k ∈ group_keys key key_cmp rows /\ g = group_of key rows k.
Proof.
  unfold groupby. rewrite map_fmap, list_elem_of_fmap. split.
  - intros (k' & [= -> ->] & Hk). done.
  - intros [Hk ->]. eauto.
Qed.

Lemma groupby_keys rows :
  (groupby key key_cmp rows).*1 = group_keys key key_cmp rows.
Proof.
  unfold groupby.
  induction (group_keys key key_cmp rows) as [|k ks IH]; simpl; [done|].
  by f_equal.
Qed.
End Groups.

Section MapResult.
Context {A B : Type} (f : A -> result B).

Lemma map_result_Returned l ys :
  map_result f l = Returned ys -> Forall2 (fun x y => f x = Returned y) l ys.
Proof.
  revert ys. induction l as [|x l IH]; intros ys H; simpl in H.
  - injection H as <-. constructor.
  - destruct (f x) as [y|e] eqn:Hx; [|done].
    destruct (map_result f l) as [ys'|e]; [|done].
    injection H as <-. constructor; [done|]. by apply IH.
Qed.

Lemma map_result_total l :
  (forall x, x ∈ l -> exists y, f x = Returned y) ->
  exists ys, map_result f l = Returned ys.
Proof.
  induction l as [|x l IH]; intros Hl; simpl; [by eexists|].
  destruct (Hl x) as [y ->]; [left|].
  destruct IH as [ys ->]; [|by eexists].
  intros z Hz. apply Hl. by right.
Qed.

Lemma map_result_fmap (g : A -> B) l :
  (forall x, x ∈ l -> f x = Returned (g x)) ->
  map_result f l = Returned (g <$> l).
Proof.
  induction l as [|x l IH]; intros Hl; simpl; [done|].
  rewrite (Hl x) by left. rewrite IH; [done|].
  intros z Hz. apply Hl. by right.
Qed.
End MapResult.

End GroupFacts.

(** ** Daily aggregation *)

Module DailyFacts.
Import Calendar Tz Timestamps Features FeatureSamples FloatFacts GroupFacts.

Lemma ratio_of_sign_clear q :
  F64.has_sign false q -> ratio_in_order (F64.fillna0 (F64.replace_inf0 q)).
Proof.
  destruct q as [s|s| |s m e]; simpl; intros H; try subst s; done.
Qed.

(** Line 157 on a peak that is not negative and a mean whose sign bit is
    clear. *)
Lemma ratio_of_in_order peak mean_ :
  F64.leb F64.zero peak = true -> F64.has_sign false mean_ ->
  ratio_in_order (ratio_of peak mean_).
Proof.
  intros Hp Hm. unfold ratio_of.
  apply leb_zero_inv in Hp as [[s ->] | [Hp _]].
  - destruct mean_ as [sm|sm| |sm mm em]; simpl in *; subst; try done;
      by destruct s.
  - apply ratio_of_sign_clear. by apply div_sign.
Qed.

Lemma ratio_of_zero_mean peak mean_ :
  F64.leb F64.zero peak = true -> F64.has_sign false mean_ ->
  F64.eqb mean_ F64.zero = true \/ F64.isna mean_ = true ->
  ratio_of peak mean_ = F64.zero.
Proof.
  intros Hp Hm Hz. unfold ratio_of.
  destruct mean_ as [sm|sm| |sm mm em]; simpl in *; subst.
  - destruct peak as [s|s| |s m e]; try done; by destruct s.
  - destruct Hz as [Hz|Hz]; discriminate Hz.
  - by destruct peak.
  - destruct Hz as [Hz|Hz]; discriminate Hz.
Qed.

(** The fields [aggregate_group] fixes are the ones the finished row
    has. *)
Lemma set_frame_wide_keeps d cum w :
  let d' := set_frame_wide d cum w in
  d_client_id d' = d_client_id d /\ d_ext_dev_ref d' = d_ext_dev_ref d
  /\ d_date_local d' = d_date_local d /\ mean_kwh d' = mean_kwh d
  /\ peak_kwh d' = peak_kwh d /\ peak_to_mean_ratio d' = peak_to_mean_ratio d.
Proof. done. Qed.

(** Every row of the result is the aggregate of one group of the input. *)
Lemma aggregate_daily_rows df daily :
  aggregate_daily_from_hourly df = Returned daily ->
  exists res,
    Forall2 (fun g d0 => aggregate_group g.1 g.2 = Returned d0)
            (groupby daily_key cmp3 df) res
    /\ daily
       = imap (fun i d =>
                 set_frame_wide d
                   (nth i (transform device_key total_kwh (cumsum_from F64.zero)
                             (sort_values daily_le res)) F64.nan)
                   (F64.div (total_kwh d)
                      (F64.add
                         (nth i (transform device_key total_kwh
                                   (fun s => replicate (length s) (F64.mean s))
                                   (sort_values daily_le res)) F64.nan)
                         EPS)))
              (sort_values daily_le res).
Proof.
  unfold aggregate_daily_from_hourly. intros H.
  destruct (map_result _ (groupby daily_key cmp3 df)) as [res|e] eqn:E; [|done].
  exists res. split; [by apply map_result_Returned|].
  simpl in H. by injection H.
Qed.

Lemma aggregate_daily_elem df daily d :
  aggregate_daily_from_hourly df = Returned daily -> d ∈ daily ->
  exists k d0,
    k ∈ group_keys daily_key cmp3 df
    /\ aggregate_group k (group_of daily_key df k) = Returned d0
    /\ d_client_id d = d_client_id d0 /\ d_ext_dev_ref d = d_ext_dev_ref d0
    /\ d_date_local d = d_date_local d0 /\ mean_kwh d = mean_kwh d0
    /\ peak_kwh d = peak_kwh d0 /\ peak_to_mean_ratio d = peak_to_mean_ratio d0.
Proof.
  intros (res & Hres & ->)%aggregate_daily_rows Hd.
  apply list_elem_of_lookup in Hd as [i Hi].
  rewrite list_lookup_imap in Hi.
  destruct (sort_values daily_le res !! i) as [d0|] eqn:Hd0; [|done].
  injection Hi as <-.
  assert (d0 ∈ res) as Hin.
  { apply (elem_of_sort_values daily_le). apply list_elem_of_lookup; eauto. }
  apply list_elem_of_lookup in Hin as [j Hj].
  destruct (Forall2_lookup_r _ _ _ _ _ Hres Hj) as ([k g] & Hg & Hagg).
  apply list_elem_of_lookup_2, elem_of_groupby in Hg as [Hk ->].
  exists k, d0. done.
Qed.

Lemma aggregate_group_keys k g d0 :
  aggregate_group k g = Returned d0 ->
  (d_client_id d0, d_ext_dev_ref d0, d_date_local d0) = k.
Proof.
  unfold aggregate_group. destruct (F64.idxmax _) as [[i peak]|]; [|done].
  intros [= <-]. by destruct k as [[? ?] ?].
Qed.

(** Line 157 on a peak that is a zero: the ratio is a zero or is filled
    with 0, whatever the mean. *)
Lemma ratio_of_zero_peak s mean_ :
  ratio_in_order (ratio_of (S754_zero s) mean_)
  /\ (F64.eqb mean_ F64.zero = true \/ F64.isna mean_ = true ->
      ratio_of (S754_zero s) mean_ = F64.zero).
Proof.
  unfold ratio_of.
  destruct mean_ as [sm|sm| |sm mm em], s; try destruct sm; simpl;
    (split; [done|]); intros [H|H]; done.
Qed.

(** Line 157 on a negative peak and a mean whose sign bit is set. *)
Lemma ratio_of_negative peak mean_ :
  F64.ltb peak F64.zero = true -> F64.has_sign true mean_ ->
  ratio_in_order (ratio_of peak mean_)
  /\ (F64.eqb mean_ F64.zero = true \/ F64.isna mean_ = true ->
      ratio_of peak mean_ = F64.zero).
Proof.
  intros Hp Hm. split.
  - unfold ratio_of. apply ratio_of_sign_clear, div_neg; [|done].
    by apply ltb_zero_inv in Hp as [->|(m & e & ->)].
  - intros Hz. unfold ratio_of.
    apply ltb_zero_inv in Hp as [->|(m & e & ->)];
      destruct mean_ as [sm|sm| |sm mm em]; simpl in *; subst; try done;
      destruct Hz as [Hz|Hz]; discriminate Hz.
Qed.


(** The example of the specification: the readings 0, 1, ..., 23 of one
    day give a total of 276, peak hour 23 with peak 23, 21 for the hours 0
    to 6, 123 for the hours 18 to 23, and a ratio of 23 / 11.5 = 2. *)
Lemma daily_of_ramp_day :
  exists d,
    aggregate_daily_from_hourly
      (map (fun h => hourly "meter-1" (Z.of_nat h) (F64.of_Z (Z.of_nat h))) (seq 0 24))
    = Returned [d]
    /\ total_kwh d = F64.of_Z 276
    /\ hourly_count d = 24
    /\ peak_hour d = 23 /\ peak_kwh d = F64.of_Z 23
    /\ night_kwh d = F64.of_Z 21 /\ day_kwh d = F64.of_Z 123
    /\ peak_to_mean_ratio d = F64.of_Z 2.
Proof.
  eexists. split; [vm_compute; reflexivity|]. repeat split.
Qed.



End DailyFacts.

(** ** Monthly aggregation *)

Module MonthlyFacts.
Import Calendar Tz Timestamps Features FeatureSamples FloatFacts GroupFacts.

Lemma map_filter_map {A B C} (f : A -> B) (h : B -> C)
    (P : B -> Prop) (Q : A -> Prop)
    `{forall y, Decision (P y)} `{forall x, Decision (Q x)} (l : list A) :
  (forall x, x ∈ l -> (P (f x) <-> Q x)) ->
  map h (filter P (map f l)) = map (fun x => h (f x)) (filter Q l).
Proof.
  induction l as [|x l IH]; intros Hl; [done|].
  simpl. rewrite !filter_cons.
  assert (P (f x) <-> Q x) as Hx by (apply Hl; left).
  assert (map h (filter P (map f l)) = map (fun x => h (f x)) (filter Q l)) as IH'.
  { apply IH. intros y Hy. apply Hl. by right. }
  destruct (decide (P (f x))), (decide (Q x)); simpl; try tauto.
  by rewrite IH'.
Qed.

Lemma count_map_notna {A} (f : A -> float) (l : list A) :
  F64.count (map f l)
  = Z.of_nat (length (filter (fun x => F64.isna (f x) = false) l)).
Proof.
  unfold F64.count, F64.dropna. f_equal.
  induction l as [|x l IH]; [done|].
  simpl. rewrite !filter_cons.
  destruct (decide (F64.isna (f x) = false)); simpl; by rewrite IH.
Qed.

Lemma with_year_month_dated d :
  is_Some (parse_datetime (d_date_local d)) ->
  with_year_month d = Returned (dated d).
Proof.
  intros [[w off] Hp]. unfold with_year_month, to_datetime_strict, dated, year_month_of.
  by rewrite Hp.
Qed.

Lemma month_key_dated d client dev y mo :
  is_Some (parse_datetime (d_date_local d)) ->
  month_key (dated d) = (client, dev, y, mo)
  <-> d_client_id d = client /\ d_ext_dev_ref d = dev
      /\ year_month_of d = Some (y, mo).
Proof.
  intros [[w off] Hp]. unfold month_key, dated, year_month_of. rewrite Hp; simpl.
  split.
  - intros [= <- <- <- <-]. done.
  - intros (<- & <- & [= <- <-]). done.
Qed.

(** What the aggregator returns when every [date_local] is readable. *)
Lemma monthly_rows_of_readable (df_daily : list DailyRecord) :
  (forall d, d ∈ df_daily -> is_Some (parse_datetime (d_date_local d))) ->
  exists monthly,
    derive_monthly_from_daily df_daily = Returned monthly
    /\ NoDup (map monthly_key monthly)
    /\ forall d y mo,
         d ∈ df_daily -> year_month_of d = Some (y, mo) ->
         let days := days_of_month df_daily (d_client_id d) (d_ext_dev_ref d) y mo in
         exists m,
           m ∈ monthly
           /\ monthly_key m = (d_client_id d, d_ext_dev_ref d, y, mo)
           /\ ((forall d', d' ∈ days ->
                  F64.isna (total_kwh d') = true
                  \/ F64.isfinite (total_kwh d') = true) ->
               monthly_total_kwh m
               = F64.round 6 (F64.group_sum (map total_kwh days)))
           /\ days_with_data m
              = Z.of_nat (length (filter (fun d' => F64.isna (total_kwh d') = false) days))
           /\ ((forall d', d' ∈ days -> F64.isna (total_kwh d') = false) ->
               days_with_data m = Z.of_nat (length days)).
Proof.
  intros Hdates. unfold derive_monthly_from_daily.
  rewrite (map_result_fmap with_year_month dated df_daily)
    by (intros d Hd; by apply with_year_month_dated, Hdates).
  eexists. split; [reflexivity|]. split.
  - set (gs := groupby month_key cmp4 (dated <$> df_daily)).
    assert (map monthly_key (map (fun g => aggregate_month g.1 g.2) gs) = gs.*1)
      as ->.
    { induction gs as [|[[[[c dv] y] mo] g] gs IH]; simpl; [done|]. by f_equal. }
    unfold gs. rewrite groupby_keys. apply NoDup_group_keys.
  - intros d y mo Hd Hym.
    set (days := days_of_month df_daily (d_client_id d) (d_ext_dev_ref d) y mo).
    set (k := (d_client_id d, d_ext_dev_ref d, y, mo)).
    assert (month_key (dated d) = k) as Hk
      by (apply month_key_dated; [by apply Hdates|done]).
    exists (aggregate_month k (group_of month_key (dated <$> df_daily) k)).
    assert (map (fun r : DailyRecord * Z * Z => total_kwh r.1.1)
              (group_of month_key (dated <$> df_daily) k)
            = map total_kwh days) as Htotals.
    { unfold group_of, days, days_of_month.
      change (dated <$> df_daily) with (map dated df_daily).
      apply (map_filter_map dated (fun r => total_kwh r.1.1)).
      intros d' Hd'. apply month_key_dated. by apply Hdates. }
    split; [|split; [done|]].
    + change (map ?f ?l) with (f <$> l). apply list_elem_of_fmap.
      exists (k, group_of month_key (dated <$> df_daily) k). split; [done|].
      apply elem_of_groupby. split; [|done].
      apply elem_of_group_keys. exists (dated d). split; [|done].
      by apply list_elem_of_fmap_2.
    + unfold aggregate_month; simpl. rewrite Htotals.
      split; [done|]. split; [apply count_map_notna|].
      intros Hnn. rewrite count_map_notna. f_equal. f_equal.
      by apply filter_all.
Qed.

(** The aggregator returns only when every [date_local] was readable. *)
Lemma derive_monthly_returned_readable df_daily monthly :
  derive_monthly_from_daily df_daily = Returned monthly ->
  forall d, d ∈ df_daily -> is_Some (parse_datetime (d_date_local d)).
Proof.
  unfold derive_monthly_from_daily. intros H d Hd.
  destruct (map_result with_year_month df_daily) as [df|e] eqn:E; [|done].
  apply map_result_Returned in E.
  apply list_elem_of_lookup in Hd as [i Hi].
  destruct (Forall2_lookup_l _ _ _ _ _ E Hi) as (r & _ & Hr).
  unfold with_year_month, to_datetime_strict in Hr.
  destruct (parse_datetime (d_date_local d)) as [[w off]|]; [by eexists|done].
Qed.

(** The compensation at work: on the totals 1e16, 1 and 1 the grouped sum
    is 1e16 + 2, while adding from left to right loses both units. *)
Lemma group_sum_compensates :
  let totals := [F64.of_Z (10 ^ 16); F64.of_Z 1; F64.of_Z 1] in
  F64.group_sum totals = F64.of_Z (10 ^ 16 + 2)
  /\ F64.sum totals = F64.of_Z (10 ^ 16)
  /\ F64.group_sum [F64.nan; F64.of_Z 2; F64.nan; F64.of_Z 3] = F64.of_Z 5
  /\ F64.group_sum [F64.nan] = F64.zero
  /\ F64.isna (F64.group_mean [F64.nan]) = true.
Proof. vm_compute. repeat split. Qed.


(** Two days of January and one of February: two monthly rows, January
    totalling 5 over 2 days. *)
Lemma monthly_of_sample_days :
  exists jan feb,
    derive_monthly_from_daily
      [daily "client-1" "meter-1" "2024-01-05" (F64.of_Z 2);
       daily "client-1" "meter-1" "2024-01-06" (F64.of_Z 3);
       daily "client-1" "meter-1" "2024-02-01" (F64.of_Z 7)]
    = Returned [jan; feb]
    /\ (year jan, month jan) = (2024, 1)
    /\ monthly_total_kwh jan = F64.of_Z 5 /\ days_with_data jan = 2
    /\ (year feb, month feb) = (2024, 2)
    /\ monthly_total_kwh feb = F64.of_Z 7 /\ days_with_data feb = 1.
Proof.
  eexists _, _. split; [vm_compute; reflexivity|]. repeat split.
Qed.


End MonthlyFacts.

(** ** Stages and the objects they write *)

Module EffectFacts.
Import Effects.

Section Frame.
Context {cell : Type}
        (column_expr : string -> list (@frame cell) -> @column cell)
        (frame_expr : string -> list (@frame cell) -> @frame cell)
        (test : string -> list (@frame cell) -> bool).

Implicit Types (base s : @store cell) (rs : list ref).

Lemma owned_nil base rs s : owned base rs s -> owned base [] s.
Proof. intros [H _]. split; [done | constructor]. Qed.

Lemma owned_subset base rs rs' s :
  owned base rs s -> (forall r, r ∈ rs' -> r ∈ rs) -> owned base rs' s.
Proof.
  intros [Hp Hf] Hsub. split; [done|].
  apply Forall_forall. intros r Hr.
  by apply (proj1 (Forall_forall _ _) Hf), Hsub.
Qed.

(** *** The primitives *)

Lemma triple_ret {A} base rs (a : A) : triple base rs (ret a) (fun _ => rs).
Proof. intros s H. exact H. Qed.

Lemma triple_ret_owned base rs (a : ref) :
  a ∈ rs -> triple base rs (ret a) (fun r => r :: rs).
Proof.
  intros Ha s H. simpl. apply (owned_subset base rs); [done|].
  intros r [-> | Hr]%elem_of_cons; done.
Qed.

Lemma triple_raise {A} base rs (e : exn) (Q : A -> list ref) :
  triple base rs (raise e) Q.
Proof. intros s H. exact (owned_nil _ _ _ H). Qed.

Lemma triple_bind {A B} base rs (m : M A) (k : A -> M B) Q R :
  triple base rs m Q -> (forall a, triple base (Q a) (k a) R) ->
  triple base rs (bind m k) R.
Proof.
  intros Hm Hk s H. specialize (Hm s H). unfold bind.
  destruct (m s) as [[a|e] s1]; simpl in *; [|exact Hm].
  by apply Hk.
Qed.

Lemma triple_post {A} base rs (m : M A) (Q R : A -> list ref) :
  triple base rs m Q -> (forall a r, r ∈ R a -> r ∈ Q a) -> triple base rs m R.
Proof.
  intros Hm Hsub s H. specialize (Hm s H).
  destruct (m s) as [[a|e] s1]; simpl in *; [|exact Hm].
  eapply owned_subset; [exact Hm|]. apply Hsub.
Qed.

Lemma triple_read base rs (r : ref) : triple base rs (read r) (fun _ => rs).
Proof.
  intros s H. unfold read.
  destruct (s !! r); simpl; [exact H | exact (owned_nil _ _ _ H)].
Qed.

Lemma triple_read_all base rs (reads : list ref) :
  triple base rs (read_all reads) (fun _ => rs).
Proof. intros s H. exact H. Qed.

(** An allocation adds an object behind the ones there are. *)
Lemma triple_alloc base rs (f : frame) : triple base rs (alloc f) (fun r => r :: rs).
Proof.
  intros s [Hp Hf]. unfold alloc; simpl. split.
  - by apply prefix_app_r.
  - apply prefix_length in Hp. constructor.
    + rewrite length_app; simpl. lia.
    + eapply Forall_impl; [exact Hf|]. intros r Hr; simpl in Hr.
      rewrite length_app; simpl. lia.
Qed.

(** A write to an object allocated after [base] leaves [base] as it was. *)
Lemma triple_write base rs (r : ref) (f : frame) :
  r ∈ rs -> triple base rs (write r f) (fun _ => rs).
Proof.
  intros Hr s [Hp Hf]. unfold write; simpl.
  assert ((length base <= r)%nat) as Hge.
  { apply (proj1 (Forall_forall _ _) Hf) in Hr. lia. }
  split.
  - destruct Hp as [t ->]. unfold store in *.
    rewrite insert_app_r_alt by done. by eexists.
  - eapply Forall_impl; [exact Hf|]. intros r' Hr'; simpl in *.
    unfold store in *. by rewrite length_insert.
Qed.

(** *** The operations the stages are written with *)

Lemma triple_copy base rs (df : ref) : triple base rs (copy df) (fun r => r :: rs).
Proof.
  unfold copy, mbind, M_bind.
  eapply triple_bind; [apply triple_read|]. intros f. apply triple_alloc.
Qed.

Lemma triple_setitem base rs (df : ref) (name expr : string) (reads : list ref) :
  df ∈ rs -> triple base rs (setitem column_expr df name expr reads) (fun _ => rs).
Proof.
  intros Hdf. unfold setitem, mbind, M_bind.
  eapply triple_bind; [apply triple_read|]. intros f.
  eapply triple_bind; [apply triple_read_all|]. intros fs.
  by apply triple_write.
Qed.

Lemma triple_derive base rs (expr : string) (reads : list ref) :
  triple base rs (derive frame_expr expr reads) (fun r => r :: rs).
Proof.
  unfold derive, mbind, M_bind.
  eapply triple_bind; [apply triple_read_all|]. intros fs. apply triple_alloc.
Qed.

Lemma triple_cond base rs (expr : string) (reads : list ref) :
  triple base rs (cond test expr reads) (fun _ => rs).
Proof.
  unfold cond, mbind, M_bind.
  eapply triple_bind; [apply triple_read_all|]. intros fs. apply triple_ret.
Qed.

Lemma triple_require_column base rs (df : ref) (name : string) (e : exn) :
  triple base rs (require_column df name e) (fun _ => rs).
Proof.
  unfold require_column, mbind, M_bind.
  eapply triple_bind; [apply triple_read|]. intros f.
  destruct (has_column name f); [apply triple_ret | apply triple_raise].
Qed.

Lemma triple_for_each {A} base rs (l : list A) (body : A -> M unit) :
  (forall x, triple base rs (body x) (fun _ => rs)) ->
  triple base rs (for_each l body) (fun _ => rs).
Proof.
  intros Hbody. induction l as [|x l IH]; simpl; [apply triple_ret|].
  unfold mbind, M_bind. eapply triple_bind; [apply Hbody|]. intros u. exact IH.
Qed.

Lemma triple_ret_final base rs (a : ref) :
  a ∈ rs -> triple base rs (ret a) (fun out => [out]).
Proof.
  intros Ha. apply (triple_post _ _ _ (fun r => r :: rs)).
  - by apply triple_ret_owned.
  - intros out r ->%list_elem_of_singleton. left.
Qed.

Lemma triple_derive_final base rs (expr : string) (reads : list ref) :
  triple base rs (derive frame_expr expr reads) (fun out => [out]).
Proof.
  apply (triple_post _ _ _ (fun r => r :: rs)).
  - apply triple_derive.
  - intros out r ->%list_elem_of_singleton. left.
Qed.

(** *** The stages *)

(** A reference the stage allocated itself. *)
Ltac owned_ref := solve [repeat constructor].

(** One operation of a stage, whatever it returns. *)
Ltac stage_op :=
  lazymatch goal with
  | |- triple _ _ (if ?b then _ else _) _ => destruct b; stage_op
  | |- _ =>
      first [ apply triple_copy
            | apply triple_cond
            | apply triple_derive
            | apply triple_require_column
            | apply triple_read
            | apply triple_setitem; owned_ref
            | apply triple_for_each; intros ?; apply triple_setitem; owned_ref
            | apply triple_ret_owned; owned_ref
            | apply triple_ret
            | apply triple_raise ]
  end.

(** A stage to its end: what it returns is an object of its own. *)
Ltac stage_body :=
  unfold mbind, M_bind; cbv zeta;
  lazymatch goal with
  | |- triple _ _ (if ?b then _ else _) _ => destruct b; stage_body
  | |- triple _ _ (bind _ _) _ =>
      eapply triple_bind; [stage_op | intros ?; stage_body]
  | |- _ =>
      first [ apply triple_ret_final; owned_ref
            | apply triple_derive_final
            | apply triple_raise ]
  end.

Lemma run_stage_triple base (st : stage) (df : ref) :
  triple base [] (run_stage column_expr frame_expr test st df) (fun out => [out]).
Proof.
  destruct st; simpl;
    unfold expand_daily_array_to_hourly, add_time_features_hourly,
      add_lag_features, add_rolling_features_hourly, aggregate_daily_from_hourly,
      add_season_and_holiday_flags, add_rolling_aggregates_daily,
      categorize_daily_consumption, derive_monthly_from_daily;
    stage_body.
Qed.

Lemma similarity_triple base (df_hourly df_daily : ref) :
  triple base []
    (add_daily_load_shape_similarity column_expr frame_expr df_hourly df_daily)
    (fun out => [out]).
Proof. unfold add_daily_load_shape_similarity. stage_body. Qed.

Lemma triple_unchanged_and_fresh s (m : M ref) :
  triple s [] m (fun out => [out]) -> unchanged_and_fresh s (m s).
Proof.
  intros Hm. specialize (Hm s).
  assert (owned s [] s) as H0 by (split; [done | constructor]).
  specialize (Hm H0). unfold unchanged_and_fresh.
  destruct (m s) as [[out|e] s1]; simpl in *; destruct Hm as [Hp Hf].
  - split.
    + intros r f Hr. by eapply prefix_lookup_Some.
    + intros out' [= <-]. by apply Forall_inv in Hf.
  - split; [|done].
    intros r f Hr. by eapply prefix_lookup_Some.
Qed.

(** C9. Whatever the frames hold and whatever the pandas expressions
    evaluate to, every stage of the pipeline (expansion; time, lag and
    rolling features; daily aggregation; season and holiday flags, rolling
    daily aggregates, consumption category and load-shape similarity;
    monthly aggregation) leaves every frame object that existed before the
    call, its input among them, with the content it had, also when the
    stage raises, and the frame it returns is an object allocated during
    the call. *)
Theorem stages_leave_input_unchanged :
  (forall (st : stage) (df : ref) (s : store),
      unchanged_and_fresh s (run_stage column_expr frame_expr test st df s))
  /\ (forall (df_hourly df_daily : ref) (s : store),
        unchanged_and_fresh s
          (add_daily_load_shape_similarity column_expr frame_expr
             df_hourly df_daily s)).
Proof.
  split; intros; apply triple_unchanged_and_fresh.
  - apply run_stage_triple.
  - apply similarity_triple.
Qed.

End Frame.
End EffectFacts.

(* ===================================================================== *)
(** * Further properties of the stages *)
(* ===================================================================== *)

(** ** Sorted lists and filters *)

Module ListFacts.

Lemma StronglySorted_lookup_lt {A} (R : relation A) l i j a b :
  StronglySorted R l -> (i < j)%nat -> l !! i = Some a -> l !! j = Some b -> R a b.
Proof.
  intros Hs. revert i j. induction Hs as [|x l Hs IH Hall]; intros i j Hij Ha Hb.
  - done.
  - destruct j as [|j]; [lia|]. simpl in Hb. destruct i as [|i]; simpl in Ha.
    + injection Ha as <-. rewrite Forall_forall in Hall.
      apply Hall. by eapply list_elem_of_lookup_2.
    + apply (IH i j); [lia|done..].
Qed.

Lemma filter_none {A} (P : A -> Prop) `{forall x, Decision (P x)} (l : list A) :
  (forall x, x ∈ l -> ~ P x) -> filter P l = [].
Proof.
  induction l as [|x l IH]; intros Hl; [done|].
  rewrite filter_cons_False by (apply Hl; left).
  apply IH. intros y Hy. apply Hl. by right.
Qed.

End ListFacts.

(** ** Where a row stands within its group *)

Module PositionFacts.
Import Features.

Section Position.
Context {R K : Type} `{EqDecision K} (key : R -> K).

Lemma group_of_split rows i x :
  rows !! i = Some x ->
  group_of key rows (key x)
  = group_of key (take i rows) (key x)
    ++ x :: group_of key (drop (S i) rows) (key x).
Proof.
  intros Hx. rewrite <-(take_drop i rows) at 1. unfold group_of.
  rewrite filter_app, (drop_S _ _ _ Hx). by rewrite filter_cons_True.
Qed.

Lemma transform_nth (val : R -> float) f rows i x :
  rows !! i = Some x ->
  nth i (transform key val f rows) F64.nan
  = nth (length (group_of key (take i rows) (key x)))
        (f (map val (group_of key rows (key x)))) F64.nan.
Proof. intros Hx. unfold transform. by rewrite (RollingFacts.nth_imap _ _ _ _ x). Qed.

Lemma length_transform (val : R -> float) f rows :
  length (transform key val f rows) = length rows.
Proof. unfold transform. by rewrite length_imap. Qed.
End Position.

Lemma shift_at (lag : nat) (E L : list float) (v : float) :
  (0 < lag)%nat ->
  nth (length E) (shift lag (E ++ v :: L)) F64.nan
  = if (length E <? lag)%nat then F64.nan else nth (length E - lag) E F64.nan.
Proof.
  intros Hlag. unfold shift. rewrite nth_lookup.
  rewrite lookup_take_lt by (rewrite length_app; simpl; lia).
  destruct (Nat.ltb_spec (length E) lag).
  - rewrite lookup_app_l by (rewrite length_replicate; lia).
    by rewrite lookup_replicate_2 by lia.
  - rewrite lookup_app_r by (rewrite length_replicate; lia).
    rewrite length_replicate. rewrite lookup_app_l by lia.
    by rewrite nth_lookup.
Qed.

Lemma dropna_cons_nan l : F64.dropna (F64.nan :: l) = F64.dropna l.
Proof. done. Qed.

Lemma rolling_shift_at (W : nat) (agg : list float -> float)
    (E L : list float) (v : float) :
  (0 < W)%nat ->
  (forall l l', F64.dropna l = F64.dropna l' -> agg l = agg l') ->
  nth (length E) (rolling W 1 agg (shift 1 (E ++ v :: L))) F64.nan
  = (if (length (F64.dropna (drop (length E - W) E)) <? 1)%nat then F64.nan
     else agg (drop (length E - W) E)).
Proof.
  intros HW Hagg. unfold rolling.
  assert (length (shift 1 (E ++ v :: L)) = length (E ++ v :: L)) as Hlen.
  { unfold shift. rewrite length_take, length_app. simpl. rewrite length_app. simpl. lia. }
  assert (is_Some (shift 1 (E ++ v :: L) !! length E)) as [y Hy].
  { apply lookup_lt_is_Some. rewrite Hlen, length_app. simpl. lia. }
  rewrite (RollingFacts.nth_imap _ _ _ _ y Hy). cbv zeta.
  assert (take (S (length E)) (shift 1 (E ++ v :: L)) = F64.nan :: E) as ->.
  { unfold shift. rewrite take_take.
    rewrite Nat.min_l by (rewrite length_app; simpl; lia).
    simpl. by rewrite take_app_length. }
  destruct (Nat.le_gt_cases W (length E)) as [Hle|Hgt].
  - replace (S (length E) - W)%nat with (S (length E - W)) by lia. done.
  - replace (S (length E) - W)%nat with 0%nat by lia.
    replace (length E - W)%nat with 0%nat by lia.
    rewrite !drop_0, dropna_cons_nan. by rewrite (Hagg (F64.nan :: E) E).
Qed.

Lemma rolling_shift_at_map {R} (val : R -> float) (W : nat)
    (agg : list float -> float) (E L : list R) (x : R) :
  (0 < W)%nat ->
  (forall l l', F64.dropna l = F64.dropna l' -> agg l = agg l') ->
  nth (length E) (rolling W 1 agg (shift 1 (map val (E ++ x :: L)))) F64.nan
  = (if (length (F64.dropna (drop (length E - W) (map val E))) <? 1)%nat
     then F64.nan
     else agg (drop (length E - W) (map val E))).
Proof.
  intros HW Hagg. rewrite List.map_app. simpl.
  rewrite <-(List.length_map val E). by apply rolling_shift_at.
Qed.

Lemma mean_dropna l l' : F64.dropna l = F64.dropna l' -> F64.mean l = F64.mean l'.
Proof. intros H. unfold F64.mean, F64.sum, F64.count. by rewrite H. Qed.

Lemma std_dropna l l' : F64.dropna l = F64.dropna l' -> F64.std l = F64.std l'.
Proof. intros H. unfold F64.std. by rewrite H. Qed.

Lemma isna_fillna0 x : F64.isna (F64.fillna0 x) = false.
Proof. by destruct x. Qed.

(** X1. [add_lag_features] (feature_generator.py, lines 94-109).  In the
    frame sorted by device and time, the lag column of a lag [lag >= 1]
    holds, for every row, the consumption of the row [lag] places before it
    among the rows of the same device, and null when the device has fewer
    than [lag] earlier rows. *)
Theorem lag_reads_row_lag_places_back
    (df : list HourlyFeatures) (lags_ : list nat) (i n lag : nat) (r : WithLags) :
  (0 < lag)%nat ->
  add_lag_features df lags_ !! i = Some r ->
  lags_ !! n = Some lag ->
  let sorted := sort_values by_device_time df in
  let earlier :=
    group_of ext_dev_ref (take i sorted) (ext_dev_ref (lag_row r)) in
  sorted !! i = Some (lag_row r)
  /\ lags r !! n
     = Some (if (length earlier <? lag)%nat then F64.nan
             else from_option consumption_kwh F64.nan
                    (earlier !! (length earlier - lag)%nat)).
Proof.
  intros Hlag Hr Hn sorted earlier. unfold add_lag_features in Hr.
  fold sorted in Hr. rewrite list_lookup_imap in Hr.
  destruct (sorted !! i) as [x|] eqn:Hx; [|done]. injection Hr as <-.
  simpl in earlier. split; [done|]. simpl.
  change (map ?f ?l) with (f <$> l). rewrite !list_lookup_fmap, Hn. simpl.
  f_equal. rewrite (transform_nth _ _ _ _ _ x Hx).
  rewrite (group_of_split _ _ _ _ Hx).
  change (map ?f ?l) with (f <$> l). rewrite fmap_app, fmap_cons.
  fold earlier. rewrite <-(length_fmap consumption_kwh earlier).
  rewrite shift_at by done. rewrite length_fmap.
  destruct (length earlier <? lag)%nat; [done|].
  by rewrite nth_lookup, list_lookup_fmap; destruct (earlier !! _).
Qed.

Lemma lag_reads_row_lag_places_back_witness :
  let df := [FeatureSamples.hourly "meter-1" 1 (F64.of_Z 4);
             FeatureSamples.hourly "meter-1" 0 (F64.of_Z 2)] in
  (0 < 1)%nat
  /\ exists r,
       add_lag_features df [1%nat] !! 1%nat = Some r
       /\ lags r !! 0%nat = Some (F64.of_Z 2).
Proof.
  intros df. split; [lia|].
  assert (is_Some (add_lag_features df [1%nat] !! 1%nat)) as [r Hr]
    by (apply lookup_lt_is_Some; vm_compute; lia).
  exists r. split; [done|].
  destruct (lag_reads_row_lag_places_back df [1%nat] 1 0 1 r) as [Hs ->];
    [lia|done|done|].
  vm_compute in Hr. injection Hr as <-. vm_compute. reflexivity.
Defined.

(** The rolling columns of a row in terms of its window: the at most
    [window_hours] readings of the same device that immediately precede it
    in time order. *)
Lemma rolling_values_of_window
    (df : list HourlyFeatures) (window_hours i : nat) (r : WithRolling) :
  (0 < window_hours)%nat ->
  add_rolling_features_hourly df window_hours !! i = Some r ->
  let sorted := sort_values by_device_time df in
  let earlier :=
    map consumption_kwh
        (group_of ext_dev_ref (take i sorted) (ext_dev_ref (rolling_row r))) in
  let window := drop (length earlier - window_hours) earlier in
  sorted !! i = Some (rolling_row r)
  /\ rolling_mean r
     = (if (length (F64.dropna window) <? 1)%nat then F64.nan
        else F64.mean window)
  /\ rolling_std r
     = F64.fillna0 (if (length (F64.dropna window) <? 1)%nat then F64.nan
                    else F64.std window)
  /\ F64.isna (rolling_std r) = false.
Proof.
  intros HW Hr sorted earlier window. unfold add_rolling_features_hourly in Hr.
  fold sorted in Hr. rewrite list_lookup_imap in Hr.
  destruct (sorted !! i) as [x|] eqn:Hx; [|done]. injection Hr as <-.
  simpl in earlier. simpl.
  rewrite !(transform_nth _ _ _ _ _ x Hx), (group_of_split _ _ _ _ Hx).
  set (E := group_of ext_dev_ref (take i sorted) (ext_dev_ref x)) in *.
  set (L := group_of ext_dev_ref (drop (S i) sorted) (ext_dev_ref x)).
  pose proof (rolling_shift_at_map consumption_kwh window_hours F64.mean E L x
                HW mean_dropna) as Hm.
  pose proof (rolling_shift_at_map consumption_kwh window_hours F64.std E L x
                HW std_dropna) as Hs.
  assert (length earlier = length E) as Hlen by apply List.length_map.
  subst window. rewrite Hlen. fold earlier in Hm, Hs.
  split; [done|]. split; [done|].
  assert (nth (length E)
            (map F64.fillna0
               (rolling window_hours 1 F64.std
                  (shift 1 (map consumption_kwh (E ++ x :: L))))) F64.nan
          = F64.fillna0
              (if (length (F64.dropna (drop (length E - window_hours) earlier)) <? 1)%nat
               then F64.nan
               else F64.std (drop (length E - window_hours) earlier))) as ->.
  { change (map F64.fillna0 ?l) with (F64.fillna0 <$> l).
    rewrite <-Hs, !nth_lookup, list_lookup_fmap.
    destruct (rolling _ _ _ _ !! _) eqn:Hl; [done|].
    apply lookup_ge_None_1 in Hl. unfold rolling, shift in Hl.
    rewrite length_imap, length_take, List.length_map, !length_app in Hl.
    simpl in Hl. rewrite List.length_map, length_app in Hl. simpl in Hl. lia. }
  split; [done|]. apply isna_fillna0.
Qed.



End PositionFacts.

(** ** Sort keys are total orders, and [sort_values] sorts *)

Module SortFacts.

Lemma ordering_refl {A} (cmp : A -> A -> comparison) a :
  ordering cmp -> cmp a a = Eq.
Proof.
  intros O. pose proof (ord_antisym cmp O a a) as H.
  by destruct (cmp a a).
Qed.

Lemma ordering_string : ordering String.compare.
Proof.
  split.
  - apply String.compare_antisym.
  - intros a. induction a as [|x a IH]; intros [|y b] [|z c]; simpl; try done.
    unfold Ascii.compare.
    destruct (N.compare_spec (N_of_ascii x) (N_of_ascii y)) as [E1|E1|E1];
      destruct (N.compare_spec (N_of_ascii y) (N_of_ascii z)) as [E2|E2|E2];
      try done.
    + rewrite E1, E2, N.compare_refl. apply IH.
    + intros _ _. by rewrite E1, (proj2 (N.compare_lt_iff _ _) E2).
    + intros _ _. by rewrite <-E2, (proj2 (N.compare_lt_iff _ _) E1).
    + intros _ _. by rewrite (proj2 (N.compare_lt_iff _ _) (N.lt_trans _ _ _ E1 E2)).
  - intros a b c ->%String.compare_eq_iff. done.
Qed.

Lemma ordering_Z : ordering Z.compare.
Proof.
  split.
  - intros a b. apply Z.compare_antisym.
  - intros a b c.
    destruct (Z.compare_spec a b), (Z.compare_spec b c), (Z.compare_spec a c);
      try done; lia.
  - intros a b c ->%Z.compare_eq. done.
Qed.

Lemma ordering_proj {A B} (f : A -> B) (cmp : B -> B -> comparison) :
  ordering cmp -> ordering (fun a b => cmp (f a) (f b)).
Proof. intros [H1 H2 H3]. split; eauto. Qed.

Lemma ordering_eq_r {A} (cmp : A -> A -> comparison) a b c :
  ordering cmp -> cmp b c = Eq -> cmp a b = cmp a c.
Proof.
  intros O H. rewrite (ord_antisym cmp O a b), (ord_antisym cmp O a c).
  by rewrite (ord_eq cmp O b c a H).
Qed.

Lemma ordering_lex {A} (c1 c2 : A -> A -> comparison) :
  ordering c1 -> ordering c2 -> ordering (fun a b => lex (c1 a b) (c2 a b)).
Proof.
  intros O1 O2. split.
  - intros a b. rewrite (ord_antisym c1 O1 a b), (ord_antisym c2 O2 a b).
    by destruct (c1 b a), (c2 b a).
  - intros a b c. unfold lex.
    destruct (c1 a b) eqn:E1; try done; destruct (c1 b c) eqn:E2; try done.
    + rewrite (ord_eq c1 O1 a b c E1), E2. apply (ord_trans c2 O2).
    + by rewrite (ord_eq c1 O1 a b c E1), E2.
    + by rewrite <-(ordering_eq_r c1 a b c O1 E2), E1.
    + by rewrite (ord_trans c1 O1 a b c E1 E2).
  - intros a b c. unfold lex. destruct (c1 a b) eqn:E1; try done. intros E2.
    by rewrite (ord_eq c1 O1 a b c E1), (ord_eq c2 O2 a b c E2).
Qed.

Lemma not_gt_total {A} (cmp : A -> A -> comparison) a b :
  ordering cmp -> not_gt (cmp a b) = true \/ not_gt (cmp b a) = true.
Proof.
  intros O. rewrite (ord_antisym cmp O a b). destruct (cmp b a); simpl; auto.
Qed.

Lemma not_gt_trans {A} (cmp : A -> A -> comparison) a b c :
  ordering cmp ->
  not_gt (cmp a b) = true -> not_gt (cmp b c) = true -> not_gt (cmp a c) = true.
Proof.
  intros O. destruct (cmp a b) eqn:E1; try done; destruct (cmp b c) eqn:E2; try done;
    intros _ _.
  - by rewrite (ord_eq cmp O a b c E1), E2.
  - by rewrite (ord_eq cmp O a b c E1), E2.
  - by rewrite <-(ordering_eq_r cmp a b c O E2), E1.
  - by rewrite (ord_trans cmp O a b c E1 E2).
Qed.

Section Sorted.
Context {A : Type} (le : A -> A -> bool).
Hypothesis le_total : forall a b, le a b = true \/ le b a = true.

Lemma HdRel_insert_sorted x y l :
  le y x = true ->
  HdRel (fun a b => le a b = true) y l ->
  HdRel (fun a b => le a b = true) y (insert_sorted le x l).
Proof.
  intros Hyx Hl. destruct l as [|z l]; simpl; [by constructor|].
  destruct (le x z); constructor; [done|]. by inversion Hl.
Qed.

Lemma Sorted_insert_sorted x l :
  Sorted (fun a b => le a b = true) l ->
  Sorted (fun a b => le a b = true) (insert_sorted le x l).
Proof.
  induction 1 as [|y l Hs IH Hhd]; simpl; [by repeat constructor|].
  destruct (le x y) eqn:Hxy.
  - constructor; [by constructor|by constructor].
  - constructor; [done|]. apply HdRel_insert_sorted; [|done].
    destruct (le_total x y); congruence.
Qed.

Lemma Sorted_sort_values l :
  Sorted (fun a b => le a b = true) (sort_values le l).
Proof.
  induction l as [|x l IH]; simpl; [constructor|]. by apply Sorted_insert_sorted.
Qed.

Hypothesis le_trans :
  forall a b c, le a b = true -> le b c = true -> le a c = true.

Lemma StronglySorted_sort_values l :
  StronglySorted (fun a b => le a b = true) (sort_values le l).
Proof.
  apply Sorted_StronglySorted; [|apply Sorted_sort_values].
  intros a b c. apply le_trans.
Qed.
End Sorted.

Lemma string_eqb_compare a b :
  String.eqb a b = match String.compare a b with Eq => true | _ => false end.
Proof.
  destruct (String.compare a b) eqn:E.
  - apply String.compare_eq_iff in E as ->. apply String.eqb_refl.
  - apply String.eqb_neq. intros ->.
    by rewrite (ordering_refl _ b ordering_string) in E.
  - apply String.eqb_neq. intros ->.
    by rewrite (ordering_refl _ b ordering_string) in E.
Qed.

Lemma hourly_le_cmp (a b : Reader.HourlyRecord) :
  Reader.hourly_le a b = not_gt (hourly_cmp a b).
Proof.
  unfold Reader.hourly_le, hourly_cmp, str_ltb, str_leb, String.ltb, String.leb.
  rewrite string_eqb_compare.
  by destruct (String.compare (Reader.h_ext_dev_ref a) _),
              (String.compare (Reader.timestamp_local a) _).
Qed.

Lemma ordering_hourly : ordering hourly_cmp.
Proof.
  apply (ordering_lex
           (fun a b => String.compare (Reader.h_ext_dev_ref a) (Reader.h_ext_dev_ref b))
           (fun a b => String.compare (Reader.timestamp_local a) (Reader.timestamp_local b)));
    apply (ordering_proj _ String.compare), ordering_string.
Qed.

Lemma ordering_cmp3 : ordering Features.cmp3.
Proof.
  unfold Features.cmp3.
  apply (ordering_lex
           (fun a b : string * string * string => String.compare a.1.1 b.1.1)
           (fun a b => lex (String.compare a.1.2 b.1.2) (String.compare a.2 b.2))).
  - apply (ordering_proj (fun a : string * string * string => a.1.1)), ordering_string.
  - apply (ordering_lex
             (fun a b : string * string * string => String.compare a.1.2 b.1.2)
             (fun a b => String.compare a.2 b.2)).
    + apply (ordering_proj (fun a : string * string * string => a.1.2)), ordering_string.
    + apply (ordering_proj (fun a : string * string * string => a.2)), ordering_string.
Qed.

End SortFacts.

(** ** Counting rows over the groups of a frame *)

Module CountFacts.

Lemma sum_Z_perm l l' : l ≡ₚ l' -> sum_Z l = sum_Z l'.
Proof.
  induction 1; simpl; try lia.
Qed.

Section Groups.
Context {R K : Type} `{EqDecision K} (key : R -> K).
Context (P : R -> Prop) `{forall r, Decision (P r)}.

Lemma sum_Z_zero (ks : list K) :
  sum_Z (map (fun k => Z.of_nat (length (filter P (group_of key [] k)))) ks) = 0.
Proof.
  induction ks as [|k ks IH]; [done|].
  change (0 + sum_Z (map (fun k => Z.of_nat (length (filter P (group_of key [] k))))
                         ks) = 0).
  by rewrite IH.
Qed.

Lemma sum_Z_cons_row (ks : list K) r rows :
  NoDup ks ->
  sum_Z (map (fun k => Z.of_nat (length (filter P (group_of key (r :: rows) k)))) ks)
  = sum_Z (map (fun k => Z.of_nat (length (filter P (group_of key rows k)))) ks)
    + (if decide (key r ∈ ks) then if decide (P r) then 1 else 0 else 0).
Proof.
  unfold group_of. induction 1 as [|k ks Hk Hnd IH]; simpl; [done|].
  rewrite IH. rewrite filter_cons.
  destruct (decide (key r = k)) as [Heq|Hne].
  - subst k. destruct (decide (key r ∈ ks)); [done|].
    destruct (decide (key r ∈ key r :: ks)) as [_|Hn]; [|by destruct Hn; left].
    rewrite filter_cons. destruct (decide (P r)); simpl; lia.
  - destruct (decide (key r ∈ ks)) as [Hin|Hnin];
      destruct (decide (key r ∈ k :: ks)) as [Hin'|Hnin']; try lia.
    + destruct Hnin'. by right.
    + apply elem_of_cons in Hin' as [?|?]; done.
Qed.

(** Every row is counted in exactly one group. *)
Lemma sum_group_counts (ks : list K) rows :
  NoDup ks -> (forall r, r ∈ rows -> key r ∈ ks) ->
  sum_Z (map (fun k => Z.of_nat (length (filter P (group_of key rows k)))) ks)
  = Z.of_nat (length (filter P rows)).
Proof.
  intros Hnd. induction rows as [|r rows IH]; intros Hks.
  - apply sum_Z_zero.
  - rewrite sum_Z_cons_row by done. rewrite IH by (intros; apply Hks; by right).
    rewrite decide_True by (apply Hks; left). rewrite filter_cons.
    destruct (decide (P r)); simpl; lia.
Qed.
End Groups.

End CountFacts.

(** ** Consumption bands *)

Module BandFacts.
Import Features OrderFacts ListFacts.

Lemma count_below_band bins x k lo hi :
  StronglySorted (fun a b => F64.ltb a b = true) bins ->
  bins !! k = Some lo -> bins !! S k = Some hi ->
  F64.ltb lo x = true -> F64.leb x hi = true ->
  length (filter (fun b => F64.ltb b x = true) bins) = S k.
Proof.
  intros Hs Hlo Hhi Hlt Hle.
  assert (filter (fun b => F64.ltb b x = true) (take (S k) bins) = take (S k) bins)
    as Hbelow.
  { apply FloatFacts.filter_all. intros b Hb.
    apply elem_of_take in Hb as (j & Hj & Hjk).
    destruct (decide (j = k)) as [->|Hne]; [congruence|].
    apply ltb_trans with lo; [|done].
    apply (StronglySorted_lookup_lt (fun a b => F64.ltb a b = true) bins j k); [done|lia|done..]. }
  assert (filter (fun b => F64.ltb b x = true) (drop (S k) bins) = []) as Habove.
  { apply filter_none. intros b Hb Hbx.
    apply list_elem_of_lookup in Hb as [j Hj]. rewrite lookup_drop in Hj.
    assert (F64.ltb b hi = true) as Hbhi by (by eapply ltb_leb_trans).
    destruct j as [|j].
    - rewrite Nat.add_0_r in Hj. assert (b = hi) as -> by congruence.
      by rewrite ltb_irrefl in Hbhi.
    - assert (F64.ltb hi b = true) as Hhib
        by (apply (StronglySorted_lookup_lt (fun a b => F64.ltb a b = true) bins (S k) (S k + S j));
            [done|lia|done..]).
      by rewrite (ltb_asym _ _ Hhib) in Hbhi. }
  rewrite <-(take_drop (S k) bins), filter_app, length_app, Hbelow, Habove.
  apply lookup_lt_Some in Hhi. rewrite length_take, Nat.min_l by lia.
  simpl. lia.
Qed.

Lemma count_below_first bins x lo :
  StronglySorted (fun a b => F64.ltb a b = true) bins ->
  bins !! 0%nat = Some lo -> F64.leb x lo = true ->
  filter (fun b => F64.ltb b x = true) bins = [].
Proof.
  intros Hs Hlo Hle. apply filter_none. intros b Hb Hbx.
  assert (F64.ltb b lo = true) as Hblo by (by eapply ltb_leb_trans).
  apply list_elem_of_lookup in Hb as [[|j] Hj].
  - assert (b = lo) as -> by congruence. by rewrite ltb_irrefl in Hblo.
  - assert (F64.ltb lo b = true) as Hlob
      by (apply (StronglySorted_lookup_lt (fun a b => F64.ltb a b = true) bins 0 (S j)); [done|lia|done..]).
    by rewrite (ltb_asym _ _ Hlob) in Hblo.
Qed.

Lemma count_below_last bins x hi :
  StronglySorted (fun a b => F64.ltb a b = true) bins ->
  last bins = Some hi -> F64.ltb hi x = true ->
  filter (fun b => F64.ltb b x = true) bins = bins.
Proof.
  intros Hs Hhi Hlt. apply FloatFacts.filter_all. intros b Hb.
  rewrite last_lookup in Hhi.
  apply list_elem_of_lookup in Hb as [j Hj].
  pose proof (lookup_lt_Some _ _ _ Hj) as Hlen.
  destruct (decide (j = pred (length bins))) as [->|Hne].
  - assert (b = hi) as -> by congruence. done.
  - apply ltb_trans with hi; [|done].
    apply (StronglySorted_lookup_lt (fun a b => F64.ltb a b = true) bins j (pred (length bins)));
      [done|lia|done..].
Qed.





End BandFacts.

(** ** The rows of the daily frame *)

Module DailyRowFacts.
Import Features OrderFacts ListFacts SortFacts CountFacts GroupFacts.

Lemma aggregate_daily_elem_full df daily d :
  aggregate_daily_from_hourly df = Returned daily -> d ∈ daily ->
  exists k d0 cum w,
    k ∈ group_keys daily_key cmp3 df
    /\ aggregate_group k (group_of daily_key df k) = Returned d0
    /\ d = set_frame_wide d0 cum w.
Proof.
  intros (res & Hres & ->)%DailyFacts.aggregate_daily_rows Hd.
  apply list_elem_of_lookup in Hd as [i Hi].
  rewrite list_lookup_imap in Hi.
  destruct (sort_values daily_le res !! i) as [d0|] eqn:Hd0; [|done].
  injection Hi as <-.
  assert (d0 ∈ res) as Hin.
  { apply (elem_of_sort_values daily_le). apply list_elem_of_lookup; eauto. }
  apply list_elem_of_lookup in Hin as [j Hj].
  destruct (Forall2_lookup_r _ _ _ _ _ Hres Hj) as ([k g] & Hg & Hagg).
  apply list_elem_of_lookup_2, elem_of_groupby in Hg as [Hk ->].
  eexists k, d0, _, _. split; [done|]. split; [done|]. reflexivity.
Qed.

Lemma aggregate_group_fields k g d0 :
  aggregate_group k g = Returned d0 ->
  exists i peak,
    F64.idxmax (map consumption_kwh g) = Some (i, peak)
    /\ peak_kwh d0 = peak /\ max_kwh d0 = peak
    /\ peak_hour d0 = from_option hour 0 (g !! i)
    /\ hourly_count d0 = F64.count (map consumption_kwh g).
Proof.
  unfold aggregate_group.
  destruct (F64.idxmax _) as [[i peak]|] eqn:E; [|done].
  intros [= <-]. exists i, peak. simpl. unfold F64.max. by rewrite E.
Qed.

(** X5. [aggregate_daily_from_hourly] (feature_generator.py, lines
    136-173).  The peak of a daily row is a reading of that day: the first
    row of the day's group, in frame order, that holds the largest non-null
    consumption.  No non-null reading of the day exceeds [peak_kwh], every
    earlier one is strictly below it, [peak_hour] is the hour of that row
    and [max_kwh] is the same value. *)
Theorem daily_peak_is_first_maximum
    (df : list HourlyFeatures) (daily : list DailyRecord) (d : DailyRecord) :
  aggregate_daily_from_hourly df = Returned daily -> d ∈ daily ->
  let grp :=
    group_of daily_key df (d_client_id d, d_ext_dev_ref d, d_date_local d) in
  exists i r,
    grp !! i = Some r
    /\ peak_hour d = hour r
    /\ peak_kwh d = consumption_kwh r
    /\ max_kwh d = peak_kwh d
    /\ F64.isna (peak_kwh d) = false
    /\ (forall r', r' ∈ grp -> F64.isna (consumption_kwh r') = false ->
          F64.leb (consumption_kwh r') (peak_kwh d) = true)
    /\ (forall j r', (j < i)%nat -> grp !! j = Some r' ->
          F64.isna (consumption_kwh r') = false ->
          F64.ltb (consumption_kwh r') (peak_kwh d) = true).
Proof.
  intros Hret Hd grp.
  destruct (aggregate_daily_elem_full _ _ _ Hret Hd) as (k & d0 & cum & w & Hk & Hagg & ->).
  pose proof (DailyFacts.aggregate_group_keys _ _ _ Hagg) as Hkey.
  simpl in grp. subst grp. rewrite Hkey.
  destruct (aggregate_group_fields _ _ _ Hagg) as (i & peak & Hmax & Hp & Hm & Hh & _).
  destruct (idxmax_first_max _ _ _ Hmax) as (Hi & Hna & Hall & Hbefore).
  change (map ?f ?l) with (f <$> l) in Hi, Hall, Hbefore.
  rewrite list_lookup_fmap in Hi.
  destruct (group_of daily_key df k !! i) as [r|] eqn:Hr; [|done].
  injection Hi as Hi. exists i, r. simpl. rewrite Hp, Hm, Hh. simpl.
  split_and!; try done.
  - intros r' Hr' Hn. apply list_elem_of_lookup in Hr' as [j Hj].
    apply not_ltb_leb; [done..|].
    apply (Hall j). { by rewrite list_lookup_fmap, Hj. } done.
  - intros j r' Hji Hj Hn.
    apply (Hbefore j); [by rewrite list_lookup_fmap, Hj|done..].
Qed.

Lemma daily_peak_is_first_maximum_witness :
  let df := [FeatureSamples.hourly "meter-1" 0 (F64.of_Z 2);
             FeatureSamples.hourly "meter-1" 1 (F64.of_Z 7);
             FeatureSamples.hourly "meter-1" 2 (F64.of_Z 7)] in
  exists daily d,
    aggregate_daily_from_hourly df = Returned daily /\ d ∈ daily
    /\ peak_hour d = 1 /\ max_kwh d = peak_kwh d.
Proof.
  intros df.
  destruct (aggregate_daily_from_hourly df) as [daily|e] eqn:E;
    [|by vm_compute in E].
  assert (is_Some (daily !! 0%nat)) as [d Hd].
  { vm_compute in E. injection E as <-. by eexists. }
  exists daily, d. split; [done|].
  assert (d ∈ daily) as Hin by (by eapply list_elem_of_lookup_2).
  split; [done|].
  destruct (daily_peak_is_first_maximum df daily d E Hin)
    as (i & r & _ & _ & _ & Hm & _).
  split; [|done].
  vm_compute in E. injection E as <-. injection Hd as <-. reflexivity.
Defined.

Lemma key_fmap_set_frame_wide {B} (f : DailyRecord -> B) (g h : nat -> DailyRecord -> float)
    (l : list DailyRecord) :
  (forall d cum w, f (set_frame_wide d cum w) = f d) ->
  f <$> imap (fun i d => set_frame_wide d (g i d) (h i d)) l = f <$> l.
Proof.
  intros Hf. rewrite fmap_imap, <-imap_const. apply imap_ext.
  intros i x _. simpl. apply Hf.
Qed.

(** X6. [aggregate_daily_from_hourly] (feature_generator.py, lines
    136-173).  The daily frame has exactly one row for every
    (client_id, ext_dev_ref, date_local) that occurs in the hourly frame,
    none for any other key, and its rows are in ascending key order. *)
Theorem daily_rows_one_per_key_in_key_order
    (df : list HourlyFeatures) (daily : list DailyRecord) :
  aggregate_daily_from_hourly df = Returned daily ->
  let key3 (d : DailyRecord) := (d_client_id d, d_ext_dev_ref d, d_date_local d) in
  NoDup (map key3 daily)
  /\ (forall k, k ∈ map key3 daily <-> exists r, r ∈ df /\ daily_key r = k)
  /\ (forall i j a b, (i < j)%nat -> daily !! i = Some a -> daily !! j = Some b ->
        daily_le a b = true /\ key3 a <> key3 b).
Proof.
  intros (res & Hres & ->)%DailyFacts.aggregate_daily_rows key3.
  set (sorted := sort_values daily_le res).
  match goal with |- context [imap ?f sorted] => set (daily := imap f sorted) end.
  assert (key3 <$> res = group_keys daily_key cmp3 df) as Hkeys.
  { rewrite <-groupby_keys. clear daily sorted.
    induction Hres as [|[k g] d0 gs res' Hagg _ IH]; [done|].
    simpl. f_equal; [|done].
    by apply DailyFacts.aggregate_group_keys in Hagg. }
  assert (map key3 daily ≡ₚ key3 <$> res) as Hperm.
  { unfold daily. change (map ?f ?l) with (f <$> l).
    rewrite (key_fmap_set_frame_wide key3) by done.
    unfold sorted. by rewrite sort_values_perm. }
  assert (NoDup (map key3 daily)) as Hnd.
  { rewrite Hperm, Hkeys. apply NoDup_group_keys. }
  split; [done|]. split.
  - intros k. rewrite Hperm, Hkeys. apply elem_of_group_keys.
  - intros i j a b Hij Ha Hb. split.
    + unfold daily in Ha, Hb. rewrite list_lookup_imap in Ha, Hb.
      destruct (sorted !! i) as [a0|] eqn:Ha0; [|done].
      destruct (sorted !! j) as [b0|] eqn:Hb0; [|done].
      injection Ha as <-. injection Hb as <-.
      change (daily_le a0 b0 = true).
      assert (StronglySorted (fun a b => daily_le a b = true) sorted) as Hs.
      { apply StronglySorted_sort_values.
        - intros x y. unfold daily_le.
          apply (not_gt_total (fun a b => cmp3 (key3 a) (key3 b))).
          apply (ordering_proj key3), ordering_cmp3.
        - intros x y z. unfold daily_le.
          apply (not_gt_trans (fun a b => cmp3 (key3 a) (key3 b))).
          apply (ordering_proj key3), ordering_cmp3. }
      by apply (StronglySorted_lookup_lt (fun a b => daily_le a b = true) sorted i j).
    + intros Heq. pose proof (proj1 (NoDup_alt _) Hnd) as Hnd'.
      assert (i = j); [|lia].
      apply (Hnd' i j (key3 a)).
      * change (map ?f ?l) with (f <$> l). by rewrite list_lookup_fmap, Ha.
      * change (map ?f ?l) with (f <$> l). by rewrite list_lookup_fmap, Hb, Heq.
Qed.

Lemma daily_rows_one_per_key_in_key_order_witness :
  let df := [FeatureSamples.hourly "meter-2" 0 (F64.of_Z 2);
             FeatureSamples.hourly "meter-1" 1 (F64.of_Z 7);
             FeatureSamples.hourly "meter-2" 2 (F64.of_Z 7)] in
  exists daily,
    aggregate_daily_from_hourly df = Returned daily
    /\ map d_ext_dev_ref daily = ["meter-1"; "meter-2"]
    /\ NoDup (map (fun d => (d_client_id d, d_ext_dev_ref d, d_date_local d)) daily).
Proof.
  intros df.
  destruct (aggregate_daily_from_hourly df) as [daily|e] eqn:E;
    [|by vm_compute in E].
  exists daily. split; [done|].
  destruct (daily_rows_one_per_key_in_key_order df daily E) as (Hnd & _).
  split; [|done].
  vm_compute in E. injection E as <-. reflexivity.
Defined.

(** X7. [aggregate_daily_from_hourly] (feature_generator.py, lines
    136-173).  The daily grouping loses no reading and counts none twice:
    the [hourly_count] values of the daily frame add up to the number of
    non-null consumption values of the hourly frame. *)
Theorem daily_hourly_counts_add_up
    (df : list HourlyFeatures) (daily : list DailyRecord) :
  aggregate_daily_from_hourly df = Returned daily ->
  sum_Z (map hourly_count daily) = F64.count (map consumption_kwh df).
Proof.
  intros (res & Hres & ->)%DailyFacts.aggregate_daily_rows.
  change (map ?f ?l) with (f <$> l).
  rewrite (key_fmap_set_frame_wide hourly_count) by done.
  rewrite (sum_Z_perm _ (hourly_count <$> res))
    by (by rewrite sort_values_perm).
  assert (hourly_count <$> res
          = map (fun k =>
                   Z.of_nat (length (filter (fun r => F64.isna (consumption_kwh r) = false)
                                            (group_of daily_key df k))))
                (group_keys daily_key cmp3 df)) as ->.
  { rewrite <-groupby_keys.
    assert (forall g, g ∈ groupby daily_key cmp3 df ->
                      g.2 = group_of daily_key df g.1) as Hg.
    { intros [k g] Hin. by apply elem_of_groupby in Hin as [_ ->]. }
    induction Hres as [|[k g] d0 gs res' Hagg _ IH]; [done|].
    simpl. f_equal.
    - apply aggregate_group_fields in Hagg as (_ & _ & _ & _ & _ & _ & ->).
      rewrite MonthlyFacts.count_map_notna. simpl.
      assert (g = group_of daily_key df k) as Hg' by (apply (Hg (k, g)); left).
      by rewrite <-Hg'.
    - apply IH. intros g' Hg'. apply Hg. by right. }
  rewrite (sum_group_counts daily_key).
  - by rewrite MonthlyFacts.count_map_notna.
  - apply NoDup_group_keys.
  - intros r Hr. apply elem_of_group_keys. by exists r.
Qed.

Lemma daily_hourly_counts_add_up_witness :
  let df := [FeatureSamples.hourly "meter-2" 0 (F64.of_Z 2);
             FeatureSamples.hourly "meter-1" 1 (F64.of_Z 7);
             FeatureSamples.hourly "meter-1" 2 F64.nan;
             FeatureSamples.hourly "meter-2" 2 (F64.of_Z 7)] in
  exists daily,
    aggregate_daily_from_hourly df = Returned daily
    /\ sum_Z (map hourly_count daily) = 3.
Proof.
  intros df.
  destruct (aggregate_daily_from_hourly df) as [daily|e] eqn:E;
    [|by vm_compute in E].
  exists daily. split; [done|].
  by rewrite (daily_hourly_counts_add_up df daily E).
Defined.

(** X8. [derive_monthly_from_daily] (feature_generator.py, lines 236-260).
    The monthly grouping loses no day and counts none twice: the
    [days_with_data] values of the monthly frame add up to the number of
    daily rows with a non-null [total_kwh]. *)
Theorem monthly_days_with_data_add_up
    (df_daily : list DailyRecord) (monthly : list MonthlyRecord) :
  derive_monthly_from_daily df_daily = Returned monthly ->
  sum_Z (map days_with_data monthly) = F64.count (map total_kwh df_daily).
Proof.
  unfold derive_monthly_from_daily. intros H.
  destruct (Timestamps.map_result with_year_month df_daily) as [df|e] eqn:E;
    [|done].
  simpl in H. injection H as <-.
  apply map_result_Returned in E.
  assert (map (fun r : DailyRecord * Z * Z => total_kwh r.1.1) df
          = map total_kwh df_daily) as Htot.
  { induction E as [|d r ds rs Hr _ IH]; [done|]. simpl. f_equal; [|done].
    unfold with_year_month in Hr.
    destruct (to_datetime_strict (d_date_local d)); [|done].
    simpl in Hr. by injection Hr as <-. }
  rewrite <-Htot, MonthlyFacts.count_map_notna.
  rewrite <-(sum_group_counts month_key _ (group_keys month_key cmp4 df)).
  - unfold groupby. rewrite !List.map_map. simpl.
    f_equal. apply List.map_ext. intros k.
    apply MonthlyFacts.count_map_notna.
  - apply NoDup_group_keys.
  - intros r Hr. apply elem_of_group_keys. by exists r.
Qed.

Lemma monthly_days_with_data_add_up_witness :
  let df := [FeatureSamples.daily "client-1" "meter-1" "2024-06-15" (F64.of_Z 2);
             FeatureSamples.daily "client-1" "meter-1" "2024-07-01" F64.nan;
             FeatureSamples.daily "client-1" "meter-2" "2024-06-15" (F64.of_Z 7)] in
  exists monthly,
    derive_monthly_from_daily df = Returned monthly
    /\ sum_Z (map days_with_data monthly) = 2.
Proof.
  intros df.
  destruct (derive_monthly_from_daily df) as [monthly|e] eqn:E;
    [|by vm_compute in E].
  exists monthly. split; [done|].
  by rewrite (monthly_days_with_data_add_up df monthly E).
Defined.

End DailyRowFacts.

(** ** The frame the expander returns *)

Module ExpandFacts.
Import Calendar Tz Reader SortFacts.

Lemma expand_loop_log tz cols input : forall idx acc log,
  (expand_loop tz cols idx input acc log).2
  = log ++ concat (imap (fun i row => (expand_row tz cols (idx + i) row).2) input).
Proof.
  induction input as [|row rest IH]; intros idx acc log.
  - simpl. by rewrite app_nil_r.
  - rewrite imap_cons. cbn [expand_loop concat].
    destruct (expand_row tz cols idx row) as [new events] eqn:E.
    rewrite IH, <-app_assoc, Nat.add_0_r, E. cbn [snd]. do 3 f_equal.
    apply imap_ext. intros i x _. cbn [compose]. by rewrite Nat.add_succ_r.
Qed.

Lemma expand_row_log tz cols idx row :
  (expand_row tz cols idx row).2
  = if invalid_array (energy_consumption row)
    then [Warning_skip_row idx (ext_dev_ref row) (date_ row)] else [].
Proof. unfold expand_row. by destruct (invalid_array _). Qed.

Lemma expand_row_length tz cols idx row :
  length (expand_row tz cols idx row).1
  = if invalid_array (energy_consumption row) then 0%nat else 24%nat.
Proof.
  unfold expand_row, invalid_array.
  destruct (array_items (energy_consumption row)) as [items|]; [|done].
  destruct (Nat.eqb_spec (length items) 24); cbn [negb fst length default];
    [|done].
  by rewrite length_imap.
Qed.

Lemma length_emitted tz cols (input : list MeterDayRecord) :
  length (flat_map (fun r => (expand_row tz cols 0 r).1) input)
  = (24 * length (filter (fun r => invalid_array (energy_consumption r) = false)
                         input))%nat.
Proof.
  induction input as [|r input IH]; [done|].
  cbn [flat_map]. rewrite length_app, IH, expand_row_length, filter_cons.
  destruct (invalid_array (energy_consumption r)).
  - rewrite decide_False by done. lia.
  - rewrite decide_True by done. cbn [length]. lia.
Qed.

(** X9. [expand_daily_array_to_hourly] (reader.py, lines 27-71).  For a
    frame with the required columns the expander returns 24 rows for every
    input row whose array is valid and none for the others; its log holds
    one skip warning per invalid row, in row order with the row's index,
    followed by the row count, or by the empty-frame warning when no row
    was valid. *)
Theorem expand_counts_rows_and_warnings (df : DataFrame) (timezone : DstTzInfo) :
  required ⊆ columns df ->
  let valid :=
    filter (fun r => invalid_array (energy_consumption r) = false) (rows df) in
  exists out log,
    expand_daily_array_to_hourly df timezone = Returned (out, log)
    /\ length out = (24 * length valid)%nat
    /\ log
       = concat (imap (fun i row =>
                         if invalid_array (energy_consumption row)
                         then [Warning_skip_row i (ext_dev_ref row) (date_ row)]
                         else [])
                      (rows df))
         ++ [if (length valid =? 0)%nat then Warning_empty_hourly
             else Info_expanded (24 * length valid)].
Proof.
  intros Hcols valid. unfold expand_daily_array_to_hourly.
  rewrite bool_decide_eq_true_2 by done. cbn [negb].
  pose proof (ReaderFacts.expand_loop_rows timezone (columns df) (rows df) 0 [] [])
    as Hrows.
  pose proof (expand_loop_log timezone (columns df) (rows df) 0 [] []) as Hlog.
  destruct (expand_loop timezone (columns df) 0 (rows df) [] [])
    as [rows_ log0]. cbn [fst snd app] in Hrows, Hlog.
  assert (length rows_ = (24 * length valid)%nat) as Hlen
    by (rewrite Hrows; apply length_emitted).
  assert (log0
          = concat (imap (fun i row =>
                            if invalid_array (energy_consumption row)
                            then [Warning_skip_row i (ext_dev_ref row) (date_ row)]
                            else [])
                         (rows df))) as ->.
  { rewrite Hlog. f_equal. apply imap_ext. intros i x _. apply expand_row_log. }
  destruct rows_ as [|r rows_].
  - eexists _, _. split; [reflexivity|]. split; [exact Hlen|].
    cbn [length] in Hlen. by replace (length valid) with 0%nat by lia.
  - eexists _, _. split; [reflexivity|].
    rewrite length_sort_values. split; [exact Hlen|].
    rewrite Hlen. destruct (Nat.eqb_spec (length valid) 0); [|done].
    cbn [length] in Hlen. lia.
Qed.

Lemma expand_counts_rows_and_warnings_witness :
  required ⊆ columns Samples.meter_days
  /\ exists out log,
       expand_daily_array_to_hourly Samples.meter_days LOCAL_TZ = Returned (out, log)
       /\ length out
          = (24 * length (filter (fun r => invalid_array (energy_consumption r) = false)
                                 (rows Samples.meter_days)))%nat.
Proof.
  assert (required ⊆ columns Samples.meter_days) as Hc by decide_by_computation.
  split; [done|].
  destruct (expand_counts_rows_and_warnings Samples.meter_days LOCAL_TZ Hc)
    as (out & log & E & Hlen & _).
  exists out, log. split; [exact E|exact Hlen].
Defined.

Lemma hourly_le_total a b : hourly_le a b = true \/ hourly_le b a = true.
Proof. rewrite !hourly_le_cmp. apply (not_gt_total hourly_cmp), ordering_hourly. Qed.

Lemma hourly_le_trans a b c :
  hourly_le a b = true -> hourly_le b c = true -> hourly_le a c = true.
Proof. rewrite !hourly_le_cmp. apply (not_gt_trans hourly_cmp), ordering_hourly. Qed.

(** X10. [expand_daily_array_to_hourly] (reader.py, lines 27-71).  The frame
    returned holds exactly the rows emitted for the valid input rows, each
    as often as it was emitted, in ascending order of
    (ext_dev_ref, timestamp_local), both compared as strings. *)
Theorem expand_output_sorted_by_device_and_timestamp
    (df : DataFrame) (timezone : DstTzInfo) :
  required ⊆ columns df ->
  exists out log,
    expand_daily_array_to_hourly df timezone = Returned (out, log)
    /\ out ≡ₚ flat_map (fun r => (expand_row timezone (columns df) 0 r).1) (rows df)
    /\ StronglySorted (fun a b => hourly_le a b = true) out
    /\ forall i j a b, (i < j)%nat -> out !! i = Some a -> out !! j = Some b ->
         String.leb (h_ext_dev_ref a) (h_ext_dev_ref b) = true
         /\ (h_ext_dev_ref a = h_ext_dev_ref b ->
             String.leb (timestamp_local a) (timestamp_local b) = true).
Proof.
  intros Hcols.
  destruct (ReaderFacts.expand_returns timezone df Hcols) as (log & E & _).
  eexists _, log. split; [exact E|]. split; [apply sort_values_perm|].
  assert (StronglySorted (fun a b => hourly_le a b = true)
            (sort_values hourly_le
               (flat_map (fun r => (expand_row timezone (columns df) 0 r).1) (rows df))))
    as Hs by (apply StronglySorted_sort_values;
              [apply hourly_le_total|apply hourly_le_trans]).
  split; [done|].
  intros i j a b Hij Ha Hb.
  pose proof (ListFacts.StronglySorted_lookup_lt _ _ i j a b Hs Hij Ha Hb) as Hle.
  cbv beta in Hle. rewrite hourly_le_cmp in Hle. unfold hourly_cmp in Hle.
  unfold String.leb.
  destruct (String.compare (h_ext_dev_ref a) (h_ext_dev_ref b)) eqn:E1; try done.
  split; [done|]. intros Heq. rewrite Heq in E1.
  by rewrite (ordering_refl _ _ ordering_string) in E1.
Qed.

Lemma expand_output_sorted_by_device_and_timestamp_witness :
  required ⊆ columns Samples.meter_days
  /\ exists out log,
       expand_daily_array_to_hourly Samples.meter_days LOCAL_TZ = Returned (out, log)
       /\ StronglySorted (fun a b => hourly_le a b = true) out.
Proof.
  assert (required ⊆ columns Samples.meter_days) as Hc by decide_by_computation.
  split; [done|].
  destruct (expand_output_sorted_by_device_and_timestamp Samples.meter_days LOCAL_TZ Hc)
    as (out & log & E & _ & Hs & _).
  exists out, log. split; [exact E|exact Hs].
Defined.

End ExpandFacts.

(** ** Reading the input files *)

Module ReadFacts.
Import ReaderIO SortFacts.

Lemma str_leb_cmp a b : str_leb a b = not_gt (String.compare a b).
Proof. unfold str_leb, String.leb. by destruct (String.compare a b). Qed.

Lemma sorted_perm files files' : files ≡ₚ files' -> sorted files = sorted files'.
Proof.
  intros Hp. unfold sorted.
  assert (Transitive (fun a b => str_leb a b = true)) as Ht.
  { intros a b c. rewrite !str_leb_cmp. apply (not_gt_trans String.compare).
    apply ordering_string. }
  assert (AntiSymm (=) (fun a b => str_leb a b = true)) as Ha.
  { intros a b. unfold str_leb. apply String.leb_antisym. }
  apply (Sorted_unique (fun a b => str_leb a b = true)).
  - apply Sorted_sort_values. intros a b. rewrite !str_leb_cmp.
    apply (not_gt_total String.compare), ordering_string.
  - apply Sorted_sort_values. intros a b. rewrite !str_leb_cmp.
    apply (not_gt_total String.compare), ordering_string.
  - by rewrite !sort_values_perm.
Qed.

(** X11. [read_all_parquets] (reader.py, lines 14-25).  The frame and the
    log do not depend on the order in which [glob.glob] lists the files:
    the files are read in ascending order of their paths. *)
Theorem read_all_parquets_ignores_glob_order {Frame : Type}
    (pd_DataFrame : Frame) (pd_concat : list Frame -> Frame) (len : Frame -> nat)
    (pd_read_parquet : string -> result Frame)
    (glob1 glob2 : string -> list string) (glob_pattern : string) :
  glob1 glob_pattern ≡ₚ glob2 glob_pattern ->
  read_all_parquets pd_DataFrame pd_concat len pd_read_parquet glob1 glob_pattern
  = read_all_parquets pd_DataFrame pd_concat len pd_read_parquet glob2 glob_pattern.
Proof.
  intros Hp. unfold read_all_parquets.
  rewrite (sorted_perm _ _ Hp).
  destruct (glob1 glob_pattern) as [|p1 l1], (glob2 glob_pattern) as [|p2 l2];
    try done.
  - by apply Permutation_nil_cons in Hp.
  - symmetry in Hp. by apply Permutation_nil_cons in Hp.
Qed.

Lemma read_all_parquets_ignores_glob_order_witness :
  let read (p : string) : result (list string) := Returned [p] in
  let glob1 (_ : string) := ["data/b.parquet"; "data/a.parquet"] in
  let glob2 (_ : string) := ["data/a.parquet"; "data/b.parquet"] in
  glob1 "data/*.parquet" ≡ₚ glob2 "data/*.parquet"
  /\ read_all_parquets [] (@List.concat string) (@length string) read glob1
       "data/*.parquet"
     = (Returned ["data/a.parquet"; "data/b.parquet"],
        [Info_reading "data/a.parquet"; Info_reading "data/b.parquet";
         Info_total_rows 2]).
Proof.
  intros read glob1 glob2.
  assert (glob1 "data/*.parquet" ≡ₚ glob2 "data/*.parquet") as Hp
    by apply Permutation_swap.
  split; [exact Hp|].
  rewrite (read_all_parquets_ignores_glob_order [] (@List.concat string)
             (@length string) read glob1 glob2 "data/*.parquet" Hp).
  reflexivity.
Defined.

End ReadFacts.

(** ** Season and holiday flags *)

Module FlagFacts.
Import Calendar Timestamps Features DailyFlags GroupFacts.

(** [_ord2ymd] returns a month between 1 and 12, for every ordinal. *)
Lemma date_month_range (d : date) : 1 <= date_month d <= 12.
Proof.
  unfold date_month, ord2ymd. cbv zeta.
  set (n := (d - 1) mod DI400Y mod DI100Y mod DI4Y mod 365).
  assert (0 <= n < 365) as Hn by (apply Z.mod_pos_bound; lia).
  destruct (_ || _); [simpl; lia|].
  rewrite Z.shiftr_div_pow2 by lia. change (2 ^ 5) with 32.
  set (month := (n + 50) / 32).
  assert (1 <= month <= 12) as Hm.
  { unfold month. split.
    - apply Z.div_le_lower_bound; lia.
    - apply Z.lt_succ_r. apply Z.div_lt_upper_bound; lia. }
  match goal with
  | |- context [if ?c then _ else _] => destruct c eqn:Hlt
  end; simpl; [|lia].
  destruct (decide (month = 1)) as [Heq|Hne]; [|lia].
  exfalso. rewrite Heq in Hlt. simpl in Hlt. lia.
Qed.

Lemma dict_get_seasons (m : Z) :
  1 <= m <= 12 ->
  exists s, dict_get SEASONS m = Some s
            /\ s ∈ ["winter"; "spring"; "summer"; "fall"]
            /\ (m ∈ [7; 8] -> s = "summer").
Proof.
  intros Hm.
  assert (m = 1 \/ m = 2 \/ m = 3 \/ m = 4 \/ m = 5 \/ m = 6 \/ m = 7 \/ m = 8
          \/ m = 9 \/ m = 10 \/ m = 11 \/ m = 12) as Hcases by lia.
  repeat (destruct Hcases as [->|Hcases]); try subst m;
    (eexists; split; [reflexivity|]; split;
     [repeat (first [left|right]) |
      intros Hin; repeat (apply elem_of_cons in Hin as [Hin|Hin]; try done);
      by apply elem_of_nil in Hin]).
Qed.



End FlagFacts.

(** ** The expander's timestamps read back by the time-feature stage *)

Module PipelineFacts.
Import Calendar Tz Reader Timestamps Pipeline CalendarFacts GroupFacts.

Lemma all_from_spec f n : forall s,
  all_from f n s = true -> forall k, s <= k < s + Z.of_nat n -> f k = true.
Proof.
  induction n as [|n IH]; intros s H k Hk; [lia|].
  cbn [all_from] in H. apply andb_true_iff in H as [Hs Hrest].
  destruct (decide (k = s)) as [->|Hne]; [done|].
  apply (IH (s + 1)); [done|lia].
Qed.

(** The calendar on the days of 2022 to 2026. *)
Lemma calendar_2022_2026 n :
  mkdate 2022 1 1 <= n <= mkdate 2026 12 31 ->
  exists y m d,
    ord2ymd n = (y, m, d) /\ ymd2ord y m d = n /\ 2022 <= y <= 2026
    /\ 1 <= m <= 12 /\ 1 <= d <= days_in_month y m /\ d <= 31.
Proof.
  intros Hn.
  assert (all_from calendar_check (Z.to_nat 1826) (mkdate 2022 1 1) = true) as Hall
    by (vm_compute; reflexivity).
  assert (mkdate 2026 12 31 = mkdate 2022 1 1 + 1825) as Hlast by reflexivity.
  assert (calendar_check n = true) as Hc.
  { apply (all_from_spec _ _ _ Hall). rewrite Z2Nat.id by lia. lia. }
  unfold calendar_check in Hc. destruct (ord2ymd n) as [[y m] d].
  exists y, m, d. rewrite !andb_true_iff, Z.eqb_eq, !Z.leb_le in Hc.
  split; [done|]. lia.
Qed.

Lemma digit_code n : nat_of_ascii (digit n) = (48 + Z.to_nat (n mod 10))%nat.
Proof.
  unfold digit. apply nat_ascii_embedding.
  pose proof (Z.mod_pos_bound n 10). lia.
Qed.

Lemma is_digit_digit n : is_digit (digit n) = true.
Proof.
  unfold is_digit. rewrite digit_code. cbv zeta.
  pose proof (Z.mod_pos_bound n 10).
  apply andb_true_iff. split; apply Nat.leb_le; lia.
Qed.

Lemma digit_value_digit n : digit_value (digit n) = n mod 10.
Proof.
  unfold digit_value. rewrite digit_code.
  pose proof (Z.mod_pos_bound n 10). lia.
Qed.

(** [pd.to_datetime] on a timestamp of full hours written digit by
    digit. *)
Lemma parse_datetime_chars (y1 y2 y3 y4 m1 m2 d1 d2 h1 h2 : ascii)
    (offs : string) (y m d h off : Z) :
  is_digit y1 = true -> is_digit y2 = true -> is_digit y3 = true ->
  is_digit y4 = true -> is_digit m1 = true -> is_digit m2 = true ->
  is_digit d1 = true -> is_digit d2 = true -> is_digit h1 = true ->
  is_digit h2 = true ->
  (((0 * 10 + digit_value y1) * 10 + digit_value y2) * 10 + digit_value y3) * 10
    + digit_value y4 = y ->
  (0 * 10 + digit_value m1) * 10 + digit_value m2 = m ->
  (0 * 10 + digit_value d1) * 10 + digit_value d2 = d ->
  (0 * 10 + digit_value h1) * 10 + digit_value h2 = h ->
  1 <= m <= 12 -> 1 <= d <= days_in_month y m -> 0 <= h < 24 ->
  parse_offset (list_ascii_of_string offs) = Some (Some off) ->
  parse_datetime
    (String y1 (String y2 (String y3 (String y4 (String "-"
      (String m1 (String m2 (String "-" (String d1 (String d2 (String "T"
        (String h1 (String h2 (":00:00" +:+ offs))))))))))))))
  = Some (mkdatetime (mkdate y m d) (h * 3600), Some off).
Proof.
  intros Hy1 Hy2 Hy3 Hy4 Hm1 Hm2 Hd1 Hd2 Hh1 Hh2 Hy Hm Hd Hh Hmr Hdr Hhr Hoff.
  unfold parse_datetime.
  cbn [list_ascii_of_string String.append read_digits].
  rewrite Hy1, Hy2, Hy3, Hy4, Hy. cbn [mbind option_bind expect].
  rewrite Ascii.eqb_refl. cbn [mbind option_bind read_digits].
  rewrite Hm1, Hm2, Hm. cbn [mbind option_bind expect].
  rewrite Ascii.eqb_refl. cbn [mbind option_bind read_digits].
  rewrite Hd1, Hd2, Hd. cbn [mbind option_bind].
  assert ((1 <=? m) && (m <=? 12) && (1 <=? d) && (d <=? days_in_month y m) = true)
    as ->.
  { rewrite !andb_true_iff, !Z.leb_le. lia. }
  cbn [negb]. rewrite Ascii.eqb_refl. cbn [orb mbind option_bind read_digits].
  rewrite Hh1, Hh2, Hh. cbn [mbind option_bind].
  change (list_ascii_of_string (":00:00" +:+ offs))
    with (":"%char :: "0"%char :: "0"%char :: ":"%char :: "0"%char :: "0"%char
          :: list_ascii_of_string offs).
  simpl. rewrite Hoff. simpl.
  change ((0 * 10 + digit_value "0") * 10 + digit_value "0") with 0.
  assert ((h <? 24) = true) as -> by (apply Z.ltb_lt; lia).
  cbn [andb]. change (0 <? 60) with true. cbv iota.
  do 3 f_equal. lia.
Qed.

Lemma pad2_value n :
  0 <= n < 100 -> (0 * 10 + (n / 10) mod 10) * 10 + n mod 10 = n.
Proof. intros Hn. Z.to_euclidean_division_equations. lia. Qed.

Lemma pad4_value n :
  0 <= n < 10000 ->
  (((0 * 10 + (n / 1000) mod 10) * 10 + (n / 100) mod 10) * 10 + (n / 10) mod 10) * 10
    + n mod 10 = n.
Proof. intros Hn. Z.to_euclidean_division_equations. lia. Qed.

(** [pd.to_datetime] reads the timestamp [isoformat] prints for a full
    hour of a day of 2022 to 2026 back as that day and hour. *)
Lemma parse_datetime_isoformat day h offs off :
  mkdate 2022 1 1 <= day <= mkdate 2026 12 31 -> 0 <= h < 24 ->
  parse_offset (list_ascii_of_string offs) = Some (Some off) ->
  parse_datetime ((date_isoformat day +:+ "T" +:+ pad2 h +:+ ":00:00") +:+ offs)
  = Some (mkdatetime day (h * 3600), Some off).
Proof.
  intros Hday Hh Hoff.
  destruct (calendar_2022_2026 day Hday) as (y & m & d & Hymd & Hback & Hy & Hm & Hd & Hd31).
  unfold date_isoformat. rewrite Hymd.
  rewrite <-Hback. change (ymd2ord y m d) with (mkdate y m d).
  apply (parse_datetime_chars
           (digit (y / 1000)) (digit (y / 100)) (digit (y / 10)) (digit y)
           (digit (m / 10)) (digit m) (digit (d / 10)) (digit d)
           (digit (h / 10)) (digit h));
    try apply is_digit_digit; rewrite ?digit_value_digit;
    try done; try (apply pad2_value; lia); try (apply pad4_value; lia).
Qed.

Lemma info_at_Vilnius t :
  info_at Europe_Vilnius t = EET \/ info_at Europe_Vilnius t = EEST.
Proof.
  unfold info_at, Europe_Vilnius. cbn [transitions first_info info_from].
  repeat (destruct (_ <=? _); [|auto]). auto.
Qed.

Lemma localize_candidates_info tz dt c (P : tzinfo -> Prop) :
  (forall t, P (info_at tz t)) -> c ∈ localize_candidates tz dt -> P (tz_of c).
Proof.
  intros HP. unfold localize_candidates. rewrite elem_of_app, list_elem_of_filter.
  assert (forall delta c,
    c ∈ (if dt_eqb (wall (normalize tz (mkaware dt (info_at tz (dt_add dt delta))))) dt
         then [normalize tz (mkaware dt (info_at tz (dt_add dt delta)))] else []) ->
    P (tz_of c)) as Htry.
  { intros delta c'. destruct (dt_eqb _ dt) eqn:E.
    - intros ->%list_elem_of_singleton. apply HP.
    - by intros ?%elem_of_nil. }
  intros [H | [_ H]]; eapply Htry; eauto.
Qed.

(** The tzinfo [localize] attaches is one of the zone's. *)
Lemma localize_fuel_info fuel tz dt (P : tzinfo -> Prop) :
  (forall t, P (info_at tz t)) -> P (tz_of (localize_fuel fuel tz dt)).
Proof.
  intros HP. revert dt. induction fuel as [|fuel IH]; intros dt; simpl.
  - destruct (localize_candidates tz dt) as [|c1 [|c2 rest]] eqn:E; [apply HP| |].
    + apply (localize_candidates_info tz dt); [done|]. rewrite E. left.
    + assert (P (tz_of c1))
        by (apply (localize_candidates_info tz dt); [done|]; rewrite E; left).
      assert (P (tz_of c2))
        by (apply (localize_candidates_info tz dt); [done|]; rewrite E; right; left).
      destruct (filter _ [c1; c2]) as [|c [|]] eqn:F;
        try (case_match; done).
      assert (c ∈ filter (fun c => dst (tz_of c) = 0) [c1; c2]) as Hc
        by (rewrite F; left).
      apply list_elem_of_filter in Hc as [_ Hc].
      apply elem_of_cons in Hc as [-> | Hc]; [done|].
      by apply list_elem_of_singleton in Hc as ->.
  - destruct (localize_candidates tz dt) as [|c1 [|c2 rest]] eqn:E.
    + apply IH.
    + apply (localize_candidates_info tz dt); [done|]. rewrite E. left.
    + assert (P (tz_of c1))
        by (apply (localize_candidates_info tz dt); [done|]; rewrite E; left).
      assert (P (tz_of c2))
        by (apply (localize_candidates_info tz dt); [done|]; rewrite E; right; left).
      destruct (filter _ [c1; c2]) as [|c [|]] eqn:F;
        try (case_match; done).
      assert (c ∈ filter (fun c => dst (tz_of c) = 0) [c1; c2]) as Hc
        by (rewrite F; left).
      apply list_elem_of_filter in Hc as [_ Hc].
      apply elem_of_cons in Hc as [-> | Hc]; [done|].
      by apply list_elem_of_singleton in Hc as ->.
Qed.

Lemma localize_Vilnius dt :
  tz_of (localize LOCAL_TZ dt) = EET \/ tz_of (localize LOCAL_TZ dt) = EEST.
Proof.
  apply (localize_fuel_info 8 LOCAL_TZ dt (fun i => i = EET \/ i = EEST)).
  apply info_at_Vilnius.
Qed.

Lemma list_ascii_of_string_app a b :
  list_ascii_of_string (a +:+ b) = list_ascii_of_string a ++ list_ascii_of_string b.
Proof.
  induction a as [|c a IH]; [done|].
  change (c :: list_ascii_of_string (a +:+ b)
          = c :: (list_ascii_of_string a ++ list_ascii_of_string b)).
  by rewrite IH.
Qed.

(** The offsets of the zone are printed as a token [_TZ_DETECT_RE]
    finds. *)
Lemma search_finds_offset s i :
  i = EET \/ i = EEST ->
  _TZ_DETECT_RE_search (s +:+ offset_isoformat (utcoffset i)) = true.
Proof.
  intros Hi. unfold _TZ_DETECT_RE_search.
  rewrite list_ascii_of_string_app, rev_app_distr.
  destruct Hi as [-> | ->].
  - change (rev (list_ascii_of_string (offset_isoformat (utcoffset EET))))
      with (rev (list_ascii_of_string "+02:00")).
    reflexivity.
  - change (rev (list_ascii_of_string (offset_isoformat (utcoffset EEST))))
      with (rev (list_ascii_of_string "+03:00")).
    reflexivity.
Qed.

Lemma parse_offset_zone i :
  i = EET \/ i = EEST ->
  parse_offset (list_ascii_of_string (offset_isoformat (utcoffset i)))
  = Some (Some (utcoffset i)).
Proof. by intros [-> | ->]. Qed.

Lemma hourly_row_reads_back cols row day h v :
  mkdate 2022 1 1 <= day <= mkdate 2026 12 31 -> (h < 24)%nat ->
  exists u,
    reads_back (hourly_row cols row day (localize LOCAL_TZ (combine day 0 0)) h v) u.
Proof.
  intros Hday Hh.
  set (lm := localize LOCAL_TZ (combine day 0 0)).
  assert (wall lm = combine day 0 0) as Hwall by apply localize_midnight_wall.
  assert (tz_of lm = EET \/ tz_of lm = EEST) as Hzone by apply localize_Vilnius.
  assert (0 <= Z.of_nat h < 24) as Hh' by lia.
  exists (utc_of (aware_add lm (Z.of_nat h * 3600))).
  assert (isoformat (aware_add lm (Z.of_nat h * 3600))
          = (date_isoformat day +:+ "T" +:+ pad2 (Z.of_nat h) +:+ ":00:00")
            +:+ offset_isoformat (utcoffset (tz_of lm))) as Hiso.
  { unfold isoformat, aware_add. cbn [wall tz_of].
    by rewrite Hwall, dt_add_same_day, dt_isoformat_full_hour. }
  unfold reads_back, hourly_row. cbn [timestamp_local timestamp_utc].
  rewrite Hiso. split_and!.
  - by apply search_finds_offset.
  - unfold to_datetime_utc.
    rewrite (parse_datetime_isoformat day (Z.of_nat h) _ (utcoffset (tz_of lm)))
      by (try done; by apply parse_offset_zone).
    cbn [mbind option_bind default]. unfold utc_of, aware_add. cbn [wall tz_of].
    by rewrite Hwall, dt_add_same_day.
  - apply dt_add_normalized.
  - done.
Qed.

Lemma elem_of_expand_row tz cols idx row r :
  r ∈ (expand_row tz cols idx row).1 ->
  invalid_array (energy_consumption row) = false
  /\ exists h v,
       (h < 24)%nat
       /\ r = hourly_row cols row (resolve_date (date_ row))
                (localize tz (combine (resolve_date (date_ row)) 0 0)) h v.
Proof.
  unfold expand_row. destruct (invalid_array (energy_consumption row)) eqn:E.
  - cbn [fst]. by intros ?%elem_of_nil.
  - cbn [fst]. intros Hr. split; [done|].
    unfold invalid_array in E.
    destruct (array_items (energy_consumption row)) as [items|]; [|done].
    cbn [default] in Hr. apply elem_of_lookup_imap in Hr as (h & v & -> & Hv).
    exists h, v. split; [|done].
    apply lookup_lt_Some in Hv.
    apply negb_false_iff, Nat.eqb_eq in E. unfold id in Hv. lia.
Qed.

(** Every row of the expander's frame reads back, when the valid input
    rows are dated 2022 to 2026. *)
Lemma expander_rows_read_back raw hourly log :
  (forall row, row ∈ rows raw -> invalid_array (energy_consumption row) = false ->
     mkdate 2022 1 1 <= resolve_date (date_ row) <= mkdate 2026 12 31) ->
  expand_daily_array_to_hourly raw LOCAL_TZ = Returned (hourly, log) ->
  forall r, r ∈ hourly -> exists u, reads_back r u.
Proof.
  intros Hdates E r Hr.
  unfold expand_daily_array_to_hourly in E.
  destruct (negb _); [done|].
  pose proof (ReaderFacts.expand_loop_rows LOCAL_TZ (columns raw) (rows raw) 0 [] [])
    as Hrows.
  destruct (expand_loop LOCAL_TZ (columns raw) 0 (rows raw) [] []) as [rows_ log0].
  cbn [fst app] in Hrows.
  assert (r ∈ rows_) as Hin.
  { destruct rows_ as [|r0 rows_]; injection E as <- _.
    - by apply elem_of_nil in Hr.
    - by apply (elem_of_sort_values hourly_le r (r0 :: rows_)) in Hr. }
  rewrite Hrows in Hin. apply list_elem_of_In, in_flat_map in Hin as (row & Hrow & Hin).
  apply list_elem_of_In in Hrow, Hin.
  apply elem_of_expand_row in Hin as (Hvalid & h & v & Hh & ->).
  apply hourly_row_reads_back; [by apply Hdates|done].
Qed.

Lemma utc_of_fromutc tz u : normalized u -> utc_of (fromutc tz u) = u.
Proof.
  intros Hu. unfold utc_of, fromutc. cbn [wall tz_of].
  pose proof (dt_add_back u (- utcoffset (info_at tz u)) Hu) as H.
  by rewrite Z.opp_involutive in H.
Qed.

Lemma no_tzinfo_in_strings (l : list HourlyRecord) :
  existsb has_tzinfo (map (fun r => Ts_str (timestamp_local r)) l) = false.
Proof. induction l as [|r l IH]; [done|]. cbn. exact IH. Qed.

Lemma has_offset_of_strings (l : list HourlyRecord) :
  l <> [] ->
  (forall r, r ∈ l -> _TZ_DETECT_RE_search (timestamp_local r) = true) ->
  _series_has_tz_offset (map (fun r => Ts_str (timestamp_local r)) l) = true.
Proof.
  intros Hne Hall. destruct l as [|r l]; [done|].
  unfold _series_has_tz_offset. cbn [map].
  rewrite filter_cons. cbn [isna]. rewrite decide_True by done.
  cbn [map existsb cell_str]. rewrite (Hall r) by left. done.
Qed.

(** The rows kept and the nulls counted when every timestamp is read. *)
Lemma time_columns_of_read_back (l : list HourlyRecord) :
  (forall r, r ∈ l -> exists u, reads_back r u) ->
  let parsed :=
    map (tz_convert _LOCAL_TZ)
        (map to_datetime_utc (map (fun r => Ts_str (timestamp_local r)) l)) in
  filter (fun p : option aware => p = None) parsed = []
  /\ exists rows',
       omap (fun rp : HourlyRecord * option aware =>
               (fun ts => TimeFeatures.time_columns rp.1 ts) <$> rp.2)
            (zip l parsed) = rows'
       /\ map TimeFeatures.source rows' = l
       /\ forall t, t ∈ rows' ->
            isoformat (astimezone_utc (TimeFeatures.timestamp t))
            = timestamp_utc (TimeFeatures.source t)
            /\ (tz_of (TimeFeatures.timestamp t) = EET
                \/ tz_of (TimeFeatures.timestamp t) = EEST)
            /\ TimeFeatures.hour t = dt_hour (wall (TimeFeatures.timestamp t))
            /\ TimeFeatures.date_local t
               = date_isoformat (dt_date (wall (TimeFeatures.timestamp t))).
Proof.
  induction l as [|r l IH]; intros Hall parsed.
  - split; [done|]. exists []. split_and!; try done. by intros t ?%elem_of_nil.
  - destruct (Hall r) as (u & _ & Hu & Hnorm & Hutc); [left|].
    destruct IH as (Hnone & rows' & Hrows & Hsrc & Hts).
    { intros r' Hr'. apply Hall. by right. }
    subst parsed rows'. cbn [map zip zip_with]. rewrite Hu.
    cbn [tz_convert fmap option_fmap option_map].
    split.
    + rewrite filter_cons, decide_False by done. exact Hnone.
    + eexists. split; [reflexivity|].
      cbn [omap list_omap fmap option_fmap option_map fst snd].
      split.
      * cbn [map TimeFeatures.source TimeFeatures.time_columns]. f_equal.
        exact Hsrc.
      * intros t [-> | Ht]%elem_of_cons.
        -- cbn [TimeFeatures.timestamp TimeFeatures.source TimeFeatures.hour
                  TimeFeatures.date_local TimeFeatures.time_columns].
           split_and!; try done.
           ++ unfold astimezone_utc. by rewrite utc_of_fromutc.
           ++ unfold fromutc. cbn [tz_of]. apply info_at_Vilnius.
        -- apply Hts. exact Ht.
Qed.

(** X13. [run_etl] (etl_run.py, lines 29-33), [expand_daily_array_to_hourly]
    (reader.py, lines 27-71) and [add_time_features_hourly]
    (feature_generator.py, lines 65-91).  When the input frame has the
    required columns and no row of it has a valid array, the expander
    returns a frame without rows and without columns, and the
    time-feature stage called on that frame raises KeyError: the two
    calls in a row end with that exception, not with an empty frame. *)
Theorem pipeline_raises_when_no_row_is_valid (raw : DataFrame) :
  required ⊆ columns raw ->
  (forall row, row ∈ rows raw -> invalid_array (energy_consumption row) = true) ->
  (exists log, expand_daily_array_to_hourly raw LOCAL_TZ = Returned ([], log))
  /\ expand_then_time_features raw
     = Raised (KeyError "timestamp_local is required in dataframe").
Proof.
  intros Hreq Hbad.
  assert (forall input : list MeterDayRecord,
            (forall row, row ∈ input -> invalid_array (energy_consumption row) = true) ->
            flat_map (fun r => (expand_row LOCAL_TZ (columns raw) 0 r).1) input = [])
    as Hnone.
  { induction input as [|row input IH]; intros Hin; [done|].
    cbn [flat_map]. rewrite IH by (intros; apply Hin; by right).
    unfold expand_row. rewrite (Hin row) by left. done. }
  unfold expand_then_time_features, expand_daily_array_to_hourly.
  rewrite (bool_decide_eq_true_2 _ Hreq). cbn [negb].
  pose proof (ReaderFacts.expand_loop_rows LOCAL_TZ (columns raw) (rows raw) 0 [] [])
    as Hrows.
  destruct (expand_loop LOCAL_TZ (columns raw) 0 (rows raw) [] []) as [rows_ log0].
  cbn [fst app] in Hrows. rewrite Hnone in Hrows by done. subst rows_.
  split; [by eexists|]. reflexivity.
Qed.

Lemma pipeline_raises_when_no_row_is_valid_witness :
  let raw := mkDataFrame Samples.INPUT_COLUMNS [Samples.short_day] in
  (exists log, expand_daily_array_to_hourly raw LOCAL_TZ = Returned ([], log))
  /\ expand_then_time_features raw
     = Raised (KeyError "timestamp_local is required in dataframe").
Proof.
  intros raw. apply (pipeline_raises_when_no_row_is_valid raw).
  - decide_by_computation.
  - intros row Hrow. apply list_elem_of_singleton in Hrow as ->. reflexivity.
Defined.



End PipelineFacts.
